(** * GPT-2 conversion helper: input synthesis, buffers, comparison, parity loop

    A shallow embedding of [onnxruntime/python/tools/transformers/gpt2_helper.py].

    Python integers are [Z]; floating-point values of input tensors are exact
    rationals ([Q]); engine outputs may also be non-finite ([fval]).  Code that
    raises returns [Err]; code that draws random numbers, allocates memory,
    logs or calls an engine runs in the monad [M] over a [World]. *)

From Stdlib Require Import ZArith QArith Qabs Lia.
From stdpp Require Import gmap strings list fin_maps pretty.

Local Open Scope Z_scope.

(** ** Exceptions and results *)

Inductive exn : Type :=
  | AssertionError | AttributeError | IndexError | KeyError
  | RuntimeError | TypeError | ValueError | ZeroDivisionError.

Inductive result (A : Type) : Type :=
  | Ok (a : A)
  | Err (e : exn).
Arguments Ok {A} a.
Arguments Err {A} e.

(** ** Floating-point values *)

(** A float is a finite value, an infinity or NaN.  Rounding is not modelled:
    finite values are exact rationals. *)
Inductive fval : Type :=
  | Fin (q : Q)
  | PInf
  | NInf
  | NaN.


(** ** The world: random source, allocator, store, events *)

Inductive dtype : Type := Float16 | Float32 | Int64.
Inductive device : Type := Cpu | Cuda.

(** The random source is a stream of raw draws and a cursor; every bounded
    draw is a raw draw reduced into its range, so each value of the range is
    produced by some stream. *)
Record Rng : Type := { rng_src : nat → Z; rng_pos : nat }.

Inductive RunMode : Type := ValuePassing | BoundBuffer.

Inductive LogMsg : Type :=
  | MsgRunningParity (total : Z) (use_io_binding : bool)
  | MsgRunningTrial (batch_size past_sequence_length : Z)
  | MsgOutputClose (index : nat) (is_close : bool)
  | MsgNotAllClose (max_abs_diff : fval)
  | MsgBindOutput (name : string) (dev : device) (size : list Z)
  | MsgParityCases (total passed : Z)
  | MsgParityGood (rate : Z)
  | MsgStart (what : string).

Inductive Event : Type :=
  | LogInfo (m : LogMsg)
  | LogDebug (m : LogMsg)
  | ModelCall
  | EngineRun (mode : RunMode).

(** [w_heap] holds the contents of the memory that is shared and written in
    place: the output buffers and the copies read back from them.  It is keyed
    by the base address of a storage.  [w_uninit a i] is what uninitialised
    memory at base [a], element [i], happens to hold. *)
Record World : Type := {
  w_rng : Rng;
  w_next : Z;
  w_uninit : Z → nat → fval;
  w_heap : gmap Z (list fval);
  w_events : list Event
}.

Definition M (A : Type) : Type := World → result (A * World).

#[global] Instance M_ret : MRet M := λ A a w, Ok (a, w).

#[global] Instance M_bind : MBind M := λ A B f m w,
  match m w with
  | Ok (a, w') => f a w'
  | Err e => Err e
  end.

(** [raise e] *)
Definition raise {A} (e : exn) : M A := λ _, Err e.

(** [assert c] *)
Definition py_assert (c : bool) : M unit :=
  if c then mret tt else raise AssertionError.

(** [for _ in range(n)] collecting one value per iteration (a list
    comprehension). *)
Fixpoint repeatM {A} (n : nat) (m : M A) : M (list A) :=
  match n with
  | O => mret []
  | S n' => x ← m; xs ← repeatM n' m; mret (x :: xs)
  end.

(** [for x in xs: body], threading the loop state [s]. *)
Fixpoint foldM {A S} (body : S → A → M S) (s : S) (xs : list A) : M S :=
  match xs with
  | [] => mret s
  | x :: xs' => s' ← body s x; foldM body s' xs'
  end.

(** [for x in xs] collecting one value per element. *)
Fixpoint mapM {A B} (f : A → M B) (xs : list A) : M (list B) :=
  match xs with
  | [] => mret []
  | x :: xs' => y ← f x; ys ← mapM f xs'; mret (y :: ys)
  end.

(** Record an event. *)
Definition emit (e : Event) : M unit :=
  λ w, Ok (tt, {| w_rng := w_rng w; w_next := w_next w; w_uninit := w_uninit w;
                  w_heap := w_heap w; w_events := w_events w ++ [e] |}).

Definition logger_info (m : LogMsg) : M unit := emit (LogInfo m).
Definition logger_debug (m : LogMsg) : M unit := emit (LogDebug m).

(** ** Random draws *)

(** The next [n] raw draws. *)
Definition raw_draws (n : nat) : M (list Z) :=
  λ w, let r := w_rng w in
       Ok (map (λ i, rng_src r (rng_pos r + i)%nat) (seq 0 n),
           {| w_rng := {| rng_src := rng_src r; rng_pos := (rng_pos r + n)%nat |};
              w_next := w_next w; w_uninit := w_uninit w;
              w_heap := w_heap w; w_events := w_events w |}).

(** [random.randint(a, b)]: an integer in [a..b], both ends included. *)
Definition random_randint (a b : Z) : M Z :=
  if b <? a then raise ValueError
  else r ← raw_draws 1;
       mret (a + (hd 0 r) mod (b - a + 1)).

(** ** Memory *)

(** A fresh storage of [n] elements: its base address.  A storage without
    elements still gets a base of its own. *)
Definition alloc (n : Z) : M Z :=
  λ w, Ok (w_next w,
           {| w_rng := w_rng w; w_next := w_next w + Z.max n 1;
              w_uninit := w_uninit w; w_heap := w_heap w;
              w_events := w_events w |}).

(** The data pointer of [n] elements at offset [off] of the storage at
    [base]: an empty tensor reports the null pointer. *)
Definition data_ptr_of (base off n : Z) : Z :=
  if n =? 0 then 0 else base + off.

(** ** Tensors of the inputs

    An input tensor is never written once [get_dummy_inputs] has returned it,
    so it carries its contents by value, next to what the binding step reads
    of it: device, size, data pointer and contiguity. *)
Record Tensor (D : Type) : Type := {
  t_dtype : dtype;
  t_device : device;
  t_size : list Z;
  t_data : D;
  t_ptr : Z;
  t_contiguous : bool
}.
Arguments t_dtype {D} _.
Arguments t_device {D} _.
Arguments t_size {D} _.
Arguments t_data {D} _.
Arguments t_ptr {D} _.
Arguments t_contiguous {D} _.

(** A matrix is the list of its rows. *)
Abbreviation LongMatrix := (Tensor (list (list Z))).
Abbreviation FloatMatrix := (Tensor (list (list Q))).
(** A tensor of higher rank holds its elements in row-major order. *)
Abbreviation FloatTensor := (Tensor (list Q)).

(** The number of elements of a shape. *)
Definition numel (shape : list Z) : Z := foldr Z.mul 1 shape.

(** Creating a tensor with a negative dimension raises. *)
Definition check_shape (shape : list Z) : M unit :=
  if forallb (λ d, 0 <=? d) shape then mret tt else raise RuntimeError.

(** [torch.rand(shape, dtype, device)]: uniform in [0, 1). *)
Definition torch_rand (shape : list Z) (dt : dtype) (dev : device) : M FloatTensor :=
  check_shape shape;;
  let n := numel shape in
  r ← raw_draws (Z.to_nat n);
  base ← alloc n;
  mret {| t_dtype := dt; t_device := dev; t_size := shape;
         t_data := map (λ x, Qmake (x mod 16777216) 16777216) r;
         t_ptr := data_ptr_of base 0 n; t_contiguous := true |}.

(** Cut a flat list into rows of [cols] elements. *)
Fixpoint chunks {A} (rows cols : nat) (l : list A) : list (list A) :=
  match rows with
  | O => []
  | S r => take cols l :: chunks r cols (drop cols l)
  end.

(** [torch.randint(low, high, size=(rows, cols), dtype=int64, device)]:
    integers in [low, high), the upper end excluded. *)
Definition torch_randint (low high rows cols : Z) (dev : device) : M LongMatrix :=
  check_shape [rows; cols];;
  if high <=? low then raise RuntimeError
  else
    let n := rows * cols in
    r ← raw_draws (Z.to_nat n);
    base ← alloc n;
    mret {| t_dtype := Int64; t_device := dev; t_size := [rows; cols];
           t_data := chunks (Z.to_nat rows) (Z.to_nat cols)
                       (map (λ x, low + x mod (high - low)) r);
           t_ptr := data_ptr_of base 0 n; t_contiguous := true |}.

(** [torch.ones([rows, cols], dtype, device)] *)
Definition torch_ones (rows cols : Z) (dt : dtype) (dev : device) : M FloatMatrix :=
  check_shape [rows; cols];;
  base ← alloc (rows * cols);
  mret {| t_dtype := dt; t_device := dev; t_size := [rows; cols];
         t_data := replicate (Z.to_nat rows) (replicate (Z.to_nat cols) 1%Q);
         t_ptr := data_ptr_of base 0 (rows * cols); t_contiguous := true |}.

(** The two dimensions of a matrix. *)
Definition ncols {D} (t : Tensor D) : Z := nth 1 (t_size t) 0.
Definition nrows {D} (t : Tensor D) : Z := nth 0 (t_size t) 0.

(** [t[:, col] = v], in place.  A negative index counts from the end; an
    index out of range raises. *)
Definition setitem_column (t : FloatMatrix) (col : Z) (v : Q) : M FloatMatrix :=
  let c := if col <? 0 then col + ncols t else col in
  if (0 <=? c) && (c <? ncols t) then
    mret {| t_dtype := t_dtype t; t_device := t_device t; t_size := t_size t;
           t_data := map (λ row, <[Z.to_nat c := v]> row) (t_data t);
           t_ptr := t_ptr t; t_contiguous := t_contiguous t |}
  else raise IndexError.

(** Conversion of a float to int64 truncates towards zero. *)
Definition trunc (q : Q) : Z := Z.quot (Qnum q) (Zpos (Qden q)).

(** Running sums starting from [acc]. *)
Fixpoint cumsum_from (acc : Z) (l : list Z) : list Z :=
  match l with
  | [] => []
  | x :: r => (acc + x) :: cumsum_from (acc + x) r
  end.

(** Running sums of one row. *)
Definition cumsum (l : list Z) : list Z := cumsum_from 0 l.

(** Where a slice [start:] of a dimension of [len] elements begins. *)
Definition slice_start (len start : Z) : Z :=
  if start <? 0 then Z.max 0 (len + start) else Z.min start len.

(** [t.is_contiguous()] of a matrix view with the given strides: a dimension
    of size 1 is skipped, an empty view is contiguous. *)
Definition contiguous2 (rows cols stride0 stride1 : Z) : bool :=
  if rows * cols =? 0 then true
  else ((cols =? 1) || (stride1 =? 1))
       && ((rows =? 1) || (stride0 =? (if cols =? 1 then 1 else cols))).

(** [position_ids = (attention_mask.long().cumsum(-1) - 1)];
    [position_ids.masked_fill_(position_ids < 0, 0)];
    [position_ids = position_ids[:, past_sequence_length:]].
    The result is a view into the storage of the running sums. *)
Definition deduce_position_ids (attention_mask : FloatMatrix)
    (past_sequence_length : Z) : M LongMatrix :=
  let long := map (map trunc) (t_data attention_mask) in
  let sums := map cumsum long in
  let minus1 := map (map (λ x, x - 1)) sums in
  let filled := map (map (λ x, if x <? 0 then 0 else x)) minus1 in
  let rows := nrows attention_mask in
  let cols := ncols attention_mask in
  base ← alloc (rows * cols);
  let start := slice_start cols past_sequence_length in
  let cols' := cols - start in
  mret {| t_dtype := Int64; t_device := t_device attention_mask;
         t_size := [rows; cols'];
         t_data := map (drop (Z.to_nat start)) filled;
         t_ptr := data_ptr_of base start (rows * cols');
         t_contiguous := contiguous2 rows cols' cols 1 |}.

(** ** Python containers *)

(** A pure computation that may raise, run in [M]. *)
Definition lift {A} (r : result A) : M A :=
  λ w, match r with Ok a => Ok (a, w) | Err e => Err e end.

(** [l[i]] *)
Definition getitem {A} (l : list A) (i : nat) : result A :=
  match l !! i with Some x => Ok x | None => Err IndexError end.

(** A [dict] with string keys, in insertion order. *)
Definition dict (V : Type) : Type := list (string * V).

(** [d.get(k)] *)
Fixpoint dict_get {V} (d : dict V) (k : string) : option V :=
  match d with
  | [] => None
  | (k', v) :: r => if decide (k = k') then Some v else dict_get r k
  end.

(** [d[k] = v] *)
Fixpoint dict_set {V} (d : dict V) (k : string) (v : V) : dict V :=
  match d with
  | [] => [(k, v)]
  | (k', v') :: r =>
      if decide (k = k') then (k, v) :: r else (k', v') :: dict_set r k v
  end.

(** [d[k]] *)
Definition dict_getitem {V} (d : dict V) (k : string) : result V :=
  match dict_get d k with Some v => Ok v | None => Err KeyError end.

(** ** numpy *)

(** What [numpy.prod] returns: a 64-bit integer, or the float 1.0 for an
    empty list. *)
Inductive npnum : Type :=
  | NpInt (z : Z)
  | NpFloat (q : Q).

(** An integer reduced into the range of int64. *)
Definition wrap64 (z : Z) : Z := (z + 2 ^ 63) mod 2 ^ 64 - 2 ^ 63.

(** [numpy.prod(shape)] of a list of integers: the product in int64, wrapping
    around. *)
Definition numpy_prod (shape : list Z) : npnum :=
  match shape with
  | [] => NpFloat 1
  | _ => NpInt (foldr (λ d acc, wrap64 (d * acc)) 1 shape)
  end.

(** [n > k] for an integer [k] *)
Definition np_gt (n : npnum) (k : Z) : bool :=
  match n with
  | NpInt z => k <? z
  | NpFloat q => negb (Qle_bool q (inject_Z k))
  end.

(** An array by value: what an engine returns. *)
Record NdArray : Type := { a_shape : list Z; a_data : list fval }.

(** Arithmetic on floats, with the infinities and NaN. *)
Definition fsub (a b : fval) : fval :=
  match a, b with
  | NaN, _ | _, NaN => NaN
  | Fin x, Fin y => Fin (x - y)
  | PInf, PInf | NInf, NInf => NaN
  | PInf, _ | _, NInf => PInf
  | NInf, _ | _, PInf => NInf
  end.

Definition fabs (a : fval) : fval :=
  match a with
  | Fin x => Fin (Qabs x)
  | PInf | NInf => PInf
  | NaN => NaN
  end.

Definition fadd (a b : fval) : fval :=
  match a, b with
  | NaN, _ | _, NaN => NaN
  | Fin x, Fin y => Fin (x + y)
  | PInf, NInf | NInf, PInf => NaN
  | PInf, _ | _, PInf => PInf
  | NInf, _ | _, NInf => NInf
  end.

Definition fsign (a : fval) : Z :=
  match a with
  | Fin x => Z.sgn (Qnum x)
  | PInf => 1
  | NInf => -1
  | NaN => 0
  end.

Definition fdiv (a b : fval) : fval :=
  match a, b with
  | NaN, _ | _, NaN => NaN
  | Fin x, Fin y =>
      if Qeq_bool y 0 then
        match Z.sgn (Qnum x) with 0 => NaN | Zpos _ => PInf | Zneg _ => NInf end
      else Fin (x / y)
  | Fin _, _ => Fin 0
  | _, Fin y => if (fsign a * (if Qle_bool 0 y then 1 else -1)) <? 0 then NInf else PInf
  | _, _ => NaN
  end.

(** The larger of two values; NaN wins. *)
Definition fmax (a b : fval) : fval :=
  match a, b with
  | NaN, _ | _, NaN => NaN
  | PInf, _ | _, PInf => PInf
  | NInf, x | x, NInf => x
  | Fin x, Fin y => if Qle_bool x y then Fin y else Fin x
  end.

(** An element-wise operation on two arrays.  Arrays of one shape are
    combined element by element.  Every other pair of shapes is answered with
    the [ValueError] numpy raises for shapes it cannot broadcast: broadcasting
    of shapes that differ but are compatible is outside this model. *)
Definition elementwise {A} (f : fval → fval → A) (a b : NdArray)
    : result (list A) :=
  if bool_decide (a_shape a = a_shape b)
  then Ok (zip_with f (a_data a) (a_data b))
  else Err ValueError.

(** [numpy.isclose] on one pair of elements, [b] the reference: finite values
    are compared with [|a - b| <= atol + rtol * |b|], non-finite ones are close
    when equal, NaN is close to nothing. *)
Definition isclose (rtol atol : Q) (a b : fval) : bool :=
  match a, b with
  | Fin x, Fin y => Qle_bool (Qabs (x - y)) (atol + rtol * Qabs y)
  | PInf, PInf | NInf, NInf => true
  | _, _ => false
  end.

(** [numpy.allclose(a, b, rtol=rtol, atol=atol)] *)
Definition numpy_allclose (a b : NdArray) (rtol atol : Q) : result bool :=
  match elementwise (isclose rtol atol) a b with
  | Ok l => Ok (forallb id l)
  | Err e => Err e
  end.

(** [numpy.amax]: undefined on an empty array. *)
Definition numpy_amax (l : list fval) : result fval :=
  match l with
  | [] => Err ValueError
  | x :: r => Ok (foldl fmax x r)
  end.

(** ** Tensors in the store

    An output buffer is written by the engine through its data pointer and
    read back later, so its contents live in [w_heap]; views of it share its
    storage. *)
Record StoredTensor : Type := {
  s_base : Z;
  s_offset : Z;
  s_size : list Z;
  s_dtype : dtype;
  s_device : device
}.

(** [t.nelement()] *)
Definition nelement (t : StoredTensor) : Z := numel (s_size t).

(** [t.data_ptr()] *)
Definition data_ptr (t : StoredTensor) : Z :=
  data_ptr_of (s_base t) (s_offset t) (nelement t).

(** The elements of [t] as the store has them. *)
Definition load (w : World) (t : StoredTensor) : list fval :=
  take (Z.to_nat (nelement t))
    (drop (Z.to_nat (s_offset t)) (default [] (w_heap w !! s_base t))).

(** The world as it is. *)
Definition get_world : M World := λ w, Ok (w, w).

(** The storage at [base] now holds [data]. *)
Definition set_storage (base : Z) (data : list fval) : M unit :=
  λ w, Ok (tt,
           {| w_rng := w_rng w; w_next := w_next w; w_uninit := w_uninit w;
              w_heap := <[base := data]> (w_heap w); w_events := w_events w |}).

(** A fresh storage holding [data]. *)
Definition new_storage (data : list fval) : M Z :=
  base ← alloc (Z.of_nat (length data));
  set_storage base data;;
  mret base.

(** [torch.empty(n, dtype, device)]: a flat tensor of [n] uninitialised
    elements. *)
Definition torch_empty (n : npnum) (dt : dtype) (dev : device) : M StoredTensor :=
  match n with
  | NpFloat _ => raise TypeError
  | NpInt z =>
      if z <? 0 then raise RuntimeError
      else
        w ← get_world;
        base ← new_storage (map (w_uninit w (w_next w)) (seq 0 (Z.to_nat z)));
        mret {| s_base := base; s_offset := 0; s_size := [z];
                s_dtype := dt; s_device := dev |}
  end.

(** [t[0:stop]]: a view of the leading elements along the first dimension. *)
Definition slice_prefix (t : StoredTensor) (stop : npnum) : M StoredTensor :=
  match stop with
  | NpFloat _ => raise TypeError
  | NpInt z =>
      match s_size t with
      | [] => raise IndexError
      | d :: rest =>
          let stop' := if z <? 0 then Z.max 0 (d + z) else Z.min z d in
          mret {| s_base := s_base t; s_offset := s_offset t;
                  s_size := stop' :: rest;
                  s_dtype := s_dtype t; s_device := s_device t |}
      end
  end.

(** The shape [t.reshape(shape)] ends up with: one dimension may be given as
    -1 and is then inferred. *)
Definition reshape_size (n : Z) (shape : list Z) : result (list Z) :=
  match filter (λ d, d < 0) shape with
  | [] => if numel shape =? n then Ok shape else Err RuntimeError
  | [-1] =>
      let known := - numel shape in
      if (known =? 0) || negb (n mod known =? 0) then Err RuntimeError
      else Ok (map (λ d, if d =? -1 then n / known else d) shape)
  | _ => Err RuntimeError
  end.

(** [t.reshape(shape)] of a contiguous tensor: a view. *)
Definition reshape (t : StoredTensor) (shape : list Z) : M StoredTensor :=
  size ← lift (reshape_size (nelement t) shape);
  mret {| s_base := s_base t; s_offset := s_offset t; s_size := size;
          s_dtype := s_dtype t; s_device := s_device t |}.

(** [t.clone()]: the elements are copied into a storage of their own. *)
Definition clone (t : StoredTensor) : M StoredTensor :=
  w ← get_world;
  base ← new_storage (load w t);
  mret {| s_base := base; s_offset := 0; s_size := s_size t;
          s_dtype := s_dtype t; s_device := s_device t |}.

(** [t.detach()] shares the storage of [t]. *)
Definition detach (t : StoredTensor) : M StoredTensor := mret t.

(** [t.cpu()]: [t] itself when it is on the host, else a copy on the host. *)
Definition cpu (t : StoredTensor) : M StoredTensor :=
  match s_device t with
  | Cpu => mret t
  | Cuda =>
      c ← clone t;
      mret {| s_base := s_base c; s_offset := s_offset c; s_size := s_size c;
              s_dtype := s_dtype c; s_device := Cpu |}
  end.

(** [t.numpy()]: an array over the memory of a host tensor. *)
Definition numpy (t : StoredTensor) : M StoredTensor :=
  match s_device t with
  | Cpu => mret t
  | Cuda => raise TypeError
  end.

(** Elements written through a bound pointer overwrite what the storage at
    that address holds. *)
Definition write_mem (ptr : Z) (data : list fval) : M unit :=
  λ w, Ok (tt,
           {| w_rng := w_rng w; w_next := w_next w; w_uninit := w_uninit w;
              w_heap := match w_heap w !! ptr with
                        | Some old => <[ptr := data ++ drop (length data) old]> (w_heap w)
                        | None => w_heap w
                        end;
              w_events := w_events w |}).

(** An output as the comparison receives it: an array by value, or an array
    over memory of the store. *)
Inductive ArrayLike : Type :=
  | Val (a : NdArray)
  | Ref (t : StoredTensor).

(** The array an [ArrayLike] stands for when it is read. *)
Definition array_of (w : World) (x : ArrayLike) : NdArray :=
  match x with
  | Val a => a
  | Ref t => {| a_shape := s_size t; a_data := load w t |}
  end.

(** Reading an [ArrayLike] takes the contents it has at that moment. *)
Definition read_array (x : ArrayLike) : M NdArray :=
  w ← get_world; mret (array_of w x).

(** ** The engines *)

Inductive AnyTensor : Type :=
  | LongT (t : LongMatrix)
  | FloatM (t : FloatMatrix)
  | FloatT (t : FloatTensor).

(** What the reference model returns: the primary output and one tensor per
    layer. *)
Definition TorchOutputs : Type := NdArray * list NdArray.

Record GPT2Config : Type := {
  num_attention_heads : Z;
  hidden_size : Z;
  n_layer : Z;
  vocab_size : Z
}.

(** The reference model: its configuration and its forward pass, a function
    of the positional inputs. *)
Record PyTorchModel : Type := {
  config : GPT2Config;
  forward : list AnyTensor → result TorchOutputs
}.

(** One [bind_input] or [bind_output]. *)
Record Binding : Type := {
  b_name : string;
  b_device : device;
  b_device_id : Z;
  b_dtype : dtype;
  b_shape : list Z;
  b_ptr : Z
}.

Record IoBinding : Type := {
  bound_inputs : list Binding;
  bound_outputs : list Binding
}.

(** The portable-graph engine.  [run] maps the named inputs to the output
    arrays.  [run_with_iobinding] reads the inputs through the bound pointers
    and writes each output through its bound pointer; the memory the input
    pointers refer to is passed next to the binding, and the arrays it answers
    are what it writes, one per bound output. *)
Record InferenceSession : Type := {
  get_outputs : list string;
  run : dict AnyTensor → result (list NdArray);
  run_with_iobinding : IoBinding → list AnyTensor → result (list NdArray)
}.

(** [ort_session.io_binding()]: a binding with nothing bound. *)
Definition io_binding (s : InferenceSession) : IoBinding :=
  {| bound_inputs := []; bound_outputs := [] |}.

(** [io_binding.bind_input(name, device_type, device_id, element_type, shape,
    buffer_ptr)]: the binding refuses a null pointer. *)
Definition bind_input (b : IoBinding) (name : string) (dev : device)
    (device_id : Z) (dt : dtype) (shape : list Z) (ptr : Z) : M IoBinding :=
  if ptr =? 0 then raise RuntimeError
  else mret {| bound_inputs := bound_inputs b ++
                 [{| b_name := name; b_device := dev; b_device_id := device_id;
                     b_dtype := dt; b_shape := shape; b_ptr := ptr |}];
               bound_outputs := bound_outputs b |}.

(** [io_binding.bind_output(name, device_type, device_id, element_type, shape,
    buffer_ptr)] *)
Definition bind_output (b : IoBinding) (name : string) (dev : device)
    (device_id : Z) (dt : dtype) (shape : list Z) (ptr : Z) : M IoBinding :=
  if ptr =? 0 then raise RuntimeError
  else mret {| bound_inputs := bound_inputs b;
               bound_outputs := bound_outputs b ++
                 [{| b_name := name; b_device := dev; b_device_id := device_id;
                     b_dtype := dt; b_shape := shape; b_ptr := ptr |}] |}.

(** [ort_session.run(None, ort_inputs)] *)
Definition session_run (s : InferenceSession) (ort_inputs : dict AnyTensor)
    : M (list ArrayLike) :=
  emit (EngineRun ValuePassing);;
  outs ← lift (run s ort_inputs);
  mret (map Val outs).

(** [ort_session.run_with_iobinding(io_binding)] *)
Definition session_run_with_iobinding (s : InferenceSession) (b : IoBinding)
    (memory : list AnyTensor) : M unit :=
  emit (EngineRun BoundBuffer);;
  outs ← lift (run_with_iobinding s b memory);
  foldM (λ _ bo, write_mem (b_ptr bo.1) (a_data bo.2)) tt
        (zip (bound_outputs b) outs).

(** ** Gpt2Inputs *)

Record Gpt2Inputs : Type := {
  input_ids : LongMatrix;
  position_ids : option LongMatrix;
  attention_mask : option FloatMatrix;
  past : option (list FloatTensor)
}.

(** [to_list]: the inputs that are present, in positional order. *)
Definition to_list (self : Gpt2Inputs) : list AnyTensor :=
  [LongT (input_ids self)]
  ++ from_option (λ t, [LongT t]) [] (position_ids self)
  ++ from_option (λ t, [FloatM t]) [] (attention_mask self)
  ++ from_option (map FloatT) [] (past self).

(** [t.to(dtype=dt)] *)
Definition to_dtype {D} (t : Tensor D) (dt : dtype) : Tensor D :=
  {| t_dtype := dt; t_device := t_device t; t_size := t_size t;
     t_data := t_data t; t_ptr := t_ptr t; t_contiguous := t_contiguous t |}.

(** [to_fp32]: the mask and the cache in single precision. *)
Definition to_fp32 (self : Gpt2Inputs) : result Gpt2Inputs :=
  let attention_mask := (λ m, to_dtype m Float32) <$> attention_mask self in
  match past self with
  | None => Err TypeError
  | Some ps =>
      Ok {| input_ids := input_ids self; position_ids := position_ids self;
            attention_mask := attention_mask;
            past := Some (map (λ p, to_dtype p Float32) ps) |}
  end.

(** [int(a / b)] on Python integers.  The quotient is taken exactly. *)
Definition int_div (a b : Z) : M Z :=
  if b =? 0 then raise ZeroDivisionError else mret (Z.quot a b).

(** Model class name to the name of the first output and whether padding
    inputs are used. *)
Definition MODEL_CLASSES : dict (string * bool) :=
  [("GPT2LMHeadModel", ("logits", true));
   ("GPT2LMHeadModel_NoPadding", ("logits", false));
   ("GPT2Model", ("last_state", true))]%string.

Module Gpt2Helper.

Definition get_dummy_inputs (batch_size past_sequence_length sequence_length
    num_attention_heads hidden_size num_layer vocab_size : Z) (dev : device)
    (float16 has_position_ids has_attention_mask : bool) : M Gpt2Inputs :=
  let float_type := if float16 then Float16 else Float32 in
  head_size ← int_div hidden_size num_attention_heads;
  let past_shape :=
    [2; batch_size; num_attention_heads; past_sequence_length; head_size] in
  past ← repeatM (Z.to_nat num_layer) (torch_rand past_shape float_type dev);
  input_ids ← torch_randint 0 (vocab_size - 1) batch_size sequence_length dev;
  attention_mask ←
    (if has_attention_mask then
       let total_sequence_length := past_sequence_length + sequence_length in
       m ← torch_ones batch_size total_sequence_length float_type dev;
       (if 2 <=? total_sequence_length then
          padding_position ← random_randint 0 (total_sequence_length - 1);
          m' ← setitem_column m padding_position 0%Q;
          mret (Some m')
        else mret (Some m))
     else mret None);
  position_ids ←
    (if has_position_ids then
       match attention_mask with
       | None => raise AttributeError
       | Some m => p ← deduce_position_ids m past_sequence_length; mret (Some p)
       end
     else mret None);
  mret {| input_ids := input_ids; position_ids := position_ids;
         attention_mask := attention_mask; past := Some past |}.

Definition get_output_shapes (batch_size past_sequence_length sequence_length : Z)
    (config : GPT2Config) (model_class : string) : M (dict (list Z)) :=
  let num_attention_heads := num_attention_heads config in
  let hidden_size := hidden_size config in
  let num_layer := n_layer config in
  let vocab_size := vocab_size config in
  entry ← lift (dict_getitem MODEL_CLASSES model_class);
  let output_name := entry.1 in
  let last_state_shape :=
    [batch_size; sequence_length;
     if decide (output_name = "logits"%string) then vocab_size else hidden_size] in
  head_size ← int_div hidden_size num_attention_heads;
  let present_state_shape :=
    [2; batch_size; num_attention_heads;
     past_sequence_length + sequence_length; head_size] in
  let output_shapes := [(output_name, last_state_shape)] in
  mret (foldl (λ output_shapes i,
                 dict_set output_shapes ("present_" +:+ pretty i) present_state_shape)
              output_shapes (seq 0 (Z.to_nat num_layer))).

(** The dictionary is updated in place; the model returns it. *)
Definition auto_increase_buffer_size (output_buffers : gmap string StoredTensor)
    (output_shapes : dict (list Z)) : M (gmap string StoredTensor) :=
  foldM (λ output_buffers key,
           py_assert (bool_decide (is_Some (output_buffers !! key)));;
           buffer ← lift (from_option Ok (Err KeyError) (output_buffers !! key));
           shape ← lift (dict_getitem output_shapes key);
           if np_gt (numpy_prod shape) (nelement buffer) then
             t ← torch_empty (numpy_prod shape) (s_dtype buffer) (s_device buffer);
             mret (<[key := t]> output_buffers)
           else mret output_buffers)
        output_buffers (output_shapes.*1).

Definition get_output_buffers (output_shapes : dict (list Z)) (dev : device)
    (is_float16 : bool) : M (gmap string StoredTensor) :=
  let data_type := if is_float16 then Float16 else Float32 in
  foldM (λ output_buffers item,
           t ← torch_empty (numpy_prod item.2) data_type dev;
           mret (<[item.1 := t]> output_buffers))
        ∅ output_shapes.

Definition diff_outputs (torch_outputs : TorchOutputs)
    (ort_outputs : list ArrayLike) (relative : bool) : M fval :=
  let expected_outputs := torch_outputs.1 in
  o ← lift (getitem ort_outputs 0);
  o ← read_array o;
  diff ← lift (elementwise (λ x y, fabs (fsub x y)) expected_outputs o);
  if relative then
    let denominator := map (λ x, fadd (fabs x) (Fin (1 # 1000000))) (a_data expected_outputs) in
    lift (numpy_amax (zip_with fdiv diff denominator))
  else lift (numpy_amax diff).

Definition compare_outputs (torch_outputs : TorchOutputs)
    (ort_outputs : list ArrayLike) (rtol atol : Q) : M bool :=
  o ← lift (getitem ort_outputs 0);
  o ← read_array o;
  is_close ← lift (numpy_allclose o torch_outputs.1 rtol atol);
  logger_debug (MsgOutputClose 0 is_close);;
  let is_all_close := is_close in
  let num_layers := (length ort_outputs - 1)%nat in
  is_all_close ←
    foldM (λ is_all_close layer,
             o ← lift (getitem ort_outputs (1 + layer));
             o ← read_array o;
             t ← lift (getitem torch_outputs.2 layer);
             is_close ← lift (numpy_allclose o t rtol atol);
             logger_debug (MsgOutputClose (1 + layer) is_close);;
             mret (is_all_close && is_close))
          is_all_close (seq 0 num_layers);
  (if negb is_all_close then
     max_abs_diff ← diff_outputs torch_outputs ort_outputs false;
     logger_info (MsgNotAllClose max_abs_diff)
   else mret tt);;
  mret is_all_close.

(** The outputs of the model, for [total_runs = 0]: the latency loop reads
    the wall clock and is not modelled. *)
Definition pytorch_inference (model : PyTorchModel) (inputs : Gpt2Inputs)
    : M TorchOutputs :=
  logger_debug (MsgStart "pytorch_inference");;
  fp32 ← lift (to_fp32 inputs);
  let input_list := to_list fp32 in
  emit ModelCall;;
  lift (forward model input_list).

(** For [total_runs = 0]. *)
Definition onnxruntime_inference (ort_session : InferenceSession)
    (inputs : Gpt2Inputs) : M (list ArrayLike) :=
  logger_debug (MsgStart "onnxruntime_inference");;
  let ort_inputs := [("input_ids"%string, LongT (input_ids inputs))] in
  let ort_inputs :=
    match past inputs with
    | Some ps =>
        foldl (λ d ip, dict_set d ("past_" +:+ pretty ip.1) (FloatT ip.2))
              ort_inputs (imap pair ps)
    | None => ort_inputs
    end in
  let ort_inputs :=
    match attention_mask inputs with
    | Some m => dict_set ort_inputs "attention_mask" (FloatM m)
    | None => ort_inputs
    end in
  let ort_inputs :=
    match position_ids inputs with
    | Some p => dict_set ort_inputs "position_ids" (LongT p)
    | None => ort_inputs
    end in
  session_run ort_session ort_inputs.

Definition prepare_io_binding (ort_session : InferenceSession)
    (input_ids : LongMatrix) (position_ids : option LongMatrix)
    (attention_mask : option FloatMatrix) (past : option (list FloatTensor))
    (output_buffers : option (gmap string StoredTensor))
    (output_shapes : dict (list Z)) : M IoBinding :=
  let io_binding := io_binding ort_session in
  py_assert (t_contiguous input_ids);;
  io_binding ← bind_input io_binding "input_ids" (t_device input_ids) 0 Int64
                 (t_size input_ids) (t_ptr input_ids);
  first ← lift (getitem (get_outputs ort_session) 0);
  output_buffers ← lift (from_option Ok (Err TypeError) output_buffers);
  first_buffer ← lift (from_option Ok (Err KeyError) (output_buffers !! first));
  let data_type := s_dtype first_buffer in
  let float_type := match data_type with Float16 => Float16 | _ => Float32 end in
  io_binding ←
    match past with
    | Some ps =>
        foldM (λ io_binding ip,
                 let i := ip.1 in let past_i := ip.2 in
                 py_assert (t_contiguous past_i);;
                 let data_ptr := t_ptr past_i in
                 let data_ptr :=
                   if data_ptr =? 0 then t_ptr input_ids else data_ptr in
                 bind_input io_binding ("past_" +:+ pretty i) (t_device past_i) 0
                   float_type (t_size past_i) data_ptr)
              io_binding (imap pair ps)
    | None => mret io_binding
    end;
  io_binding ←
    match attention_mask with
    | Some m =>
        py_assert (t_contiguous m);;
        bind_input io_binding "attention_mask" (t_device m) 0 float_type
          (t_size m) (t_ptr m)
    | None => mret io_binding
    end;
  io_binding ←
    match position_ids with
    | Some p =>
        py_assert (t_contiguous p);;
        bind_input io_binding "position_ids" (t_device p) 0 Int64
          (t_size p) (t_ptr p)
    | None => mret io_binding
    end;
  foldM (λ io_binding output_name,
           output_buffer ← lift (from_option Ok (Err KeyError)
                                   (output_buffers !! output_name));
           logger_debug (MsgBindOutput output_name (s_device output_buffer)
                           (s_size output_buffer));;
           shape ← lift (dict_getitem output_shapes output_name);
           bind_output io_binding output_name (s_device output_buffer) 0
             float_type shape (data_ptr output_buffer))
        io_binding (get_outputs ort_session).

Definition get_outputs_from_io_binding_buffer (ort_session : InferenceSession)
    (output_buffers : option (gmap string StoredTensor))
    (output_shapes : dict (list Z)) (return_numpy : bool)
    : M (list StoredTensor) :=
  mapM (λ output_name,
          buffers ← lift (from_option Ok (Err TypeError) output_buffers);
          buffer ← lift (from_option Ok (Err KeyError) (buffers !! output_name));
          shape ← lift (dict_getitem output_shapes output_name);
          sliced ← slice_prefix buffer (numpy_prod shape);
          reshaped ← reshape sliced shape;
          cloned ← clone reshaped;
          copy_tensor ← detach cloned;
          if return_numpy then
            on_host ← cpu copy_tensor;
            numpy on_host
          else mret copy_tensor)
       (get_outputs ort_session).

(** For [total_runs = 0]. *)
Definition onnxruntime_inference_with_binded_io (ort_session : InferenceSession)
    (inputs : Gpt2Inputs) (output_buffers : option (gmap string StoredTensor))
    (output_shapes : dict (list Z)) (return_numpy : bool)
    : M (list ArrayLike) :=
  logger_debug (MsgStart "onnxruntime_inference_with_binded_io");;
  io_binding ← prepare_io_binding ort_session (input_ids inputs)
                 (position_ids inputs) (attention_mask inputs) (past inputs)
                 output_buffers output_shapes;
  session_run_with_iobinding ort_session io_binding (to_list inputs);;
  ort_outputs ← get_outputs_from_io_binding_buffer ort_session output_buffers
                  output_shapes return_numpy;
  mret (map Ref ort_outputs).

(** The body of the loop of [test_parity]: one trial and whether it passed. *)
Definition test_parity_trial (ort_session : InferenceSession)
    (model : PyTorchModel) (dev : device) (is_float16 : bool) (rtol atol : Q)
    (use_io_binding : bool) (model_class : string)
    (has_position_ids has_attention_mask : bool)
    (max_batch_size max_past_seq_len max_seq_len : Z)
    (output_buffers : option (gmap string StoredTensor)) : M bool :=
  let config := config model in
  sequence_length ← random_randint 1 max_seq_len;
  past_sequence_length ← random_randint 0 max_past_seq_len;
  batch_size ← random_randint 1 max_batch_size;
  logger_debug (MsgRunningTrial batch_size past_sequence_length);;
  dummy_inputs ← get_dummy_inputs batch_size past_sequence_length sequence_length
                   (num_attention_heads config) (hidden_size config)
                   (n_layer config) (vocab_size config) dev is_float16
                   has_position_ids has_attention_mask;
  outputs ← pytorch_inference model dummy_inputs;
  ort_outputs ←
    (if use_io_binding then onnxruntime_inference ort_session dummy_inputs
     else
       output_shapes ← get_output_shapes batch_size past_sequence_length
                         sequence_length config model_class;
       onnxruntime_inference_with_binded_io ort_session dummy_inputs
         output_buffers output_shapes true);
  compare_outputs outputs ort_outputs rtol atol.

Definition test_parity (ort_session : InferenceSession) (model : PyTorchModel)
    (dev : device) (is_float16 : bool) (rtol atol : Q) (total_test_cases : Z)
    (use_io_binding : bool) (model_class : string)
    (has_position_ids has_attention_mask : bool) : M bool :=
  let config := config model in
  logger_info (MsgRunningParity total_test_cases use_io_binding);;
  let max_batch_size := 8 in
  let max_past_seq_len := 4 in
  let max_seq_len := 2 in
  output_buffers ←
    (if use_io_binding then
       max_output_shapes ← get_output_shapes max_batch_size max_past_seq_len
                             max_seq_len config model_class;
       b ← get_output_buffers max_output_shapes dev is_float16;
       mret (Some b)
     else mret None);
  passed_test_cases ←
    foldM (λ (passed_test_cases : Z) (_ : nat),
             is_all_close ← test_parity_trial ort_session model dev is_float16
                              rtol atol use_io_binding model_class
                              has_position_ids has_attention_mask
                              max_batch_size max_past_seq_len max_seq_len
                              output_buffers;
             mret (if is_all_close : bool then passed_test_cases + 1
                   else passed_test_cases))
          0 (seq 0 (Z.to_nat total_test_cases));
  logger_info (MsgParityCases total_test_cases passed_test_cases);;
  (if 95 * total_test_cases <? 100 * passed_test_cases then
     logger_info (MsgParityGood (Z.quot (passed_test_cases * 100) total_test_cases))
   else mret tt);;
  mret (passed_test_cases =? total_test_cases).

End Gpt2Helper.

(** ** Specification-side definitions *)

(** The sum of a list of integers. *)
Definition sum_Z (l : list Z) : Z := foldr Z.add 0 l.

(** The position ids in the words of the specification: for every row of
    the mask, the running sum along the sequence axis, minus 1, floored at 0,
    with the first [cache_len] columns dropped. *)
Definition spec_position_ids (mask : list (list Q)) (cache_len seq_len : nat)
    : list (list Z) :=
  map (λ row, map (λ t, Z.max 0 (sum_Z (take (cache_len + t + 1) (map trunc row)) - 1))
                  (seq 0 seq_len)) mask.




(** An array holds as many elements as its shape says. *)
Definition well_formed (a : NdArray) : Prop :=
  length (a_data a) = Z.to_nat (numel (a_shape a)).

(** Two arrays of one shape are close, element by element. *)
Definition close_arrays (rtol atol : Q) (o t : NdArray) : bool :=
  forallb id (zip_with (isclose rtol atol) (a_data o) (a_data t)).



(** A shape whose element count numpy computes without wrapping around. *)
Definition shape_ok (shape : list Z) : Prop :=
  shape ≠ [] ∧ Forall (λ d, 0 <= d) shape ∧ numel shape < 2 ^ 63.

(** What [auto_increase_buffer_size] makes of the buffer [buf] for a required
    [shape]: a fresh flat buffer of exactly [numel shape] elements, same dtype
    and device, when that exceeds the element count of [buf]; [buf] itself
    otherwise. *)
Definition grown (w : World) (shape : list Z) (buf : StoredTensor)
    (buf' : option StoredTensor) : Prop :=
  if nelement buf <? numel shape
  then ∃ b, buf' = Some b ∧ s_size b = [numel shape] ∧ s_offset b = 0
            ∧ s_dtype b = s_dtype buf ∧ s_device b = s_device buf
            ∧ w_next w <= s_base b
  else buf' = Some buf.

(** An output name whose buffer is flat and holds at least the elements of
    its shape. *)
Definition readable (output_buffers : gmap string StoredTensor)
    (output_shapes : dict (list Z)) (name : string) : Prop :=
  ∃ buf shape len, output_buffers !! name = Some buf
    ∧ dict_get output_shapes name = Some shape
    ∧ shape_ok shape ∧ s_size buf = [len] ∧ numel shape <= len.

(** [out] holds the first prod(shape) elements the buffer of [name] had in
    [w], under the shape of [name]. *)
Definition read_back_of (output_buffers : gmap string StoredTensor)
    (output_shapes : dict (list Z)) (w w' : World) (name : string)
    (out : StoredTensor) : Prop :=
  ∃ buf shape, output_buffers !! name = Some buf
    ∧ dict_get output_shapes name = Some shape
    ∧ s_size out = shape
    ∧ load w' out = take (Z.to_nat (numel shape)) (load w buf).

(** The binding of the cache tensor [past_i] of layer [i]: its own pointer,
    or that of [input_ids] when its own is null. *)
Definition past_binding (input_ids : LongMatrix) (float_type : dtype)
    (ip : nat * FloatTensor) : Binding :=
  {| b_name := "past_" +:+ pretty ip.1; b_device := t_device ip.2;
     b_device_id := 0; b_dtype := float_type; b_shape := t_size ip.2;
     b_ptr := if t_ptr ip.2 =? 0 then t_ptr input_ids else t_ptr ip.2 |}.

(** The trials run one after the other from [w] to [w'], with these
    outcomes. *)
Fixpoint trials_run (trial : M bool) (outcomes : list bool) (w w' : World) : Prop :=
  match outcomes with
  | [] => w' = w
  | b :: rest => ∃ w1, trial w = Ok (b, w1) ∧ trials_run trial rest w1 w'
  end.

(** The number of trials that passed. *)
Definition count_passed (outcomes : list bool) : Z :=
  sum_Z (map (λ b : bool, if b then 1 else 0) outcomes).

(** The engine runs among the events, in order. *)
Definition engine_runs (events : list Event) : list RunMode :=
  flat_map (λ e, match e with EngineRun mode => [mode] | _ => [] end) events.

(** Running [m] adds exactly the engine runs [modes] to the events. *)
Definition emits {A} (m : M A) (modes : list RunMode) : Prop :=
  ∀ w a w', m w = Ok (a, w') →
    engine_runs (w_events w') = engine_runs (w_events w) ++ modes.

(** The shape parameters the input synthesizer is specified for. *)
Record valid_params (batch_size past_sequence_length sequence_length
    num_attention_heads hidden_size vocab_size : Z) : Prop := {
  vp_batch : 0 < batch_size;
  vp_past : 0 <= past_sequence_length;
  vp_seq : 1 <= sequence_length;
  vp_heads : 0 < num_attention_heads;
  vp_hidden : 0 <= hidden_size;
  vp_vocab : 1 < vocab_size
}.

(** The tensor is a [rows] x [cols] matrix. *)
Definition matrix_shape {A} (rows cols : Z) (t : Tensor (list (list A))) : Prop :=
  t_size t = [rows; cols]
  ∧ length (t_data t) = Z.to_nat rows
  ∧ ∀ row, row ∈ t_data t → length row = Z.to_nat cols.

(** Column [k] is zero in every row and every other entry is one. *)
Definition one_column_zeroed (cols : nat) (data : list (list Q)) : Prop :=
  ∃ k, (k < cols)%nat ∧
    ∀ row, row ∈ data → ∀ j, (j < cols)%nat →
      row !! j = Some (if decide (j = k) then 0%Q else 1%Q).

(** Every entry is one. *)
Definition all_ones (data : list (list Q)) : Prop :=
  ∀ row, row ∈ data → ∀ x, x ∈ row → x = 1%Q.

(** A world to run examples in. *)
Definition world0 : World :=
  {| w_rng := {| rng_src := λ n, 7 * Z.of_nat n + 3; rng_pos := 0 |};
     w_next := 4096;
     w_uninit := λ _ _, Fin 0;
     w_heap := ∅;
     w_events := [] |}.

(** Engines to run examples with: a model and a session that answer every
    request with the same three one-element arrays. *)
Definition example_config : GPT2Config :=
  {| num_attention_heads := 2; hidden_size := 4; n_layer := 2; vocab_size := 50 |}.

Definition example_output : NdArray := {| a_shape := [1]; a_data := [Fin 0] |}.

Definition example_model : PyTorchModel :=
  {| config := example_config;
     forward := λ _, Ok (example_output, [example_output; example_output]) |}.

Definition example_session : InferenceSession :=
  {| get_outputs := ["logits"; "present_0"; "present_1"]%string;
     run := λ _, Ok [example_output; example_output; example_output];
     run_with_iobinding :=
       λ _ _, Ok [example_output; example_output; example_output] |}.

(** A reference output and a candidate that differs from it by 0.0001 in one
    element. *)
Definition example_reference : NdArray :=
  {| a_shape := [2]; a_data := [Fin 1; Fin 2] |}.

Definition example_candidate : ArrayLike :=
  Val {| a_shape := [2]; a_data := [Fin 1; Fin (20001 # 10000)] |}.

(** Two output buffers, the first too small for its shape. *)
Definition example_buffers : gmap string StoredTensor :=
  <["logits"%string := {| s_base := 16; s_offset := 0; s_size := [4];
                   s_dtype := Float32; s_device := Cpu |}]>
  (<["present_0"%string := {| s_base := 32; s_offset := 0; s_size := [100];
                      s_dtype := Float32; s_device := Cpu |}]> ∅).

Definition example_shapes : dict (list Z) :=
  [("logits", [2; 2; 3]); ("present_0", [2; 1; 2; 2; 2])]%string.

(** A store holding the two example buffers, shapes that fit them and a
    session with these two outputs. *)
Definition stored_world : World :=
  {| w_rng := w_rng world0; w_next := 4096; w_uninit := w_uninit world0;
     w_heap := <[16 := [Fin 1; Fin 2; Fin 3; Fin 4]]>
               (<[32 := replicate 100 (Fin 5)]> ∅);
     w_events := [] |}.

Definition fitting_shapes : dict (list Z) :=
  [("logits", [1; 1; 3]); ("present_0", [2; 1; 2; 2; 2])]%string.

Definition two_output_session : InferenceSession :=
  {| get_outputs := ["logits"; "present_0"]%string;
     run := λ _, Ok [example_output; example_output];
     run_with_iobinding := λ _ _, Ok [example_output; example_output] |}.

(** Inputs with an empty cache: the cache tensor has no elements and reports
    the null pointer. *)
Definition example_input_ids : LongMatrix :=
  {| t_dtype := Int64; t_device := Cpu; t_size := [2; 2];
     t_data := [[3; 10]; [17; 24]]; t_ptr := 4098; t_contiguous := true |}.

Definition example_empty_past : FloatTensor :=
  {| t_dtype := Float32; t_device := Cpu; t_size := [2; 2; 2; 0; 2];
     t_data := []; t_ptr := 0; t_contiguous := true |}.

Definition example_mask : FloatMatrix :=
  {| t_dtype := Float32; t_device := Cpu; t_size := [2; 2];
     t_data := [[1%Q; 0%Q]; [1%Q; 0%Q]]; t_ptr := 4102; t_contiguous := true |}.

(** The name of the [i]-th per-layer output. *)
Definition present_name (i : nat) : string := "present_" +:+ pretty i.

(** The dictionary [get_output_shapes] builds: the primary output, then one
    entry per layer. *)
Definition output_shape_entries (batch_size past_sequence_length sequence_length : Z)
    (config : GPT2Config) (output_name : string) : dict (list Z) :=
  (output_name,
   [batch_size; sequence_length;
    if decide (output_name = "logits"%string) then vocab_size config
    else hidden_size config])
  :: map (λ i, (present_name i,
                [2; batch_size; num_attention_heads config;
                 past_sequence_length + sequence_length;
                 Z.quot (hidden_size config) (num_attention_heads config)]))
         (seq 0 (Z.to_nat (n_layer config))).

(** A buffer allocated between [w] and [w'] for [shape]: flat, of exactly
    [numel shape] elements, at the start of a storage of its own that the
    store holds in full. *)
Definition fresh_flat (w w' : World) (dt : dtype) (dev : device)
    (shape : list Z) (buf : StoredTensor) : Prop :=
  s_size buf = [numel shape] ∧ s_offset buf = 0
  ∧ s_dtype buf = dt ∧ s_device buf = dev
  ∧ w_next w <= s_base buf < w_next w'
  ∧ ∃ data, w_heap w' !! s_base buf = Some data
            ∧ length data = Z.to_nat (numel shape).

(** The binding of an input tensor under [name] with element type [dt]. *)
Definition tensor_binding {D} (name : string) (dt : dtype) (t : Tensor D) : Binding :=
  {| b_name := name; b_device := t_device t; b_device_id := 0; b_dtype := dt;
     b_shape := t_size t; b_ptr := t_ptr t |}.

(** The element type of the floating-point bindings, from the dtype of the
    first output buffer. *)
Definition binding_float_type (data_type : dtype) : dtype :=
  match data_type with Float16 => Float16 | _ => Float32 end.

(** [bo] binds the output [name]: to the memory of its buffer, under its
    shape. *)
Definition binds_output (output_buffers : gmap string StoredTensor)
    (output_shapes : dict (list Z)) (float_type : dtype) (name : string)
    (bo : Binding) : Prop :=
  ∃ buf shape, output_buffers !! name = Some buf
    ∧ dict_get output_shapes name = Some shape
    ∧ bo = {| b_name := name; b_device := s_device buf; b_device_id := 0;
              b_dtype := float_type; b_shape := shape; b_ptr := data_ptr buf |}.

(** The buffer of [name] can be bound and takes the output of [name]: it is
    flat and not empty, starts a storage the store holds, and has room for the
    shape of [name]. *)
Definition bindable (w : World) (output_buffers : gmap string StoredTensor)
    (output_shapes : dict (list Z)) (name : string) : Prop :=
  ∃ buf shape len old, output_buffers !! name = Some buf
    ∧ dict_get output_shapes name = Some shape
    ∧ shape_ok shape ∧ s_size buf = [len] ∧ s_offset buf = 0
    ∧ 0 < len ∧ numel shape <= len
    ∧ s_base buf ≠ 0 ∧ w_heap w !! s_base buf = Some old.

(** Shapes of the outputs of the example session, and inputs with an empty
    cache and no position ids. *)
Definition unit_shapes : dict (list Z) :=
  [("logits", [1]); ("present_0", [1])]%string.

Definition example_inputs : Gpt2Inputs :=
  {| input_ids := example_input_ids; position_ids := None;
     attention_mask := Some example_mask;
     past := Some [example_empty_past; example_empty_past] |}.

(** A cache tensor as [torch.rand] makes it: of the given shape, precision and
    device, contiguous, with one value of [0, 1) per element, reporting the
    null pointer exactly when it has no elements. *)
Definition cache_tensor (shape : list Z) (dt : dtype) (dev : device)
    (t : FloatTensor) : Prop :=
  t_size t = shape ∧ t_dtype t = dt ∧ t_device t = dev
  ∧ t_contiguous t = true
  ∧ length (t_data t) = Z.to_nat (numel shape)
  ∧ Forall (λ x, (0 <= x)%Q ∧ (x < 1)%Q) (t_data t)
  ∧ (t_ptr t = 0 ↔ numel shape = 0).

(** ** Post-processing of the model outputs *)

#[global] Instance result_ret : MRet result := λ A a, Ok a.

#[global] Instance result_bind : MBind result := λ A B f r,
  match r with
  | Ok a => f a
  | Err e => Err e
  end.

(** A value a model returns: a tensor, or a tuple (or list) of such values. *)
#[warnings="-register-all"] Inductive pyval : Type :=
  | PTensor (t : NdArray)
  | PTuple (items : list pyval).

(** [isinstance(v, tuple) or isinstance(v, list)] *)
Definition is_sequence (v : pyval) : bool :=
  match v with PTuple _ => true | PTensor _ => false end.

(** [t[i]] of a tensor: the [i]-th slice along the first dimension. *)
Definition tensor_getitem (t : NdArray) (i : nat) : result NdArray :=
  match a_shape t with
  | [] => Err IndexError
  | d :: rest =>
      if Z.of_nat i <? d then
        let n := Z.to_nat (numel rest) in
        Ok {| a_shape := rest; a_data := take n (drop (i * n) (a_data t)) |}
      else Err IndexError
  end.

(** [v[i]] for an index that is not negative. *)
Definition py_getitem (v : pyval) (i : nat) : result pyval :=
  match v with
  | PTuple items => getitem items i
  | PTensor t => s ← tensor_getitem t i; mret (PTensor s)
  end.

(** [len(v)] *)
Definition py_len (v : pyval) : result Z :=
  match v with
  | PTuple items => Ok (Z.of_nat (length items))
  | PTensor t => match a_shape t with [] => Err TypeError | d :: _ => Ok d end
  end.

(** [v.unsqueeze(0)]: a tuple has no such method. *)
Definition unsqueeze0 (v : pyval) : result NdArray :=
  match v with
  | PTensor t => Ok {| a_shape := 1 :: a_shape t; a_data := a_data t |}
  | PTuple _ => Err AttributeError
  end.

(** [torch.cat((a, b), dim=0)]: the shapes must agree after the first
    dimension; a one-dimensional tensor without elements is skipped. *)
Definition torch_cat0 (a b : NdArray) : result NdArray :=
  match a_shape a, a_shape b with
  | [], _ | _, [] => Err RuntimeError
  | [0], _ => Ok b
  | _, [0] => Ok a
  | d1 :: s1, d2 :: s2 =>
      if bool_decide (s1 = s2)
      then Ok {| a_shape := (d1 + d2) :: s1; a_data := a_data a ++ a_data b |}
      else Err RuntimeError
  end.

(** A list comprehension whose body may raise. *)
Fixpoint mapR {A B} (f : A → result B) (xs : list A) : result (list B) :=
  match xs with
  | [] => Ok []
  | x :: xs' => y ← f x; ys ← mapR f xs'; mret (y :: ys)
  end.

Module MyGPT2Model.

Definition post_process (res : pyval) (num_layer : Z) : result pyval :=
  r1 ← py_getitem res 1;
  r10 ← py_getitem r1 0;
  if is_sequence r10 then
    n1 ← py_len r1;
    holds ← (if n1 =? num_layer then n10 ← py_len r10; mret (n10 =? 2)
             else mret false);
    (if holds : bool then mret tt else Err AssertionError);;
    present ← mapR (λ i,
                 layer ← py_getitem r1 i;
                 key ← py_getitem layer 0;
                 key ← unsqueeze0 key;
                 layer ← py_getitem r1 i;
                 value ← py_getitem layer 1;
                 value ← unsqueeze0 value;
                 torch_cat0 key value)
               (seq 0 (Z.to_nat num_layer));
    r0 ← py_getitem res 0;
    mret (PTuple [r0; PTuple (map PTensor present)])
  else mret res.

End MyGPT2Model.

(** A per-layer output with key and value apart, and the two stacked along a
    new first dimension. *)
Definition key_value (kv : NdArray * NdArray) : pyval :=
  PTuple [PTensor kv.1; PTensor kv.2].

Definition stacked (kv : NdArray * NdArray) : NdArray :=
  {| a_shape := 2 :: a_shape kv.1; a_data := a_data kv.1 ++ a_data kv.2 |}.

(** The name of the [i]-th cache input. *)
Definition past_name (i : nat) : string := "past_" +:+ pretty i.

(** The inputs by name, as the engine is to receive them. *)
Definition ort_feeds (inputs : Gpt2Inputs) : dict AnyTensor :=
  ("input_ids"%string, LongT (input_ids inputs))
  :: imap (λ i past_i, (past_name i, FloatT past_i)) (default [] (past inputs))
  ++ from_option (λ m, [("attention_mask"%string, FloatM m)]) []
       (attention_mask inputs)
  ++ from_option (λ p, [("position_ids"%string, LongT p)]) []
       (position_ids inputs).

(** A tensor as the reference model gets it: floating-point tensors in single
    precision, integer tensors as they are. *)
Definition to_float32 (t : AnyTensor) : AnyTensor :=
  match t with
  | LongT t => LongT t
  | FloatM t => FloatM (to_dtype t Float32)
  | FloatT t => FloatT (to_dtype t Float32)
  end.

(** What [get_onnx_paths] asks of its environment: whether a string matches
    the pattern of a model name, [^[\w_-]+$]; whether a path is a directory;
    and the last component of a path. *)
Record PathEnv : Type := {
  is_model_name : string → bool;
  os_path_isdir : string → bool;
  path_last_part : string → result string
}.

(** [s.startswith('/')] and [s.endswith('/')] *)
Definition starts_with_sep (s : string) : bool :=
  match s with
  | String c _ => bool_decide (String c EmptyString = "/"%string)
  | EmptyString => false
  end.

Fixpoint ends_with_sep (s : string) : bool :=
  match s with
  | EmptyString => false
  | String c EmptyString => bool_decide (String c EmptyString = "/"%string)
  | String _ r => ends_with_sep r
  end.

(** [os.path.join(a, b)] of the POSIX flavour: an absolute [b] replaces [a],
    and a separator is put in between unless [a] is empty or ends with one. *)
Definition os_path_join (a b : string) : string :=
  if starts_with_sep b then b
  else if bool_decide (a = EmptyString) || ends_with_sep a then a +:+ b
  else a +:+ "/" +:+ b.

Definition get_onnx_paths (env : PathEnv)
    (output_dir model_name_or_path model_class : string)
    (has_past new_folder : bool) : result (dict string) :=
  model_name ←
    (if negb (is_model_name env model_name_or_path) then
       (if os_path_isdir env model_name_or_path then mret tt
        else Err AssertionError);;
       path_last_part env model_name_or_path
     else mret model_name_or_path);
  let model_name :=
    if decide (model_class ≠ "GPT2LMHeadModel"%string)
    then model_name +:+ ("_" +:+ model_class) else model_name in
  let model_name := if has_past then model_name +:+ "_past" else model_name in
  if new_folder then
    mret [("raw", os_path_join (os_path_join output_dir model_name)
                    (model_name +:+ ".onnx"));
          ("fp32", os_path_join (os_path_join output_dir (model_name +:+ "_fp32"))
                     (model_name +:+ "_fp32.onnx"));
          ("fp16", os_path_join (os_path_join output_dir (model_name +:+ "_fp16"))
                     (model_name +:+ "_fp16.onnx"));
          ("int8", os_path_join (os_path_join output_dir (model_name +:+ "_int8"))
                     (model_name +:+ "_int8.onnx"))]%string
  else
    mret [("raw", os_path_join output_dir (model_name +:+ ".onnx"));
          ("fp32", os_path_join output_dir (model_name +:+ "_fp32.onnx"));
          ("fp16", os_path_join output_dir (model_name +:+ "_fp16.onnx"));
          ("int8", os_path_join output_dir (model_name +:+ "_int8.onnx"))]%string.

(** An environment for examples: names are the strings without a separator at
    either end, nothing is a directory. *)
Definition example_env : PathEnv :=
  {| is_model_name := λ s, negb (starts_with_sep s) && negb (ends_with_sep s)
                           && negb (bool_decide (s = EmptyString));
     os_path_isdir := λ _, false;
     path_last_part := λ s, Ok s |}.

(** * Properties *)

Section monad_facts.
Context {A B : Type}.

Lemma bind_run (m : M A) (f : A → M B) w a w1 :
  m w = Ok (a, w1) → (m ≫= f) w = f a w1.
Proof. intros H. unfold mbind, M_bind. by rewrite H. Qed.

Lemma bind_inv (m : M A) (f : A → M B) w r :
  (m ≫= f) w = Ok r → ∃ a w1, m w = Ok (a, w1) ∧ f a w1 = Ok r.
Proof.
  unfold mbind, M_bind. destruct (m w) as [[a w1]|e]; [eauto | discriminate].
Qed.

End monad_facts.

Lemma bind_assoc {A B C} (m : M A) (g : A → M B) (f : B → M C) w :
  ((m ≫= g) ≫= f) w = (m ≫= λ a, g a ≫= f) w.
Proof. unfold mbind, M_bind. by destruct (m w) as [[a w1]|e]. Qed.

Lemma ret_run {A B} (a : A) (f : A → M B) w : (mret a ≫= f) w = f a w.
Proof. done. Qed.

Lemma repeatM_total {A} (m : M A) n :
  (∀ w, ∃ a w', m w = Ok (a, w')) → ∀ w, ∃ l w', repeatM n m w = Ok (l, w').
Proof.
  intros Hm. induction n as [|n IH]; intros w; simpl.
  - by eexists _, _.
  - destruct (Hm w) as (a & w1 & H1). destruct (IH w1) as (l & w2 & H2).
    exists (a :: l), w2.
    rewrite (bind_run _ _ _ _ _ H1), (bind_run _ _ _ _ _ H2). done.
Qed.

Lemma check_shape_ok shape w :
  Forall (λ d, 0 <= d) shape → check_shape shape w = Ok (tt, w).
Proof.
  intros H. unfold check_shape.
  replace (forallb (λ d, 0 <=? d) shape) with true; [done|].
  symmetry. apply forallb_forall. intros d Hd.
  rewrite Forall_forall in H. apply Z.leb_le, H. by apply list_elem_of_In.
Qed.

Lemma torch_rand_total shape dt dev w :
  Forall (λ d, 0 <= d) shape → ∃ t w', torch_rand shape dt dev w = Ok (t, w').
Proof.
  intros H. unfold torch_rand.
  rewrite (bind_run _ _ _ _ _ (check_shape_ok _ _ H)). by eexists _, _.
Qed.

Lemma int_div_run a b w : b ≠ 0 → int_div a b w = Ok (Z.quot a b, w).
Proof. intros H. unfold int_div. by apply Z.eqb_neq in H as ->. Qed.

Lemma chunks_length {A} rows cols (l : list A) : length (chunks rows cols l) = rows.
Proof. revert l. induction rows; intros l; simpl; [done | by rewrite IHrows]. Qed.

Lemma chunks_row_length {A} rows cols (l : list A) row :
  length l = (rows * cols)%nat → row ∈ chunks rows cols l → length row = cols.
Proof.
  revert l. induction rows as [|r IH]; intros l Hl Hin; simpl in *.
  - by apply elem_of_nil in Hin.
  - apply elem_of_cons in Hin as [-> | Hin].
    + rewrite length_take. lia.
    + apply (IH (drop cols l)); [rewrite length_drop; lia | done].
Qed.

Lemma chunks_elem {A} rows cols (l : list A) row x :
  row ∈ chunks rows cols l → x ∈ row → x ∈ l.
Proof.
  revert l. induction rows as [|r IH]; intros l Hin Hx; simpl in *.
  - by apply elem_of_nil in Hin.
  - apply elem_of_cons in Hin as [-> | Hin].
    + by apply elem_of_take in Hx as (i & Hx & _); eapply list_elem_of_lookup_2.
    + pose proof (IH _ Hin Hx) as Hd. apply list_elem_of_lookup in Hd as [i Hi].
      rewrite lookup_drop in Hi. by eapply list_elem_of_lookup_2.
Qed.

(** What [torch.randint] returns on a well-formed request. *)
Lemma torch_randint_run low high rows cols dev w :
  0 <= rows → 0 <= cols → low < high →
  ∃ ids w', torch_randint low high rows cols dev w = Ok (ids, w')
    ∧ t_size ids = [rows; cols]
    ∧ length (t_data ids) = Z.to_nat rows
    ∧ (∀ row, row ∈ t_data ids → length row = Z.to_nat cols)
    ∧ (∀ row x, row ∈ t_data ids → x ∈ row → low <= x < high).
Proof.
  intros Hr Hc Hlh. unfold torch_randint.
  rewrite (bind_run _ _ _ _ _ (check_shape_ok [rows; cols] w ltac:(by repeat constructor))).
  apply Z.leb_gt in Hlh as Hlh'. rewrite Hlh'.
  unfold mbind, M_bind; simpl. eexists _, _. split; [done|]. simpl.
  split; [done|]. split; [apply chunks_length|]. split.
  - intros row Hrow. eapply chunks_row_length; [|done].
    rewrite !length_map, length_seq. lia.
  - intros row x Hrow Hx. pose proof (chunks_elem _ _ _ _ _ Hrow Hx) as Hin.
    apply list_elem_of_fmap in Hin as (y & -> & _).
    pose proof (Z.mod_pos_bound y (high - low)). lia.
Qed.

Import Gpt2Helper.

Lemma torch_ones_run rows cols dt dev w :
  0 <= rows → 0 <= cols →
  ∃ m w', torch_ones rows cols dt dev w = Ok (m, w')
    ∧ t_size m = [rows; cols]
    ∧ t_device m = dev
    ∧ t_data m = replicate (Z.to_nat rows) (replicate (Z.to_nat cols) 1%Q).
Proof.
  intros Hr Hc. unfold torch_ones.
  rewrite (bind_run _ _ _ _ _ (check_shape_ok [rows; cols] w ltac:(by repeat constructor))).
  by eexists _, _.
Qed.

Lemma random_randint_run a b w :
  a <= b → ∃ p w', random_randint a b w = Ok (p, w') ∧ a <= p <= b.
Proof.
  intros Hab. unfold random_randint.
  replace (b <? a) with false by (symmetry; apply Z.ltb_ge; lia).
  eexists _, _. split; [done|].
  pose proof (Z.mod_pos_bound (hd 0 (rng_src (w_rng w) (rng_pos (w_rng w) + 0)%nat :: []))
                (b - a + 1)). simpl in *. lia.
Qed.

Lemma setitem_column_run (t : FloatMatrix) col v w :
  0 <= col < ncols t →
  ∃ t', setitem_column t col v w = Ok (t', w)
    ∧ t_size t' = t_size t
    ∧ t_device t' = t_device t
    ∧ t_data t' = map (λ row, <[Z.to_nat col := v]> row) (t_data t).
Proof.
  intros Hc. unfold setitem_column.
  replace (col <? 0) with false by (symmetry; apply Z.ltb_ge; lia).
  replace ((0 <=? col) && (col <? ncols t)) with true
    by (symmetry; apply andb_true_iff; split; [apply Z.leb_le | apply Z.ltb_lt]; lia).
  by eexists.
Qed.

(** The attention-mask step of [get_dummy_inputs]. *)
Lemma attention_mask_run rows total dt dev w :
  0 <= rows → 0 <= total →
  ∃ m w' row,
    (torch_ones rows total dt dev ≫= λ m,
       if 2 <=? total
       then random_randint 0 (total - 1) ≫= λ padding_position,
              setitem_column m padding_position 0%Q ≫= λ m', mret (Some m')
       else mret (Some m)) w = Ok (Some m, w')
    ∧ t_size m = [rows; total]
    ∧ t_device m = dev
    ∧ t_data m = replicate (Z.to_nat rows) row
    ∧ length row = Z.to_nat total
    ∧ ((2 <= total ∧ ∃ k, (k < Z.to_nat total)%nat
          ∧ row = <[k := 0%Q]> (replicate (Z.to_nat total) 1%Q))
       ∨ (total < 2 ∧ row = replicate (Z.to_nat total) 1%Q)).
Proof.
  intros Hr Ht.
  destruct (torch_ones_run rows total dt dev w Hr Ht) as (m & w1 & Hm & Hsz & Hdev & Hdata).
  rewrite (bind_run _ _ _ _ _ Hm).
  destruct (2 <=? total) eqn:Htot.
  - apply Z.leb_le in Htot.
    destruct (random_randint_run 0 (total - 1) w1 ltac:(lia)) as (p & w2 & Hp & Hrange).
    rewrite (bind_run _ _ _ _ _ Hp).
    destruct (setitem_column_run m p 0%Q w2) as (m' & Hm' & Hsz' & Hdev' & Hdata').
    { unfold ncols. rewrite Hsz. simpl. lia. }
    rewrite (bind_run _ _ _ _ _ Hm').
    eexists m', w2, _. split; [done|]. split; [congruence|]. split; [congruence|].
    split; [rewrite Hdata', Hdata; apply fmap_replicate|].
    split; [by rewrite length_insert, length_replicate|].
    left. split; [done|]. exists (Z.to_nat p). split; [lia | done].
  - apply Z.leb_gt in Htot.
    eexists m, w1, _. split; [done|]. split; [done|]. split; [done|]. split; [done|].
    split; [apply length_replicate|]. by right.
Qed.

Ltac run_prefix Hv w :=
  let pastl := fresh "pastl" in let w1 := fresh "w1" in let Hpast := fresh "Hpast" in
  let ids := fresh "ids" in let w2 := fresh "w2" in
  let Hids := fresh "Hids" in let Hsz := fresh "Hsz" in let Hlen := fresh "Hlen" in
  let Hrow := fresh "Hrow" in let Hrng := fresh "Hrng" in
  destruct Hv as [Hb Hp Hs Hh Hhid Hvoc];
  unfold get_dummy_inputs;
  match goal with
  | |- context [int_div ?a ?b] =>
      rewrite (bind_run _ _ _ _ _ (int_div_run a b w ltac:(lia)))
  end;
  match goal with
  | |- context [repeatM ?n ?m] =>
      destruct (repeatM_total m n
        ltac:(intros; apply torch_rand_total; repeat constructor;
              try lia; by apply Z.quot_pos) w) as (pastl & w1 & Hpast)
  end;
  rewrite (bind_run _ _ _ _ _ Hpast);
  match goal with
  | |- context [torch_randint ?lo ?hi ?r ?c ?d] =>
      destruct (torch_randint_run lo hi r c d w1 ltac:(lia) ltac:(lia) ltac:(lia))
        as (ids & w2 & Hids & Hsz & Hlen & Hrow & Hrng)
  end;
  rewrite (bind_run _ _ _ _ _ Hids).

Lemma cumsum_from_lookup l : ∀ acc i, (i < length l)%nat →
  cumsum_from acc l !! i = Some (acc + sum_Z (take (S i) l)).
Proof.
  induction l as [|x l IH]; intros acc i Hi; simpl in *; [lia|].
  destruct i as [|i]; simpl.
  - f_equal. lia.
  - rewrite IH by lia. f_equal. simpl. lia.
Qed.

Lemma cumsum_from_length l : ∀ acc, length (cumsum_from acc l) = length l.
Proof. induction l; intros acc; simpl; [done | by rewrite IHl]. Qed.

(** One row of the deduced position ids, in closed form. *)
Lemma position_row_closed_form (row : list Z) (past len : nat) :
  length row = (past + len)%nat →
  drop past (map (λ x, if x <? 0 then 0 else x) (map (λ x, x - 1) (cumsum row)))
  = map (λ t, Z.max 0 (sum_Z (take (past + t + 1) row) - 1)) (seq 0 len).
Proof.
  intros Hlen. apply list_eq. intros i.
  rewrite lookup_drop, !list_lookup_fmap.
  destruct (decide (i < len)%nat) as [Hi|Hi].
  - unfold cumsum. rewrite cumsum_from_lookup by lia.
    rewrite lookup_seq_lt by done. simpl. f_equal.
    replace (past + i + 1)%nat with (S (past + i)) by lia.
    destruct (_ <? 0) eqn:Hneg; [apply Z.ltb_lt in Hneg | apply Z.ltb_ge in Hneg]; lia.
  - rewrite lookup_seq_ge by lia. simpl.
    rewrite (lookup_ge_None_2 (cumsum row) (past + i)); [done|].
    unfold cumsum. rewrite cumsum_from_length. lia.
Qed.

Lemma deduce_position_ids_run (m : FloatMatrix) past_sequence_length w :
  ∃ p w', deduce_position_ids m past_sequence_length w = Ok (p, w')
    ∧ t_size p = [nrows m; ncols m - slice_start (ncols m) past_sequence_length]
    ∧ t_data p =
        map (λ row, drop (Z.to_nat (slice_start (ncols m) past_sequence_length))
                     (map (λ x, if x <? 0 then 0 else x)
                        (map (λ x, x - 1) (cumsum (map trunc row))))) (t_data m).
Proof.
  unfold deduce_position_ids. eexists _, _. split; [done|]. simpl.
  split; [done|]. rewrite <- !list_fmap_compose. done.
Qed.

(** ** The input synthesizer *)

(** C6: the attention mask has shape (batch, cache_len + seq_len); when the
    total length is at least 2, one column, the same in every row, is zero and
    every other entry is one; otherwise every entry is one. *)
Theorem attention_mask_one_padded_column
    batch_size past_sequence_length sequence_length num_attention_heads
    hidden_size num_layer vocab_size dev float16 has_position_ids w :
  valid_params batch_size past_sequence_length sequence_length
    num_attention_heads hidden_size vocab_size →
  ∃ inputs w' mask,
    get_dummy_inputs batch_size past_sequence_length sequence_length
      num_attention_heads hidden_size num_layer vocab_size dev float16
      has_position_ids true w = Ok (inputs, w')
    ∧ attention_mask inputs = Some mask
    ∧ matrix_shape batch_size (past_sequence_length + sequence_length) mask
    ∧ (if 2 <=? past_sequence_length + sequence_length
       then one_column_zeroed
              (Z.to_nat (past_sequence_length + sequence_length)) (t_data mask)
       else all_ones (t_data mask)).
Proof.
  intros Hv. run_prefix Hv w.
  destruct (attention_mask_run batch_size (past_sequence_length + sequence_length)
              (if float16 then Float16 else Float32) dev w2 ltac:(lia) ltac:(lia))
    as (m & w3 & row & Hm & Hmsz & _ & Hmdata & Hrowlen & Hcase).
  rewrite (bind_run _ _ _ _ _ Hm).
  assert (matrix_shape batch_size (past_sequence_length + sequence_length) m
          ∧ (if 2 <=? past_sequence_length + sequence_length
             then one_column_zeroed
                    (Z.to_nat (past_sequence_length + sequence_length)) (t_data m)
             else all_ones (t_data m))) as [Hshape Hcols].
  { split.
    - split; [done|]. rewrite Hmdata. split; [apply length_replicate|].
      intros r Hr. by apply elem_of_replicate_inv in Hr as ->.
    - rewrite Hmdata. destruct Hcase as [[Hge (k & Hk & ->)] | [Hlt ->]].
      + apply Z.leb_le in Hge as ->. exists k. split; [done|].
        intros r Hr j Hj. apply elem_of_replicate_inv in Hr as ->.
        case_decide as Hjk.
        * subst j. apply list_lookup_insert_eq. by rewrite length_replicate.
        * rewrite list_lookup_insert_ne by done. by apply lookup_replicate_2.
      + apply Z.leb_gt in Hlt as ->. intros r Hr x Hx.
        apply elem_of_replicate_inv in Hr as ->.
        by apply elem_of_replicate_inv in Hx. }
  destruct has_position_ids.
  - destruct (deduce_position_ids_run m past_sequence_length w3)
      as (p & w4 & Hp4 & _).
    rewrite bind_assoc, (bind_run _ _ _ _ _ Hp4), ret_run.
    by eexists _, _, m.
  - rewrite ret_run. by eexists _, _, m.
Qed.

Lemma attention_mask_one_padded_column_witness :
  valid_params 2 0 2 2 4 50
  ∧ ∃ inputs w' mask,
      get_dummy_inputs 2 0 2 2 4 2 50 Cpu false true true world0 = Ok (inputs, w')
      ∧ attention_mask inputs = Some mask
      ∧ matrix_shape 2 (0 + 2) mask
      ∧ (if 2 <=? 0 + 2
         then one_column_zeroed (Z.to_nat (0 + 2)) (t_data mask)
         else all_ones (t_data mask)).
Proof.
  split; [constructor; lia|].
  apply (attention_mask_one_padded_column 2 0 2 2 4 2 50 Cpu false true world0).
  constructor; lia.
Defined.

(** C5: the position ids are the running sum of the attention mask along the
    sequence axis, minus 1, floored at 0, without the first cache_len columns.
    They are a function of the mask and the cache length alone: no random draw
    enters them. *)
Theorem position_ids_deduced_from_mask
    batch_size past_sequence_length sequence_length num_attention_heads
    hidden_size num_layer vocab_size dev float16 w :
  valid_params batch_size past_sequence_length sequence_length
    num_attention_heads hidden_size vocab_size →
  ∃ inputs w' mask pos,
    get_dummy_inputs batch_size past_sequence_length sequence_length
      num_attention_heads hidden_size num_layer vocab_size dev float16
      true true w = Ok (inputs, w')
    ∧ attention_mask inputs = Some mask
    ∧ position_ids inputs = Some pos
    ∧ t_size pos = [batch_size; sequence_length]
    ∧ t_data pos = spec_position_ids (t_data mask)
                     (Z.to_nat past_sequence_length) (Z.to_nat sequence_length).
Proof.
  intros Hv. run_prefix Hv w.
  destruct (attention_mask_run batch_size (past_sequence_length + sequence_length)
              (if float16 then Float16 else Float32) dev w2 ltac:(lia) ltac:(lia))
    as (m & w3 & row & Hm & Hmsz & _ & Hmdata & Hrowlen & _).
  rewrite (bind_run _ _ _ _ _ Hm).
  destruct (deduce_position_ids_run m past_sequence_length w3)
    as (p & w4 & Hp4 & Hpsz & Hpdata).
  rewrite bind_assoc, (bind_run _ _ _ _ _ Hp4), ret_run.
  exists {| input_ids := ids; position_ids := Some p;
            attention_mask := Some m; past := Some pastl |}, w4, m, p.
  assert (slice_start (ncols m) past_sequence_length = past_sequence_length) as Hstart.
  { unfold slice_start, ncols. rewrite Hmsz. simpl.
    replace (past_sequence_length <? 0) with false by (symmetry; apply Z.ltb_ge; lia).
    lia. }
  split; [done|]. split; [done|]. split; [done|]. split.
  - rewrite Hpsz, Hstart. unfold nrows, ncols. rewrite Hmsz. simpl. f_equal. f_equal. lia.
  - rewrite Hpdata, Hstart. unfold spec_position_ids.
    apply map_ext_in. intros r Hr. apply list_elem_of_In in Hr.
    rewrite Hmdata in Hr. apply elem_of_replicate_inv in Hr as ->.
    apply position_row_closed_form. rewrite length_map, Hrowlen. lia.
Qed.

Lemma position_ids_deduced_from_mask_witness :
  valid_params 2 1 2 2 4 50
  ∧ ∃ inputs w' mask pos,
      get_dummy_inputs 2 1 2 2 4 2 50 Cpu false true true world0 = Ok (inputs, w')
      ∧ attention_mask inputs = Some mask
      ∧ position_ids inputs = Some pos
      ∧ t_size pos = [2; 2]
      ∧ t_data pos = spec_position_ids (t_data mask) (Z.to_nat 1) (Z.to_nat 2).
Proof.
  split; [constructor; lia|].
  apply (position_ids_deduced_from_mask 2 1 2 2 4 2 50 Cpu false world0).
  constructor; lia.
Defined.



(** Asking for position ids without an attention mask dereferences the
    absent mask. *)
Lemma position_ids_without_mask_raises
    batch_size past_sequence_length sequence_length num_attention_heads
    hidden_size num_layer vocab_size dev float16 w :
  valid_params batch_size past_sequence_length sequence_length
    num_attention_heads hidden_size vocab_size →
  get_dummy_inputs batch_size past_sequence_length sequence_length
    num_attention_heads hidden_size num_layer vocab_size dev float16
    true false w = Err AttributeError.
Proof. intros Hv. run_prefix Hv w. done. Qed.

(** C2: with has_position_ids and without has_attention_mask the input
    synthesizer should return a batch whose position_ids is absent.  On
    batch_size = 2, cache_len = 0, seq_len = 2, two heads, hidden size 4, two
    layers and a vocabulary of 50 it raises AttributeError instead. *)
Theorem get_dummy_inputs_no_mask_raises :
  get_dummy_inputs 2 0 2 2 4 2 50 Cpu false true false world0 = Err AttributeError.
Proof. apply position_ids_without_mask_raises. constructor; lia. Qed.

(** ** The output comparator *)

Lemma lift_run {A} (r : result A) a w : r = Ok a → lift r w = Ok (a, w).
Proof. by intros ->. Qed.

Lemma numpy_allclose_run o t rtol atol :
  a_shape o = a_shape t →
  numpy_allclose o t rtol atol = Ok (close_arrays rtol atol o t).
Proof.
  intros Hs. unfold numpy_allclose, elementwise.
  by rewrite bool_decide_eq_true_2.
Qed.

Lemma logger_debug_run m w :
  ∃ w', logger_debug m w = Ok (tt, w') ∧ w_heap w' = w_heap w.
Proof. by eexists. Qed.

Lemma logger_info_run m w :
  ∃ w', logger_info m w = Ok (tt, w') ∧ w_heap w' = w_heap w.
Proof. by eexists. Qed.

Lemma array_of_heap w w' x : w_heap w' = w_heap w → array_of w' x = array_of w x.
Proof. intros H. destruct x; simpl; [done|]. unfold load. by rewrite H. Qed.

Lemma read_array_run x w : read_array x w = Ok (array_of w x, w).
Proof. done. Qed.

Lemma fold_andb_seq (c : nat → bool) n : ∀ k acc,
  acc && forallb c (seq k (S n)) = (acc && c k) && forallb c (seq (S k) n).
Proof. intros. simpl. by rewrite andb_assoc. Qed.

Lemma compare_layers_run (ort_outputs : list ArrayLike) (tls : list NdArray)
    rtol atol w n : ∀ k acc w1,
  w_heap w1 = w_heap w →
  (∀ i, (i < n)%nat → ∃ o t, ort_outputs !! (1 + (k + i))%nat = Some o
       ∧ tls !! (k + i)%nat = Some t ∧ a_shape (array_of w o) = a_shape t) →
  ∃ w2,
    foldM (λ is_all_close layer,
             o ← lift (getitem ort_outputs (1 + layer));
             o ← read_array o;
             t ← lift (getitem tls layer);
             is_close ← lift (numpy_allclose o t rtol atol);
             logger_debug (MsgOutputClose (1 + layer) is_close);;
             mret (is_all_close && is_close))
          acc (seq k n) w1
    = Ok (acc && forallb (λ i,
                   match ort_outputs !! (1 + i)%nat, tls !! i with
                   | Some o, Some t => close_arrays rtol atol (array_of w o) t
                   | _, _ => false
                   end) (seq k n), w2)
    ∧ w_heap w2 = w_heap w.
Proof.
  induction n as [|n IH]; intros k acc w1 Hw1 Hlk.
  - exists w1. simpl. by rewrite andb_true_r.
  - destruct (Hlk 0%nat ltac:(lia)) as (o & t & Ho & Ht & Hs).
    rewrite Nat.add_0_r in Ho, Ht. rewrite fold_andb_seq.
    cbn [seq foldM]. rewrite !bind_assoc.
    rewrite (bind_run _ _ _ _ _ (lift_run (getitem ort_outputs (1 + k)) o w1
               ltac:(unfold getitem; by rewrite Ho))).
    rewrite !bind_assoc, (bind_run _ _ _ _ _ (read_array_run o w1)).
    rewrite !bind_assoc, (bind_run _ _ _ _ _ (lift_run (getitem tls k) t w1
               ltac:(unfold getitem; by rewrite Ht))).
    rewrite (array_of_heap w w1 o Hw1).
    rewrite !bind_assoc, (bind_run _ _ _ _ _ (lift_run _ _ w1
               (numpy_allclose_run _ t rtol atol Hs))).
    destruct (logger_debug_run (MsgOutputClose (1 + k)
                (close_arrays rtol atol (array_of w o) t)) w1) as (w1' & He & Hh).
    rewrite !bind_assoc, (bind_run _ _ _ _ _ He), ret_run.
    destruct (IH (S k) (acc && close_arrays rtol atol (array_of w o) t) w1'
                ltac:(congruence)) as (w2 & Hrun & Hh2).
    { intros i Hi. destruct (Hlk (S i) ltac:(lia)) as (o' & t' & Ho' & Ht' & Hs').
      exists o', t'. replace (S k + i)%nat with (k + S i)%nat by lia. done. }
    exists w2. rewrite Hrun, Ho, Ht. done.
Qed.










(** ** The buffer manager *)

Lemma wrap64_mul_r d z : wrap64 (d * wrap64 z) = wrap64 (d * z).
Proof.
  unfold wrap64. f_equal.
  replace (d * ((z + 2 ^ 63) mod 2 ^ 64 - 2 ^ 63) + 2 ^ 63)
    with (d * ((z + 2 ^ 63) mod 2 ^ 64) + (2 ^ 63 - d * 2 ^ 63)) by ring.
  rewrite <- Zplus_mod_idemp_l, Zmult_mod_idemp_r, Zplus_mod_idemp_l.
  f_equal. ring.
Qed.

Lemma wrap64_small z : - 2 ^ 63 <= z < 2 ^ 63 → wrap64 z = z.
Proof. intros H. unfold wrap64. rewrite Z.mod_small; lia. Qed.

Lemma wrap64_foldr d shape :
  wrap64 (d * foldr (λ d acc, wrap64 (d * acc)) 1 shape)
  = wrap64 (d * numel shape).
Proof.
  revert d. induction shape as [|e shape IH]; intros d; [done|]. simpl.
  rewrite wrap64_mul_r, Z.mul_assoc, IH. f_equal. ring.
Qed.

Lemma numel_nonneg shape : Forall (λ d, 0 <= d) shape → 0 <= numel shape.
Proof. induction 1; simpl; [lia | unfold numel in *; nia]. Qed.

Lemma numpy_prod_exact shape : shape_ok shape → numpy_prod shape = NpInt (numel shape).
Proof.
  intros (Hne & Hpos & Hlt). destruct shape as [|d shape]; [done|].
  unfold numpy_prod. f_equal. cbn [foldr].
  pose proof (numel_nonneg _ Hpos) as Hn.
  rewrite wrap64_foldr. apply wrap64_small. simpl in *. lia.
Qed.

Lemma dict_get_elem_of {V} (d : dict V) k :
  k ∈ d.*1 ↔ is_Some (dict_get d k).
Proof.
  induction d as [|[k' v] d IH]; simpl.
  - split; [intros H; by apply elem_of_nil in H | intros [? H]; discriminate H].
  - rewrite elem_of_cons. case_decide as Hk.
    + subst. split; [by eexists | by left].
    + rewrite IH. split; [intros [?|?]; done | by right].
Qed.

(** What [torch.empty] returns for a size that is an integer and not
    negative. *)
Lemma torch_empty_run z dt dev w :
  0 <= z →
  ∃ w', torch_empty (NpInt z) dt dev w
        = Ok ({| s_base := w_next w; s_offset := 0; s_size := [z];
                 s_dtype := dt; s_device := dev |}, w')
    ∧ w_next w < w_next w'
    ∧ (∀ a, a ≠ w_next w → w_heap w' !! a = w_heap w !! a)
    ∧ w_events w' = w_events w.
Proof.
  intros Hz. unfold torch_empty.
  replace (z <? 0) with false by (symmetry; apply Z.ltb_ge; lia).
  eexists. split; [done|]. simpl. split; [lia|]. split; [|done].
  intros a Ha. by rewrite lookup_insert_ne.
Qed.

Lemma auto_increase_loop (shapes : dict (list Z)) keys :
  ∀ (buffers : gmap string StoredTensor) w,
  NoDup keys →
  (∀ key, key ∈ keys → ∃ shape buf, dict_get shapes key = Some shape
       ∧ shape_ok shape ∧ buffers !! key = Some buf) →
  ∃ buffers' w',
    foldM (λ output_buffers key,
             py_assert (bool_decide (is_Some (output_buffers !! key)));;
             buffer ← lift (from_option Ok (Err KeyError) (output_buffers !! key));
             shape ← lift (dict_getitem shapes key);
             if np_gt (numpy_prod shape) (nelement buffer) then
               t ← torch_empty (numpy_prod shape) (s_dtype buffer) (s_device buffer);
               mret (<[key := t]> output_buffers)
             else mret output_buffers)
          buffers keys w = Ok (buffers', w')
    ∧ w_next w <= w_next w'
    ∧ (∀ key, key ∉ keys → buffers' !! key = buffers !! key)
    ∧ (∀ key shape buf, key ∈ keys → dict_get shapes key = Some shape →
         buffers !! key = Some buf → grown w shape buf (buffers' !! key)).
Proof.
  induction keys as [|k keys IH]; intros buffers w Hnd Hk.
  - exists buffers, w. split; [done|]. split; [lia|]. split; [done|].
    intros ? ? ? ?%elem_of_nil. done.
  - apply NoDup_cons in Hnd as [Hnotin Hnd].
    destruct (Hk k ltac:(left)) as (shape & buf & Hshape & Hok & Hbuf).
    cbn [foldM]. rewrite !bind_assoc.
    assert (py_assert (bool_decide (is_Some (buffers !! k))) w = Ok (tt, w)) as Hassert.
    { rewrite bool_decide_eq_true_2; [done | by eexists]. }
    rewrite (bind_run _ _ _ _ _ Hassert).
    rewrite !bind_assoc, (bind_run _ _ _ _ _ (lift_run (from_option Ok (Err KeyError) (buffers !! k)) buf w
              ltac:(by rewrite Hbuf))).
    rewrite !bind_assoc, (bind_run _ _ _ _ _ (lift_run (dict_getitem shapes k) shape w
              ltac:(unfold dict_getitem; by rewrite Hshape))).
    rewrite (numpy_prod_exact _ Hok). cbn [np_gt].
    pose proof Hok as (_ & Hpos & _). apply numel_nonneg in Hpos.
    destruct (nelement buf <? numel shape) eqn:Hcmp.
    + destruct (torch_empty_run (numel shape) (s_dtype buf) (s_device buf) w Hpos)
        as (w1 & Hrun & Hnext & Hheap & Hev).
      set (t := {| s_base := w_next w; s_offset := 0; s_size := [numel shape];
                   s_dtype := s_dtype buf; s_device := s_device buf |}) in *.
      rewrite !bind_assoc, (bind_run _ _ _ _ _ Hrun), ret_run.
      destruct (IH (<[k := t]> buffers) w1 Hnd) as (buffers' & w' & Hloop & Hn' & Hout & Hin).
      { intros key Hkey. destruct (Hk key ltac:(by right)) as (sh & b & ? & ? & ?).
        exists sh, b. rewrite lookup_insert_ne by (intros ->; done). done. }
      exists buffers', w'. split; [done|]. split; [lia|]. split.
      * intros key Hkey. apply not_elem_of_cons in Hkey as [Hne Hkey].
        rewrite Hout by done. by rewrite lookup_insert_ne.
      * intros key sh b Hkey Hsh Hb. apply elem_of_cons in Hkey as [-> | Hkey].
        -- rewrite Hout by done. rewrite lookup_insert_eq.
           assert (sh = shape) as -> by congruence. assert (b = buf) as -> by congruence.
           unfold grown. rewrite Hcmp. eexists. split; [done|]. simpl. repeat split; lia.
        -- assert (key ≠ k) as Hne by (intros ->; done).
           specialize (Hin key sh b Hkey Hsh). rewrite lookup_insert_ne in Hin by done.
           specialize (Hin Hb). unfold grown in *. destruct (nelement b <? numel sh); [|done].
           destruct Hin as (b' & ? & ? & ? & ? & ? & ?). exists b'. repeat split; try done. lia.
    + rewrite ret_run.
      destruct (IH buffers w Hnd) as (buffers' & w' & Hloop & Hn' & Hout & Hin).
      { intros key Hkey. apply Hk. by right. }
      exists buffers', w'. split; [done|]. split; [done|]. split.
      * intros key Hkey. apply not_elem_of_cons in Hkey as [Hne Hkey]. by apply Hout.
      * intros key sh b Hkey Hsh Hb. apply elem_of_cons in Hkey as [-> | Hkey].
        -- rewrite Hout by done.
           assert (sh = shape) as -> by congruence. assert (b = buf) as -> by congruence.
           unfold grown. by rewrite Hcmp.
        -- by apply Hin.
Qed.

(** C7: for every output name, auto_increase_buffer_size replaces the buffer
    by a flat one of exactly prod(shape) elements, of the same dtype and on the
    same device, when prod(shape) exceeds the element count of the buffer, and
    leaves the buffer as it is otherwise; no buffer loses elements. *)
Theorem auto_increase_buffer_size_grows_only
    (output_buffers : gmap string StoredTensor) (output_shapes : dict (list Z)) w :
  NoDup (output_shapes.*1) →
  (∀ key shape, dict_get output_shapes key = Some shape →
     shape_ok shape ∧ is_Some (output_buffers !! key)) →
  ∃ buffers' w',
    auto_increase_buffer_size output_buffers output_shapes w = Ok (buffers', w')
    ∧ (∀ key shape buf, dict_get output_shapes key = Some shape →
         output_buffers !! key = Some buf → grown w shape buf (buffers' !! key))
    ∧ (∀ key, dict_get output_shapes key = None →
         buffers' !! key = output_buffers !! key)
    ∧ (∀ key buf, output_buffers !! key = Some buf →
         ∃ buf', buffers' !! key = Some buf' ∧ nelement buf <= nelement buf').
Proof.
  intros Hnd Hok.
  destruct (auto_increase_loop output_shapes (output_shapes.*1) output_buffers w Hnd)
    as (buffers' & w' & Hrun & _ & Hout & Hin).
  { intros key Hkey. apply dict_get_elem_of in Hkey as [shape Hshape].
    destruct (Hok key shape Hshape) as [? [buf ?]]. by exists shape, buf. }
  exists buffers', w'. split; [exact Hrun|].
  assert (∀ key, dict_get output_shapes key = None → key ∉ output_shapes.*1) as Hnone.
  { intros key Hnone Hkey. apply dict_get_elem_of in Hkey as [? ?]. congruence. }
  split; [|split].
  - intros key shape buf Hshape Hbuf. apply Hin; [|done..].
    apply dict_get_elem_of. by eexists.
  - intros key Hkey. by apply Hout, Hnone.
  - intros key buf Hbuf. destruct (dict_get output_shapes key) as [shape|] eqn:Hshape.
    + assert (key ∈ output_shapes.*1) as Hkey by (apply dict_get_elem_of; by eexists).
      pose proof (Hin key shape buf Hkey Hshape Hbuf) as Hg. unfold grown in Hg.
      destruct (nelement buf <? numel shape) eqn:Hcmp.
      * destruct Hg as (b & Hb & Hsz & _). exists b. split; [done|].
        apply Z.ltb_lt in Hcmp. unfold nelement at 2. rewrite Hsz. simpl. lia.
      * exists buf. split; [done | lia].
    + exists buf. split; [|lia]. rewrite Hout; [done|]. by apply Hnone.
Qed.

Lemma auto_increase_buffer_size_grows_only_witness :
  ∃ buffers' w',
    auto_increase_buffer_size example_buffers example_shapes world0 = Ok (buffers', w')
    ∧ (∀ key shape buf, dict_get example_shapes key = Some shape →
         example_buffers !! key = Some buf → grown world0 shape buf (buffers' !! key))
    ∧ (∀ key, dict_get example_shapes key = None →
         buffers' !! key = example_buffers !! key)
    ∧ (∀ key buf, example_buffers !! key = Some buf →
         ∃ buf', buffers' !! key = Some buf' ∧ nelement buf <= nelement buf').
Proof.
  apply (auto_increase_buffer_size_grows_only example_buffers example_shapes world0).
  - apply (bool_decide_unpack _). by vm_compute.
  - intros key shape H. unfold example_shapes in H. simpl in H.
    repeat case_decide; simplify_eq.
    + split; [|by eexists]. split; [done|]. split; [repeat constructor; lia | by vm_compute].
    + split; [|by eexists]. split; [done|]. split; [repeat constructor; lia | by vm_compute].
Defined.

Lemma load_heap_agree w1 w2 t :
  w_heap w1 !! s_base t = w_heap w2 !! s_base t → load w1 t = load w2 t.
Proof. intros H. unfold load. by rewrite H. Qed.

Lemma clone_run t w :
  ∃ w', clone t w
        = Ok ({| s_base := w_next w; s_offset := 0; s_size := s_size t;
                 s_dtype := s_dtype t; s_device := s_device t |}, w')
    ∧ w_next w < w_next w'
    ∧ w_heap w' = <[w_next w := load w t]> (w_heap w).
Proof. eexists. split; [done|]. simpl. split; [lia | done]. Qed.

Lemma load_clone t w w' c :
  w_heap w' = <[w_next w := load w t]> (w_heap w) →
  s_base c = w_next w → s_offset c = 0 → s_size c = s_size t →
  load w' c = load w t.
Proof.
  intros Hh Hb Ho Hs. unfold load at 1. unfold nelement.
  rewrite Hh, Hb, Ho, Hs, lookup_insert_eq. simpl.
  unfold load, nelement. change (Z.to_nat 0) with 0%nat. rewrite drop_0, take_take.
  f_equal. lia.
Qed.

Lemma reshape_size_exact shape :
  Forall (λ d, 0 <= d) shape → reshape_size (numel shape) shape = Ok shape.
Proof.
  intros H. unfold reshape_size.
  replace (filter (λ d, d < 0) shape) with (@nil Z).
  - by rewrite Z.eqb_refl.
  - symmetry. induction H as [|d l Hd Hl IH]; [done|].
    rewrite filter_cons_False by lia. done.
Qed.

(** Reading back one output. *)
Lemma read_back_one (output_buffers : gmap string StoredTensor)
    (output_shapes : dict (list Z)) (return_numpy : bool) name buf shape len w :
  output_buffers !! name = Some buf →
  dict_get output_shapes name = Some shape →
  shape_ok shape → s_size buf = [len] → numel shape <= len →
  s_base buf < w_next w →
  ∃ out w',
    ((buffers ← lift (from_option Ok (Err TypeError) (Some output_buffers));
     buffer ← lift (from_option Ok (Err KeyError) (buffers !! name));
     shape ← lift (dict_getitem output_shapes name);
     sliced ← slice_prefix buffer (numpy_prod shape);
     reshaped ← reshape sliced shape;
     cloned ← clone reshaped;
     copy_tensor ← detach cloned;
     if return_numpy then on_host ← cpu copy_tensor; numpy on_host
     else mret copy_tensor) : M StoredTensor) w = Ok (out, w')
    ∧ s_size out = shape
    ∧ load w' out = take (Z.to_nat (numel shape)) (load w buf)
    ∧ w_next w <= s_base out < w_next w'
    ∧ (∀ a, a < w_next w → w_heap w' !! a = w_heap w !! a).
Proof.
  intros Hbuf Hshape Hok Hflat Hfit Halloc.
  rewrite (bind_run _ _ _ _ _ (lift_run _ output_buffers w eq_refl)).
  rewrite (bind_run _ _ _ _ _ (lift_run (from_option Ok (Err KeyError)
             (output_buffers !! name)) buf w ltac:(by rewrite Hbuf))).
  rewrite (bind_run _ _ _ _ _ (lift_run (dict_getitem output_shapes name) shape w
             ltac:(unfold dict_getitem; by rewrite Hshape))).
  rewrite (numpy_prod_exact _ Hok).
  pose proof Hok as (_ & Hpos & _). pose proof (numel_nonneg _ Hpos) as Hn.
  set (sliced := {| s_base := s_base buf; s_offset := s_offset buf;
                    s_size := [numel shape];
                    s_dtype := s_dtype buf; s_device := s_device buf |}).
  assert (slice_prefix buf (NpInt (numel shape)) w = Ok (sliced, w)) as Hslice.
  { unfold slice_prefix. rewrite Hflat.
    replace (numel shape <? 0) with false by (symmetry; apply Z.ltb_ge; lia).
    rewrite Z.min_l by lia. done. }
  rewrite (bind_run _ _ _ _ _ Hslice).
  set (reshaped := {| s_base := s_base buf; s_offset := s_offset buf;
                      s_size := shape;
                      s_dtype := s_dtype buf; s_device := s_device buf |}).
  assert (reshape sliced shape w = Ok (reshaped, w)) as Hreshape.
  { unfold reshape.
    replace (nelement sliced) with (numel shape) by (unfold nelement; simpl; lia).
    by rewrite (bind_run _ _ _ _ _ (lift_run _ _ w (reshape_size_exact _ Hpos))). }
  rewrite (bind_run _ _ _ _ _ Hreshape).
  assert (load w reshaped = take (Z.to_nat (numel shape)) (load w buf)) as Hload.
  { unfold load, nelement. simpl. rewrite Hflat. simpl. rewrite take_take. f_equal. lia. }
  destruct (clone_run reshaped w) as (w1 & Hclone & Hnext1 & Hheap1).
  rewrite (bind_run _ _ _ _ _ Hclone). unfold detach. rewrite ret_run.
  set (cloned := {| s_base := w_next w; s_offset := 0; s_size := s_size reshaped;
                    s_dtype := s_dtype reshaped; s_device := s_device reshaped |}) in *.
  assert (load w1 cloned = take (Z.to_nat (numel shape)) (load w buf)) as Hload1.
  { rewrite <- Hload. by apply (load_clone reshaped w w1 cloned). }
  assert (∀ a, a < w_next w → w_heap w1 !! a = w_heap w !! a) as Hframe1.
  { intros a Ha. rewrite Hheap1, lookup_insert_ne by lia. done. }
  destruct return_numpy; [|by exists cloned, w1; repeat split; simpl; try done; lia].
  unfold cpu, numpy. simpl s_device. destruct (s_device buf).
  - rewrite ret_run. exists cloned, w1. repeat split; simpl; try done; lia.
  - destruct (clone_run cloned w1) as (w2 & Hclone2 & Hnext2 & Hheap2).
    rewrite bind_assoc, (bind_run _ _ _ _ _ Hclone2), ret_run. simpl.
    eexists _, w2. split; [done|]. simpl. split; [done|]. split.
    + rewrite <- Hload1.
      apply (load_clone cloned w1 w2); done.
    + split; [lia|]. intros a Ha. rewrite Hheap2, lookup_insert_ne by lia. by apply Hframe1.
Qed.

Lemma read_back_loop (output_buffers : gmap string StoredTensor) (output_shapes : dict (list Z))
    (return_numpy : bool) names : ∀ w,
  (∀ name buf, output_buffers !! name = Some buf → s_base buf < w_next w) →
  (∀ name, name ∈ names → readable output_buffers output_shapes name) →
  ∃ outs w',
    mapM (λ output_name,
            buffers ← lift (from_option Ok (Err TypeError) (Some output_buffers));
            buffer ← lift (from_option Ok (Err KeyError) (buffers !! output_name));
            shape ← lift (dict_getitem output_shapes output_name);
            sliced ← slice_prefix buffer (numpy_prod shape);
            reshaped ← reshape sliced shape;
            cloned ← clone reshaped;
            copy_tensor ← detach cloned;
            if return_numpy then
              on_host ← cpu copy_tensor;
              numpy on_host
            else mret copy_tensor)
         names w = Ok (outs, w')
    ∧ w_next w <= w_next w'
    ∧ (∀ a, a < w_next w → w_heap w' !! a = w_heap w !! a)
    ∧ Forall2 (read_back_of output_buffers output_shapes w w') names outs
    ∧ Forall (λ out, w_next w <= s_base out) outs.
Proof.
  induction names as [|name names IH]; intros w Halloc Hnames.
  - exists [], w. split; [done|]. split; [lia|]. split; [done|]. split; constructor.
  - destruct (Hnames name ltac:(left)) as (buf & shape & len & Hbuf & Hshape & Hok & Hflat & Hfit).
    destruct (read_back_one output_buffers output_shapes return_numpy name buf shape
                len w Hbuf Hshape Hok Hflat Hfit (Halloc _ _ Hbuf))
      as (out & w1 & Hone & Hsize & Hload & Hbase & Hframe1).
    cbn [mapM]. rewrite (bind_run _ _ _ _ _ Hone).
    destruct (IH w1) as (outs & w' & Hrest & Hnext & Hframe & Hall & Hbases).
    { intros n b Hb. specialize (Halloc n b Hb). lia. }
    { intros n Hn. apply Hnames. by right. }
    rewrite (bind_run _ _ _ _ _ Hrest).
    exists (out :: outs), w'. split; [done|]. split; [lia|]. split.
    { intros a Ha. rewrite Hframe by lia. by apply Hframe1. }
    split.
    + constructor.
      * exists buf, shape. split; [done|]. split; [done|]. split; [done|].
        rewrite <- Hload. apply load_heap_agree, Hframe. lia.
      * eapply Forall2_impl; [exact Hall|].
        intros n o (b & sh & Hb & Hsh & Hsz & Hl). exists b, sh.
        split; [done|]. split; [done|]. split; [done|]. rewrite Hl. f_equal.
        apply load_heap_agree, Hframe1. by eapply Halloc.
    + constructor; [lia|]. eapply Forall_impl; [exact Hbases|]. simpl. intros; lia.
Qed.

(** C8: for every output name, get_outputs_from_io_binding_buffer returns the
    first prod(shape) elements of the buffer under that shape, in a storage of
    its own: whatever is written to the buffers afterwards, the returned
    outputs read the same. *)
Theorem read_back_is_detached_copy (ort_session : InferenceSession)
    (output_buffers : gmap string StoredTensor) (output_shapes : dict (list Z))
    (return_numpy : bool) w :
  (∀ name buf, output_buffers !! name = Some buf → s_base buf < w_next w) →
  (∀ name, name ∈ get_outputs ort_session →
     readable output_buffers output_shapes name) →
  ∃ outs w',
    get_outputs_from_io_binding_buffer ort_session (Some output_buffers)
      output_shapes return_numpy w = Ok (outs, w')
    ∧ Forall2 (read_back_of output_buffers output_shapes w w')
        (get_outputs ort_session) outs
    ∧ ∀ w'',
        (∀ a, (∀ name buf, output_buffers !! name = Some buf → s_base buf ≠ a) →
              w_heap w'' !! a = w_heap w' !! a) →
        Forall (λ out, load w'' out = load w' out) outs.
Proof.
  intros Halloc Hnames.
  destruct (read_back_loop output_buffers output_shapes return_numpy
              (get_outputs ort_session) w Halloc Hnames)
    as (outs & w' & Hrun & _ & _ & Hall & Hbases).
  exists outs, w'. split; [exact Hrun|]. split; [exact Hall|].
  intros w'' Hsame. eapply Forall_impl; [exact Hbases|]. simpl.
  intros out Hout. apply load_heap_agree, Hsame.
  intros name buf Hbuf. specialize (Halloc name buf Hbuf). lia.
Qed.

Lemma read_back_is_detached_copy_witness :
  ∃ outs w',
    get_outputs_from_io_binding_buffer two_output_session (Some example_buffers)
      fitting_shapes true stored_world = Ok (outs, w')
    ∧ Forall2 (read_back_of example_buffers fitting_shapes stored_world w')
        (get_outputs two_output_session) outs
    ∧ ∀ w'',
        (∀ a, (∀ name buf, example_buffers !! name = Some buf → s_base buf ≠ a) →
              w_heap w'' !! a = w_heap w' !! a) →
        Forall (λ out, load w'' out = load w' out) outs.
Proof.
  apply (read_back_is_detached_copy two_output_session example_buffers
           fitting_shapes true stored_world).
  - intros name buf H. unfold example_buffers in H.
    apply lookup_insert_Some in H as [[_ <-] | [_ H]]; [simpl; lia|].
    apply lookup_insert_Some in H as [[_ <-] | [_ H]]; [simpl; lia|].
    by rewrite lookup_empty in H.
  - intros name H. simpl in H. unfold readable.
    apply elem_of_cons in H as [-> | H]; [|apply elem_of_cons in H as [-> | H]].
    + eexists _, _, _. split; [reflexivity|]. split; [reflexivity|].
      split; [|split; [reflexivity | simpl; lia]].
      split; [done|]. split; [repeat constructor; lia | by vm_compute].
    + eexists _, _, _. split; [reflexivity|]. split; [reflexivity|].
      split; [|split; [reflexivity | simpl; lia]].
      split; [done|]. split; [repeat constructor; lia | by vm_compute].
    + by apply elem_of_nil in H.
Defined.

(** ** Binding inputs and outputs *)

Lemma py_assert_run c w : c = true → py_assert c w = Ok (tt, w).
Proof. by intros ->. Qed.

Lemma bind_input_run b name dev id dt shape ptr w :
  ptr ≠ 0 →
  bind_input b name dev id dt shape ptr w
  = Ok ({| bound_inputs := bound_inputs b ++
             [{| b_name := name; b_device := dev; b_device_id := id;
                 b_dtype := dt; b_shape := shape; b_ptr := ptr |}];
           bound_outputs := bound_outputs b |}, w).
Proof. intros H. unfold bind_input. by apply Z.eqb_neq in H as ->. Qed.

Lemma bind_past_loop (input_ids : LongMatrix) float_type ips : ∀ b w,
  t_ptr input_ids ≠ 0 →
  Forall (λ ip : nat * FloatTensor, t_contiguous ip.2 = true) ips →
  foldM (λ io_binding ip,
           let i := ip.1 in let past_i := ip.2 in
           py_assert (t_contiguous past_i);;
           let data_ptr := t_ptr past_i in
           let data_ptr :=
             if data_ptr =? 0 then t_ptr input_ids else data_ptr in
           bind_input io_binding ("past_" +:+ pretty i) (t_device past_i) 0
             float_type (t_size past_i) data_ptr)
        b ips w
  = Ok ({| bound_inputs := bound_inputs b ++ map (past_binding input_ids float_type) ips;
           bound_outputs := bound_outputs b |}, w).
Proof.
  intros b w Hids Hc. revert b. induction Hc as [|ip ips Hip Hc IH]; intros b.
  - simpl. rewrite app_nil_r. by destruct b.
  - cbn [foldM]. cbv zeta. rewrite bind_assoc.
    rewrite (bind_run _ _ _ _ _ (py_assert_run _ w Hip)).
    assert ((if t_ptr ip.2 =? 0 then t_ptr input_ids else t_ptr ip.2) ≠ 0) as Hptr
      by (destruct (t_ptr ip.2 =? 0) eqn:E; [done | by apply Z.eqb_neq]).
    rewrite (bind_run _ _ _ _ _ (bind_input_run b _ _ _ _ _ _ w Hptr)).
    rewrite IH. simpl. by rewrite <- app_assoc.
Qed.

Lemma bind_output_run b name dev id dt shape ptr w :
  ptr ≠ 0 →
  bind_output b name dev id dt shape ptr w
  = Ok ({| bound_inputs := bound_inputs b;
           bound_outputs := bound_outputs b ++
             [{| b_name := name; b_device := dev; b_device_id := id;
                 b_dtype := dt; b_shape := shape; b_ptr := ptr |}] |}, w).
Proof. intros H. unfold bind_output. by apply Z.eqb_neq in H as ->. Qed.

Lemma bind_outputs_loop (output_buffers : gmap string StoredTensor)
    (output_shapes : dict (list Z)) float_type names : ∀ b w,
  (∀ name, name ∈ names → ∃ buf shape, output_buffers !! name = Some buf
       ∧ dict_get output_shapes name = Some shape ∧ data_ptr buf ≠ 0) →
  ∃ b' w',
    foldM (λ io_binding output_name,
             output_buffer ← lift (from_option Ok (Err KeyError)
                                     (output_buffers !! output_name));
             logger_debug (MsgBindOutput output_name (s_device output_buffer)
                             (s_size output_buffer));;
             shape ← lift (dict_getitem output_shapes output_name);
             bind_output io_binding output_name (s_device output_buffer) 0
               float_type shape (data_ptr output_buffer))
          b names w = Ok (b', w')
    ∧ bound_inputs b' = bound_inputs b.
Proof.
  induction names as [|name names IH]; intros b w Hnames.
  - by exists b, w.
  - destruct (Hnames name ltac:(left)) as (buf & shape & Hbuf & Hshape & Hptr).
    cbn [foldM]. rewrite !bind_assoc.
    rewrite (bind_run _ _ _ _ _ (lift_run (from_option Ok (Err KeyError)
               (output_buffers !! name)) buf w ltac:(by rewrite Hbuf))).
    destruct (logger_debug_run (MsgBindOutput name (s_device buf) (s_size buf)) w)
      as (w1 & Hlog & _).
    rewrite !bind_assoc, (bind_run _ _ _ _ _ Hlog).
    rewrite !bind_assoc, (bind_run _ _ _ _ _ (lift_run (dict_getitem output_shapes name)
               shape w1 ltac:(unfold dict_getitem; by rewrite Hshape))).
    rewrite (bind_run _ _ _ _ _ (bind_output_run b _ _ _ _ _ _ w1 Hptr)).
    destruct (IH {| bound_inputs := bound_inputs b;
                    bound_outputs := bound_outputs b ++
                      [{| b_name := name; b_device := s_device buf; b_device_id := 0;
                          b_dtype := float_type; b_shape := shape;
                          b_ptr := data_ptr buf |}] |} w1)
      as (b' & w' & Hrun & Hin).
    { intros n Hn. apply Hnames. by right. }
    by exists b', w'.
Qed.

(** C9: when a cache tensor reports the null pointer, prepare_io_binding binds
    it with the data pointer of input_ids; no input is bound with a null
    pointer and the binding step raises nothing. *)
Theorem prepare_io_binding_substitutes_null_pointer (ort_session : InferenceSession)
    (input_ids : LongMatrix) (position_ids : option LongMatrix)
    (attention_mask : option FloatMatrix) (past : list FloatTensor)
    (output_buffers : gmap string StoredTensor) (output_shapes : dict (list Z)) w :
  t_contiguous input_ids = true → t_ptr input_ids ≠ 0 →
  Forall (λ past_i, t_contiguous past_i = true) past →
  (∀ m, attention_mask = Some m → t_contiguous m = true ∧ t_ptr m ≠ 0) →
  (∀ p, position_ids = Some p → t_contiguous p = true ∧ t_ptr p ≠ 0) →
  get_outputs ort_session ≠ [] →
  (∀ name, name ∈ get_outputs ort_session →
     ∃ buf shape, output_buffers !! name = Some buf
       ∧ dict_get output_shapes name = Some shape ∧ data_ptr buf ≠ 0) →
  ∃ binding w',
    prepare_io_binding ort_session input_ids position_ids attention_mask
      (Some past) (Some output_buffers) output_shapes w = Ok (binding, w')
    ∧ Forall (λ b, b_ptr b ≠ 0) (bound_inputs binding)
    ∧ ∀ i past_i, past !! i = Some past_i →
        ∃ b, b ∈ bound_inputs binding
          ∧ b_name b = "past_" +:+ pretty i
          ∧ b_shape b = t_size past_i
          ∧ b_ptr b = if t_ptr past_i =? 0 then t_ptr input_ids else t_ptr past_i.
Proof.
  intros Hc Hptr Hpast Hmask Hpos Hne Houts. unfold prepare_io_binding.
  rewrite (bind_run _ _ _ _ _ (py_assert_run _ w Hc)).
  rewrite (bind_run _ _ _ _ _ (bind_input_run _ _ _ _ _ _ _ w Hptr)).
  destruct (get_outputs ort_session) as [|first names] eqn:Hnames; [done|].
  rewrite (bind_run _ _ _ _ _ (lift_run (getitem (first :: names) 0) first w eq_refl)).
  rewrite (bind_run _ _ _ _ _ (lift_run _ output_buffers w eq_refl)).
  destruct (Houts first ltac:(left)) as (fbuf & fshape & Hfbuf & _).
  rewrite (bind_run _ _ _ _ _ (lift_run (from_option Ok (Err KeyError)
             (output_buffers !! first)) fbuf w ltac:(by rewrite Hfbuf))).
  cbv zeta. set (float_type := match s_dtype fbuf with Float16 => Float16 | _ => Float32 end).
  assert (Forall (λ ip : nat * FloatTensor, t_contiguous ip.2 = true) (imap pair past))
    as Hpast'.
  { apply Forall_forall. intros ip (i & p & -> & Hp)%elem_of_lookup_imap_1. simpl.
    rewrite Forall_forall in Hpast. apply Hpast. by eapply list_elem_of_lookup_2. }
  rewrite (bind_run _ _ _ _ _ (bind_past_loop input_ids float_type (imap pair past) _ w
             Hptr Hpast')).
  cbn [bound_inputs bound_outputs io_binding app].
  set (b1 := {| bound_inputs := _ :: map _ _; bound_outputs := [] |}).
  assert (∃ b2 extra,
            match attention_mask with
            | Some m =>
                py_assert (t_contiguous m);;
                bind_input b1 "attention_mask" (t_device m) 0 float_type
                  (t_size m) (t_ptr m)
            | None => mret b1
            end w = Ok (b2, w)
            ∧ bound_inputs b2 = bound_inputs b1 ++ extra
            ∧ Forall (λ b, b_ptr b ≠ 0) extra) as (b2 & extra2 & Hb2 & Hin2 & Hnn2).
  { destruct attention_mask as [m|].
    - destruct (Hmask m eq_refl) as [Hmc Hmp].
      rewrite (bind_run _ _ _ _ _ (py_assert_run _ w Hmc)).
      rewrite (bind_input_run b1 _ _ _ _ _ _ w Hmp).
      eexists _, _. split; [done|]. split; [done|]. by repeat constructor.
    - exists b1, []. by rewrite app_nil_r. }
  rewrite (bind_run _ _ _ _ _ Hb2).
  assert (∃ b3 extra,
            match position_ids with
            | Some p =>
                py_assert (t_contiguous p);;
                bind_input b2 "position_ids" (t_device p) 0 Int64
                  (t_size p) (t_ptr p)
            | None => mret b2
            end w = Ok (b3, w)
            ∧ bound_inputs b3 = bound_inputs b2 ++ extra
            ∧ Forall (λ b, b_ptr b ≠ 0) extra) as (b3 & extra3 & Hb3 & Hin3 & Hnn3).
  { destruct position_ids as [p|].
    - destruct (Hpos p eq_refl) as [Hpc Hpp].
      rewrite (bind_run _ _ _ _ _ (py_assert_run _ w Hpc)).
      rewrite (bind_input_run b2 _ _ _ _ _ _ w Hpp).
      eexists _, _. split; [done|]. split; [done|]. by repeat constructor.
    - exists b2, []. by rewrite app_nil_r. }
  rewrite (bind_run _ _ _ _ _ Hb3).
  destruct (bind_outputs_loop output_buffers output_shapes float_type
              (first :: names) b3 w Houts) as (b4 & w' & Hrun & Hin4).
  exists b4, w'. split; [exact Hrun|].
  rewrite Hin4, Hin3, Hin2. subst b1. cbn [bound_inputs]. split.
  - rewrite !Forall_app. split; [split|]; [|done..].
    constructor; [done|]. apply Forall_forall. intros b Hb.
    apply list_elem_of_fmap in Hb as (ip & -> & _). unfold past_binding. simpl.
    destruct (t_ptr ip.2 =? 0) eqn:E; [done | by apply Z.eqb_neq].
  - intros i past_i Hi. exists (past_binding input_ids float_type (i, past_i)).
    split; [|done].
    apply elem_of_app. left. apply elem_of_app. left. right.
    apply list_elem_of_fmap. exists (i, past_i). split; [done|].
    apply elem_of_lookup_imap. by exists i, past_i.
Qed.

Lemma prepare_io_binding_substitutes_null_pointer_witness :
  ∃ binding w',
    prepare_io_binding two_output_session example_input_ids None
      (Some example_mask) (Some [example_empty_past; example_empty_past])
      (Some example_buffers) fitting_shapes world0 = Ok (binding, w')
    ∧ Forall (λ b, b_ptr b ≠ 0) (bound_inputs binding)
    ∧ ∀ i past_i, [example_empty_past; example_empty_past] !! i = Some past_i →
        ∃ b, b ∈ bound_inputs binding
          ∧ b_name b = "past_" +:+ pretty i
          ∧ b_shape b = t_size past_i
          ∧ b_ptr b = if t_ptr past_i =? 0 then t_ptr example_input_ids
                      else t_ptr past_i.
Proof.
  apply (prepare_io_binding_substitutes_null_pointer two_output_session
           example_input_ids None (Some example_mask)
           [example_empty_past; example_empty_past] example_buffers
           fitting_shapes world0).
  - reflexivity.
  - simpl. lia.
  - by repeat constructor.
  - intros m [= <-]. split; [reflexivity | simpl; lia].
  - intros p [=].
  - simpl. discriminate.
  - intros name H. simpl in H.
    apply elem_of_cons in H as [-> | H]; [|apply elem_of_cons in H as [-> | H]].
    + eexists _, _. split; [reflexivity|]. split; [reflexivity|]. by vm_compute.
    + eexists _, _. split; [reflexivity|]. split; [reflexivity|]. by vm_compute.
    + by apply elem_of_nil in H.
Defined.

(** With an empty cache the cache tensors report the null pointer, and their
    bindings carry the pointer of input_ids. *)
Example empty_cache_binds_input_ids_pointer :
  match get_dummy_inputs 2 0 2 2 4 2 50 Cpu false true true world0 with
  | Ok (inputs, w) =>
      match prepare_io_binding two_output_session (input_ids inputs) None
              (attention_mask inputs) (past inputs) (Some example_buffers)
              fitting_shapes w with
      | Ok (binding, _) =>
          (from_option (map t_ptr) [] (past inputs),
           map b_ptr (bound_inputs binding))
          = ([0; 0], [4098; 4098; 4098; 4102])
      | Err _ => False
      end
  | Err _ => False
  end.
Proof. by vm_compute. Qed.

(** ** The parity trial loop *)

Lemma trial_loop_inv (trial : M bool) (xs : list nat) : ∀ p0 w p w',
  foldM (λ (passed_test_cases : Z) (_ : nat),
           is_all_close ← trial;
           mret (if is_all_close : bool then passed_test_cases + 1
                 else passed_test_cases)) p0 xs w = Ok (p, w') →
  ∃ outcomes, length outcomes = length xs
    ∧ trials_run trial outcomes w w'
    ∧ p = p0 + count_passed outcomes.
Proof.
  induction xs as [|x xs IH]; intros p0 w p w' H.
  - injection H as <- <-. exists []. repeat split. unfold count_passed. simpl. lia.
  - cbn [foldM] in H. rewrite bind_assoc in H.
    apply bind_inv in H as (b & w1 & Htrial & H). rewrite ret_run in H.
    apply IH in H as (outcomes & Hlen & Hrun & Hp).
    exists (b :: outcomes). split; [simpl; lia|]. split; [by exists w1|].
    unfold count_passed in *. simpl. destruct b; lia.
Qed.

Lemma logger_info_inv m w r : logger_info m w = Ok r →
  r = (tt, {| w_rng := w_rng w; w_next := w_next w; w_uninit := w_uninit w;
              w_heap := w_heap w; w_events := w_events w ++ [LogInfo m] |}).
Proof. by intros [= <-]. Qed.

(** C4: the verdict test_parity returns is true exactly when the number of
    passed trials equals total_test_cases; the 95% threshold decides only
    whether one more line is logged. *)
Theorem test_parity_verdict_is_strict (ort_session : InferenceSession)
    (model : PyTorchModel) dev is_float16 rtol atol total_test_cases
    use_io_binding model_class has_position_ids has_attention_mask w verdict w' :
  test_parity ort_session model dev is_float16 rtol atol total_test_cases
    use_io_binding model_class has_position_ids has_attention_mask w
  = Ok (verdict, w') →
  ∃ outcomes output_buffers w0 w1,
    length outcomes = Z.to_nat total_test_cases
    ∧ trials_run (test_parity_trial ort_session model dev is_float16 rtol atol
                    use_io_binding model_class has_position_ids
                    has_attention_mask 8 4 2 output_buffers) outcomes w0 w1
    ∧ (verdict = true ↔ count_passed outcomes = total_test_cases)
    ∧ w_events w' =
        w_events w1
        ++ LogInfo (MsgParityCases total_test_cases (count_passed outcomes))
        :: (if 95 * total_test_cases <? 100 * count_passed outcomes
            then [LogInfo (MsgParityGood
                    (Z.quot (count_passed outcomes * 100) total_test_cases))]
            else []).
Proof.
  intros H. unfold test_parity in H. cbv zeta in H.
  apply bind_inv in H as ([] & wa & _ & H).
  apply bind_inv in H as (output_buffers & w0 & _ & H).
  apply bind_inv in H as (passed & w1 & Hloop & H).
  apply trial_loop_inv in Hloop as (outcomes & Hlen & Hrun & Hp).
  rewrite length_seq in Hlen. rewrite Z.add_0_l in Hp. subst passed.
  apply bind_inv in H as ([] & w2 & Hlog & H).
  apply logger_info_inv in Hlog. injection Hlog as ->.
  apply bind_inv in H as ([] & w3 & Hgood & H).
  injection H as <- <-.
  exists outcomes, output_buffers, w0, w1. split; [done|]. split; [done|].
  split; [apply Z.eqb_eq|].
  destruct (95 * total_test_cases <? 100 * count_passed outcomes).
  - apply logger_info_inv in Hgood. injection Hgood as ->. simpl.
    by rewrite <- app_assoc.
  - injection Hgood as <-. done.
Qed.

Lemma test_parity_verdict_is_strict_witness :
  ∃ verdict w',
    test_parity example_session example_model Cpu false (5 # 10000) (5 # 10000)
      2 true "GPT2LMHeadModel" true true world0 = Ok (verdict, w')
    ∧ ∃ outcomes output_buffers w0 w1,
        length outcomes = Z.to_nat 2
        ∧ trials_run (test_parity_trial example_session example_model Cpu false
                        (5 # 10000) (5 # 10000) true "GPT2LMHeadModel" true true
                        8 4 2 output_buffers) outcomes w0 w1
        ∧ (verdict = true ↔ count_passed outcomes = 2)
        ∧ w_events w' =
            w_events w1
            ++ LogInfo (MsgParityCases 2 (count_passed outcomes))
            :: (if 95 * 2 <? 100 * count_passed outcomes
                then [LogInfo (MsgParityGood
                        (Z.quot (count_passed outcomes * 100) 2))]
                else []).
Proof.
  eexists _, _. split.
  - vm_compute. reflexivity.
  - eapply (test_parity_verdict_is_strict example_session example_model Cpu false
              (5 # 10000) (5 # 10000) 2 true "GPT2LMHeadModel" true true world0).
    vm_compute. reflexivity.
Defined.

Lemma trial_loop_run (trial : M bool) outcomes : ∀ (xs : list nat) p0 w w',
  length outcomes = length xs →
  trials_run trial outcomes w w' →
  foldM (λ (passed_test_cases : Z) (_ : nat),
           is_all_close ← trial;
           mret (if is_all_close : bool then passed_test_cases + 1
                 else passed_test_cases)) p0 xs w
  = Ok (p0 + count_passed outcomes, w').
Proof.
  induction outcomes as [|b outcomes IH]; intros xs p0 w w' Hlen Hrun.
  - destruct xs; [|done]. simpl in *. subst w'. unfold count_passed. simpl.
    by rewrite Z.add_0_r.
  - destruct xs as [|x xs]; [done|]. destruct Hrun as (w1 & Htrial & Hrun).
    cbn [foldM]. rewrite bind_assoc, (bind_run _ _ _ _ _ Htrial), ret_run.
    rewrite (IH xs _ w1 w') by (simpl in Hlen; lia || done).
    unfold count_passed. simpl. destruct b; do 2 f_equal; lia.
Qed.

(** [test_parity] returns whenever the allocation of the buffers and every
    trial return. *)
Lemma test_parity_returns (ort_session : InferenceSession)
    (model : PyTorchModel) dev is_float16 rtol atol total_test_cases
    (use_io_binding : bool) model_class has_position_ids has_attention_mask
    w output_buffers w0 outcomes w1 :
  (logger_info (MsgRunningParity total_test_cases use_io_binding);;
   if use_io_binding then
     max_output_shapes ← get_output_shapes 8 4 2 (config model) model_class;
     b ← get_output_buffers max_output_shapes dev is_float16;
     mret (Some b)
   else mret None) w = Ok (output_buffers, w0) →
  length outcomes = Z.to_nat total_test_cases →
  trials_run (test_parity_trial ort_session model dev is_float16 rtol atol
                use_io_binding model_class has_position_ids
                has_attention_mask 8 4 2 output_buffers) outcomes w0 w1 →
  ∃ w', test_parity ort_session model dev is_float16 rtol atol total_test_cases
          use_io_binding model_class has_position_ids has_attention_mask w
        = Ok (count_passed outcomes =? total_test_cases, w').
Proof.
  intros Hpre Hlen Hrun. unfold test_parity. cbv zeta.
  apply bind_inv in Hpre as ([] & wa & Hlog & Hbufs).
  rewrite (bind_run _ _ _ _ _ Hlog), (bind_run _ _ _ _ _ Hbufs).
  rewrite (bind_run _ _ _ _ _ (trial_loop_run _ outcomes _ 0 w0 w1
             ltac:(by rewrite length_seq) Hrun)).
  rewrite Z.add_0_l.
  destruct (logger_info_run (MsgParityCases total_test_cases (count_passed outcomes)) w1)
    as (w2 & Hlog2 & _).
  rewrite (bind_run _ _ _ _ _ Hlog2).
  destruct (95 * total_test_cases <? 100 * count_passed outcomes).
  - destruct (logger_info_run (MsgParityGood
                (Z.quot (count_passed outcomes * 100) total_test_cases)) w2)
      as (w3 & Hlog3 & _).
    rewrite (bind_run _ _ _ _ _ Hlog3). by eexists.
  - by eexists.
Qed.

(** Without [use_io_binding] no buffers are allocated, and the bound-buffer
    path subscripts the absent dictionary: no trial returns. *)
Lemma unbound_trial_never_returns (ort_session : InferenceSession)
    (model : PyTorchModel) dev is_float16 rtol atol model_class
    has_position_ids has_attention_mask max_batch_size max_past_seq_len
    max_seq_len w r :
  test_parity_trial ort_session model dev is_float16 rtol atol false model_class
    has_position_ids has_attention_mask max_batch_size max_past_seq_len
    max_seq_len None w ≠ Ok r.
Proof.
  intros H. unfold test_parity_trial in H. cbv zeta in H.
  apply bind_inv in H as (? & ? & _ & H).
  apply bind_inv in H as (? & ? & _ & H).
  apply bind_inv in H as (? & ? & _ & H).
  apply bind_inv in H as (? & ? & _ & H).
  apply bind_inv in H as (inputs & ? & _ & H).
  apply bind_inv in H as (? & ? & _ & H).
  apply bind_inv in H as (? & ? & H & _).
  apply bind_inv in H as (? & ? & _ & H).
  unfold onnxruntime_inference_with_binded_io in H.
  apply bind_inv in H as (? & ? & _ & H).
  apply bind_inv in H as (? & ? & H & _).
  unfold prepare_io_binding in H.
  apply bind_inv in H as (? & ? & _ & H).
  apply bind_inv in H as (? & ? & _ & H).
  apply bind_inv in H as (? & ? & _ & H).
  apply bind_inv in H as (? & ? & H & _).
  discriminate H.
Qed.

Lemma unbound_parity_runs_no_trial (ort_session : InferenceSession)
    (model : PyTorchModel) dev is_float16 rtol atol total_test_cases model_class
    has_position_ids has_attention_mask w r :
  test_parity ort_session model dev is_float16 rtol atol total_test_cases false
    model_class has_position_ids has_attention_mask w = Ok r →
  total_test_cases <= 0.
Proof.
  intros H. unfold test_parity in H. cbv zeta in H.
  apply bind_inv in H as ([] & wa & _ & H).
  apply bind_inv in H as (output_buffers & w0 & Hbufs & H).
  injection Hbufs as <- <-.
  apply bind_inv in H as (passed & w1 & Hloop & _).
  destruct (Z.to_nat total_test_cases) as [|n] eqn:Hn; [lia|].
  cbn [seq foldM] in Hloop. rewrite bind_assoc in Hloop.
  apply bind_inv in Hloop as (b & w2 & Htrial & _).
  by apply unbound_trial_never_returns in Htrial.
Qed.

Create HintDb emits.

Lemma engine_runs_app l1 l2 : engine_runs (l1 ++ l2) = engine_runs l1 ++ engine_runs l2.
Proof. unfold engine_runs. apply flat_map_app. Qed.

Section emits_facts.
Context {A B : Type}.

Lemma emits_ret (a : A) : emits (mret a) [].
Proof. intros w a' w' [= _ <-]. by rewrite app_nil_r. Qed.

Lemma emits_raise e modes : emits (@raise A e) modes.
Proof. by intros w a w' H. Qed.

Lemma emits_lift (r : result A) : emits (lift r) [].
Proof. intros w a w' H. destruct r; [|done]. injection H as _ <-. by rewrite app_nil_r. Qed.

Lemma emits_bind (m : M A) (f : A → M B) modes1 modes2 :
  emits m modes1 → (∀ a, emits (f a) modes2) → emits (m ≫= f) (modes1 ++ modes2).
Proof.
  intros Hm Hf w b w' H. apply bind_inv in H as (a & w1 & H1 & H2).
  rewrite (Hf _ _ _ _ H2), (Hm _ _ _ H1). by rewrite app_assoc.
Qed.

Lemma emits_bind_l (m : M A) (f : A → M B) modes :
  emits m [] → (∀ a, emits (f a) modes) → emits (m ≫= f) modes.
Proof. intros Hm Hf. by apply (emits_bind m f [] modes). Qed.

Lemma emits_bind_r (m : M A) (f : A → M B) modes :
  emits m modes → (∀ a, emits (f a) []) → emits (m ≫= f) modes.
Proof.
  intros Hm Hf. rewrite <- (app_nil_r modes). by apply emits_bind.
Qed.

Lemma emits_quiet (m : M A) :
  (∀ w a w', m w = Ok (a, w') → w_events w' = w_events w) → emits m [].
Proof. intros Hq w a w' H. by rewrite (Hq _ _ _ H), app_nil_r. Qed.
End emits_facts.

Lemma emits_log e :
  engine_runs [e] = [] → emits (emit e) [].
Proof.
  intros He w [] w' H. injection H as <-. simpl.
  by rewrite engine_runs_app, He.
Qed.

Lemma emits_engine_run mode : emits (emit (EngineRun mode)) [mode].
Proof. intros w [] w' H. injection H as <-. simpl. by rewrite engine_runs_app. Qed.

Lemma emits_raw_draws n : emits (raw_draws n) [].
Proof. apply emits_quiet. by intros w a w' [= _ <-]. Qed.

Lemma emits_alloc n : emits (alloc n) [].
Proof. apply emits_quiet. by intros w a w' [= _ <-]. Qed.

Lemma emits_get_world : emits get_world [].
Proof. apply emits_quiet. by intros w a w' [= _ <-]. Qed.

Lemma emits_set_storage base data : emits (set_storage base data) [].
Proof. apply emits_quiet. intros w [] w' H. by injection H as <-. Qed.

Lemma emits_write_mem ptr data : emits (write_mem ptr data) [].
Proof. apply emits_quiet. intros w [] w' H. by injection H as <-. Qed.

#[local] Hint Resolve emits_ret emits_raise emits_lift emits_raw_draws emits_alloc
  emits_get_world emits_set_storage emits_write_mem emits_engine_run : emits.
#[local] Hint Extern 1 (emits (emit _) []) => apply emits_log; reflexivity : emits.
#[local] Hint Extern 1 (emits (logger_debug _) []) => apply emits_log; reflexivity : emits.
#[local] Hint Extern 1 (emits (logger_info _) []) => apply emits_log; reflexivity : emits.
#[local] Hint Extern 2 (emits (_ ≫= _) []) => apply emits_bind_l; [|intros ?] : emits.
#[local] Hint Extern 3 (emits (if ?b then _ else _) _) => destruct b : emits.
#[local] Hint Extern 3 (emits (match ?x with _ => _ end) _) => destruct x : emits.

Ltac quiet := auto 30 with emits.

Lemma emits_repeatM {A} (m : M A) n : emits m [] → emits (repeatM n m) [].
Proof. intros Hm. induction n; simpl; quiet. Qed.

Lemma emits_foldM {A S} (body : S → A → M S) xs :
  (∀ s x, emits (body s x) []) → ∀ s, emits (foldM body s xs) [].
Proof. intros Hb. induction xs; intros s; simpl; quiet. Qed.

Lemma emits_mapM {A B} (f : A → M B) xs :
  (∀ x, emits (f x) []) → emits (mapM f xs) [].
Proof. intros Hf. induction xs; simpl; quiet. Qed.

Lemma emits_get_dummy_inputs batch_size past_sequence_length sequence_length
    num_attention_heads hidden_size num_layer vocab_size dev float16
    has_position_ids has_attention_mask :
  emits (get_dummy_inputs batch_size past_sequence_length sequence_length
           num_attention_heads hidden_size num_layer vocab_size dev float16
           has_position_ids has_attention_mask) [].
Proof.
  unfold get_dummy_inputs, int_div, torch_randint, torch_ones, random_randint,
    setitem_column, deduce_position_ids, check_shape.
  apply emits_bind_l; [quiet|]. intros head_size.
  apply emits_bind_l.
  { apply emits_repeatM. unfold torch_rand, check_shape. quiet. }
  intros. quiet.
Qed.

Lemma emits_pytorch_inference model inputs : emits (pytorch_inference model inputs) [].
Proof. unfold pytorch_inference. quiet. Qed.

Lemma emits_onnxruntime_inference ort_session inputs :
  emits (onnxruntime_inference ort_session inputs) [ValuePassing].
Proof.
  unfold onnxruntime_inference, session_run.
  apply emits_bind_l; [quiet|]. intros _.
  apply emits_bind_r; [quiet|]. intros _. quiet.
Qed.

Lemma emits_compare_outputs torch_outputs ort_outputs rtol atol :
  emits (compare_outputs torch_outputs ort_outputs rtol atol) [].
Proof.
  unfold compare_outputs, diff_outputs, read_array.
  do 4 (apply emits_bind_l; [quiet|]; intros ?).
  apply emits_bind_l.
  { apply emits_foldM. intros. quiet. }
  intros. quiet.
Qed.

Lemma emits_torch_empty n dt dev : emits (torch_empty n dt dev) [].
Proof. unfold torch_empty, new_storage. quiet. Qed.

Lemma emits_get_output_buffers output_shapes dev is_float16 :
  emits (get_output_buffers output_shapes dev is_float16) [].
Proof.
  unfold get_output_buffers. apply emits_foldM. intros.
  apply emits_bind_l; [apply emits_torch_empty | intros; quiet].
Qed.

Lemma emits_get_output_shapes batch_size past_sequence_length sequence_length
    config model_class :
  emits (get_output_shapes batch_size past_sequence_length sequence_length
           config model_class) [].
Proof. unfold get_output_shapes, int_div. quiet. Qed.

(** With [use_io_binding] a trial runs the engine once, in value-passing
    mode. *)
Lemma bound_trial_runs_value_mode (ort_session : InferenceSession)
    (model : PyTorchModel) dev is_float16 rtol atol model_class
    has_position_ids has_attention_mask max_batch_size max_past_seq_len
    max_seq_len output_buffers :
  emits (test_parity_trial ort_session model dev is_float16 rtol atol true
           model_class has_position_ids has_attention_mask max_batch_size
           max_past_seq_len max_seq_len output_buffers) [ValuePassing].
Proof.
  unfold test_parity_trial, random_randint. cbv zeta.
  do 4 (apply emits_bind_l; [quiet|]; intros ?).
  apply emits_bind_l; [apply emits_get_dummy_inputs|]. intros inputs.
  apply emits_bind_l; [apply emits_pytorch_inference|]. intros outputs.
  apply emits_bind_r; [apply emits_onnxruntime_inference|]. intros ort_outputs.
  apply emits_compare_outputs.
Qed.

Lemma concat_replicate_singleton {A} n (x : A) :
  concat (replicate n [x]) = replicate n x.
Proof. induction n as [|n IH]; simpl; [done | by rewrite IH]. Qed.

Lemma emits_trial_loop (trial : M bool) modes (xs : list nat) :
  emits trial modes →
  ∀ p0, emits (foldM (λ (passed_test_cases : Z) (_ : nat),
                        is_all_close ← trial;
                        mret (if is_all_close : bool then passed_test_cases + 1
                              else passed_test_cases)) p0 xs)
              (concat (replicate (length xs) modes)).
Proof.
  intros Ht. induction xs as [|x xs IH]; intros p0; cbn [foldM length replicate concat].
  - apply emits_ret.
  - apply emits_bind; [|intros; apply IH].
    apply emits_bind_r; [done | intros; apply emits_ret].
Qed.

(** With [use_io_binding] every trial of [test_parity] runs the engine in
    value-passing mode; the bound-buffer mode is never run. *)
Lemma io_binding_parity_runs_value_mode (ort_session : InferenceSession)
    (model : PyTorchModel) dev is_float16 rtol atol total_test_cases model_class
    has_position_ids has_attention_mask :
  emits (test_parity ort_session model dev is_float16 rtol atol total_test_cases
           true model_class has_position_ids has_attention_mask)
        (replicate (Z.to_nat total_test_cases) ValuePassing).
Proof.
  unfold test_parity. cbv zeta.
  apply emits_bind_l; [quiet|]. intros _.
  apply emits_bind_l.
  { apply emits_bind_l; [apply emits_get_output_shapes|]. intros.
    apply emits_bind_l; [apply emits_get_output_buffers|]. intros. quiet. }
  intros output_buffers.
  apply emits_bind_r.
  - pose proof (emits_trial_loop
      (test_parity_trial ort_session model dev is_float16 rtol atol true
         model_class has_position_ids has_attention_mask 8 4 2 output_buffers)
      [ValuePassing] (seq 0 (Z.to_nat total_test_cases))
      (bound_trial_runs_value_mode _ _ _ _ _ _ _ _ _ _ _ _ _) 0) as H.
    by rewrite length_seq, concat_replicate_singleton in H.
  - intros. quiet.
Qed.

(** C1: with use_io_binding every trial should run the engine in bound-buffer
    mode, writing into the buffers of the session, and without it in
    value-passing mode.  On two trials with the example engines the branches
    are the other way round: with use_io_binding both trials run in
    value-passing mode, and without it the first trial takes the bound-buffer
    path with no buffers and raises TypeError. *)
Theorem test_parity_io_binding_runs_value_mode :
  (∃ w', test_parity example_session example_model Cpu false (5 # 10000)
           (5 # 10000) 2 true "GPT2LMHeadModel" true true world0 = Ok (true, w')
         ∧ engine_runs (w_events w') = [ValuePassing; ValuePassing])
  ∧ test_parity example_session example_model Cpu false (5 # 10000)
      (5 # 10000) 2 false "GPT2LMHeadModel" true true world0 = Err TypeError.
Proof.
  split.
  - eexists. split; [vm_compute; reflexivity | by vm_compute].
  - by vm_compute.
Qed.

(** ** Output shapes and buffers *)

Lemma dict_set_fresh {V} (d : dict V) k v :
  k ∉ d.*1 → dict_set d k v = d ++ [(k, v)].
Proof.
  induction d as [|[k' v'] d IH]; intros Hk; [done|]. simpl.
  apply not_elem_of_cons in Hk as [Hne Hk]. rewrite decide_False by done.
  by rewrite IH.
Qed.

Lemma foldl_dict_set_fresh {V} (key : nat → string) (v : V) n : ∀ k (d : dict V),
  Inj (=) (=) key →
  (∀ i, (k ≤ i)%nat → key i ∉ d.*1) →
  foldl (λ d i, dict_set d (key i) v) d (seq k n)
  = d ++ map (λ i, (key i, v)) (seq k n).
Proof.
  induction n as [|n IH]; intros k d Hinj Hfresh; simpl.
  - by rewrite app_nil_r.
  - rewrite dict_set_fresh by (by apply Hfresh).
    rewrite IH; [by rewrite <- app_assoc|done|].
    intros i Hik. rewrite fmap_app, elem_of_app. intros [Hi | Hi].
    + eapply Hfresh; [|done]. lia.
    + simpl in Hi. apply list_elem_of_singleton, Hinj in Hi. lia.
Qed.

#[local] Instance present_name_inj : Inj (=) (=) present_name.
Proof. intros i j H. unfold present_name in H. by apply (inj _), (inj pretty) in H. Qed.

Lemma get_output_shapes_run batch_size past_sequence_length sequence_length
    config model_class entry w :
  dict_get MODEL_CLASSES model_class = Some entry →
  num_attention_heads config ≠ 0 →
  get_output_shapes batch_size past_sequence_length sequence_length config
    model_class w
  = Ok (output_shape_entries batch_size past_sequence_length sequence_length
          config entry.1, w)
  ∧ NoDup (output_shape_entries batch_size past_sequence_length sequence_length
             config entry.1).*1.
Proof.
  intros Hclass Hheads.
  assert (entry.1 = "logits" ∨ entry.1 = "last_state")%string as Hname.
  { unfold MODEL_CLASSES in Hclass. simpl in Hclass.
    repeat case_decide; simplify_eq; simpl; auto. }
  assert (∀ i, present_name i ≠ entry.1) as Hfresh.
  { intros i Hi. unfold present_name in Hi. destruct Hname as [Hn | Hn];
      rewrite Hn in Hi; discriminate Hi. }
  split.
  - unfold get_output_shapes. cbv zeta.
    rewrite (bind_run _ _ _ _ _ (lift_run (dict_getitem MODEL_CLASSES model_class)
               entry w ltac:(unfold dict_getitem; by rewrite Hclass))).
    rewrite (bind_run _ _ _ _ _ (int_div_run _ _ w Hheads)).
    fold present_name.
    rewrite (foldl_dict_set_fresh present_name _ _ 0%nat); [done|apply _|].
    intros i _ Hi. simpl in Hi. apply list_elem_of_singleton in Hi. by eapply Hfresh.
  - unfold output_shape_entries. rewrite fmap_cons. simpl. apply NoDup_cons. split.
    + rewrite <- list_fmap_compose. intros Hin.
      apply list_elem_of_fmap in Hin as (i & Hi & _). simpl in Hi. by eapply Hfresh.
    + rewrite <- list_fmap_compose. apply NoDup_fmap_2; [|apply NoDup_seq].
      intros i j H. simpl in H. by apply (inj present_name).
Qed.

(** [get_output_shapes] raises KeyError for a model class that is not in
    MODEL_CLASSES, and ZeroDivisionError for a known class when the
    configuration has no attention heads. *)
Theorem get_output_shapes_raises batch_size past_sequence_length sequence_length
    config model_class w :
  (dict_get MODEL_CLASSES model_class = None →
   get_output_shapes batch_size past_sequence_length sequence_length config
     model_class w = Err KeyError)
  ∧ (is_Some (dict_get MODEL_CLASSES model_class) →
     num_attention_heads config = 0 →
     get_output_shapes batch_size past_sequence_length sequence_length config
       model_class w = Err ZeroDivisionError).
Proof.
  unfold get_output_shapes, dict_getitem. split.
  - intros ->. done.
  - intros [entry ->] ->. done.
Qed.

Lemma torch_empty_fresh z dt dev w :
  0 <= z →
  ∃ w', torch_empty (NpInt z) dt dev w
        = Ok ({| s_base := w_next w; s_offset := 0; s_size := [z];
                 s_dtype := dt; s_device := dev |}, w')
    ∧ w_next w < w_next w'
    ∧ (∀ a, a ≠ w_next w → w_heap w' !! a = w_heap w !! a)
    ∧ (∃ data, w_heap w' !! w_next w = Some data ∧ length data = Z.to_nat z).
Proof.
  intros Hz. unfold torch_empty.
  replace (z <? 0) with false by (symmetry; apply Z.ltb_ge; lia).
  eexists. split; [done|]. simpl. split; [lia|]. split.
  - intros a Ha. by rewrite lookup_insert_ne.
  - eexists. rewrite lookup_insert_eq. split; [done|].
    by rewrite length_map, length_seq.
Qed.

Lemma get_output_buffers_loop dt dev (items : dict (list Z)) :
  ∀ (acc : gmap string StoredTensor) w,
  NoDup items.*1 →
  Forall (λ item, shape_ok item.2) items →
  ∃ bufs w',
    foldM (λ output_buffers (item : string * list Z),
             t ← torch_empty (numpy_prod item.2) dt dev;
             mret (<[item.1 := t]> output_buffers))
          acc items w = Ok (bufs, w')
    ∧ w_next w <= w_next w'
    ∧ (∀ a, a < w_next w → w_heap w' !! a = w_heap w !! a)
    ∧ (∀ name, name ∉ items.*1 → bufs !! name = acc !! name)
    ∧ (∀ name shape, (name, shape) ∈ items →
         ∃ buf, bufs !! name = Some buf ∧ fresh_flat w w' dt dev shape buf)
    ∧ (∀ n1 n2 b1 b2, n1 ∈ items.*1 → n2 ∈ items.*1 → n1 ≠ n2 →
         bufs !! n1 = Some b1 → bufs !! n2 = Some b2 → s_base b1 ≠ s_base b2).
Proof.
  induction items as [|[name shape] items IH]; intros acc w Hnd Hok.
  - exists acc, w. split; [done|]. split; [lia|]. split; [done|]. split; [done|].
    split; [intros ? ? ?%elem_of_nil; done|].
    intros ? ? ? ? ?%elem_of_nil. done.
  - apply NoDup_cons in Hnd as [Hnotin Hnd]. apply Forall_cons in Hok as [Hshape Hok].
    simpl in Hshape. cbn [foldM]. rewrite bind_assoc. cbn [fst snd].
    rewrite (numpy_prod_exact _ Hshape).
    pose proof Hshape as (_ & Hpos & _). apply numel_nonneg in Hpos.
    destruct (torch_empty_fresh (numel shape) dt dev w Hpos)
      as (w1 & Hrun & Hnext & Hheap & data & Hdata & Hlen).
    set (t := {| s_base := w_next w; s_offset := 0; s_size := [numel shape];
                 s_dtype := dt; s_device := dev |}) in *.
    rewrite (bind_run _ _ _ _ _ Hrun), ret_run.
    destruct (IH (<[name := t]> acc) w1 Hnd Hok)
      as (bufs & w' & Hloop & Hnext' & Hframe & Hout & Hin & Hdist).
    assert (∀ n b, n ∈ items.*1 → bufs !! n = Some b → w_next w1 <= s_base b) as Hlater.
    { intros n b Hn Hb. apply list_elem_of_fmap in Hn as ([n' sh] & -> & Hn).
      destruct (Hin n' sh Hn) as (buf & Hbuf & _ & _ & _ & _ & Hrange & _).
      simpl in Hb. assert (b = buf) as -> by congruence. lia. }
    assert (bufs !! name = Some t) as Hfirst
      by (rewrite Hout by done; apply lookup_insert_eq).
    exists bufs, w'. split; [done|]. split; [lia|]. split.
    { intros a Ha. rewrite Hframe by lia. apply Hheap. lia. }
    split; [|split].
    + intros n Hn. rewrite fmap_cons in Hn. apply not_elem_of_cons in Hn as [Hne Hn].
      rewrite Hout by done. by rewrite lookup_insert_ne.
    + intros n sh Hn. apply elem_of_cons in Hn as [[= -> ->] | Hn].
      * exists t. split; [done|].
        unfold fresh_flat. simpl. repeat split; try done; try lia.
        exists data. split; [|done]. rewrite Hframe by lia. done.
      * destruct (Hin n sh Hn) as (buf & Hbuf & Hs & Ho & Hd & Hv & Hb & Hst).
        exists buf. split; [done|]. unfold fresh_flat. repeat split; try done; lia.
    + intros n1 n2 b1 b2 Hn1 Hn2 Hne Hb1 Hb2.
      rewrite fmap_cons in Hn1, Hn2. cbn [fst] in Hn1, Hn2.
      apply elem_of_cons in Hn1 as [Hn1 | Hn1];
        apply elem_of_cons in Hn2 as [Hn2 | Hn2].
      * congruence.
      * subst n1. assert (b1 = t) as -> by congruence.
        pose proof (Hlater _ _ Hn2 Hb2). simpl. lia.
      * subst n2. assert (b2 = t) as -> by congruence.
        pose proof (Hlater _ _ Hn1 Hb1). simpl. lia.
      * exact (Hdist _ _ _ _ Hn1 Hn2 Hne Hb1 Hb2).
Qed.

Lemma dict_get_Some_elem {V} (d : dict V) k v :
  NoDup d.*1 → dict_get d k = Some v ↔ (k, v) ∈ d.
Proof.
  induction d as [|[k' v'] d IH]; intros Hnd; simpl.
  - split; [done | by intros ?%elem_of_nil].
  - rewrite fmap_cons in Hnd. apply NoDup_cons in Hnd as [Hnotin Hnd].
    rewrite elem_of_cons. case_decide as Hk.
    + subst k'. split; [intros [= ->]; by left|].
      intros [[= ->] | Hin]; [done|]. destruct Hnotin.
      apply list_elem_of_fmap. by exists (k, v).
    + rewrite IH by done. split; [by right | intros [[= -> ->] | ?]; done].
Qed.

Lemma dict_get_None_elem {V} (d : dict V) k :
  dict_get d k = None ↔ k ∉ d.*1.
Proof.
  rewrite dict_get_elem_of. split.
  - intros -> [? ?]. done.
  - intros H. destruct (dict_get d k); [destruct H; by eexists | done].
Qed.

Lemma get_output_buffers_run (output_shapes : dict (list Z)) dev
    (is_float16 : bool) w :
  NoDup output_shapes.*1 →
  Forall (λ item, shape_ok item.2) output_shapes →
  ∃ bufs w',
    get_output_buffers output_shapes dev is_float16 w = Ok (bufs, w')
    ∧ (∀ name shape, dict_get output_shapes name = Some shape →
         ∃ buf, bufs !! name = Some buf
           ∧ fresh_flat w w' (if is_float16 then Float16 else Float32) dev shape buf)
    ∧ (∀ name, dict_get output_shapes name = None → bufs !! name = None)
    ∧ (∀ n1 n2 b1 b2, n1 ≠ n2 → bufs !! n1 = Some b1 → bufs !! n2 = Some b2 →
         s_base b1 ≠ s_base b2)
    ∧ (∀ a, a < w_next w → w_heap w' !! a = w_heap w !! a).
Proof.
  intros Hnd Hok. unfold get_output_buffers. cbv zeta.
  destruct (get_output_buffers_loop (if is_float16 then Float16 else Float32) dev
              output_shapes ∅ w Hnd Hok)
    as (bufs & w' & Hrun & _ & Hframe & Hout & Hin & Hdist).
  exists bufs, w'. split; [exact Hrun|].
  assert (∀ name, dict_get output_shapes name = None → bufs !! name = None) as Hnone.
  { intros name Hname. rewrite Hout; [done|]. by apply dict_get_None_elem. }
  split; [|split; [done|split; [|done]]].
  - intros name shape Hshape. apply Hin. by apply dict_get_Some_elem.
  - intros n1 n2 b1 b2 Hne Hb1 Hb2. apply (Hdist n1 n2 b1 b2); try done.
    + destruct (dict_get output_shapes n1) eqn:E.
      * apply dict_get_elem_of. by eexists.
      * rewrite (Hnone _ E) in Hb1. done.
    + destruct (dict_get output_shapes n2) eqn:E.
      * apply dict_get_elem_of. by eexists.
      * rewrite (Hnone _ E) in Hb2. done.
Qed.

(** [get_output_buffers] gives every named shape a flat buffer of exactly
    prod(shape) elements, of the requested precision and device, on a storage
    of its own; no other name gets a buffer and the memory that existed before
    is left as it was. *)
Theorem get_output_buffers_allocates (output_shapes : dict (list Z)) dev
    (is_float16 : bool) w :
  NoDup output_shapes.*1 →
  Forall (λ item, shape_ok item.2) output_shapes →
  ∃ bufs w',
    get_output_buffers output_shapes dev is_float16 w = Ok (bufs, w')
    ∧ (∀ name shape, dict_get output_shapes name = Some shape →
         ∃ buf, bufs !! name = Some buf
           ∧ fresh_flat w w' (if is_float16 then Float16 else Float32) dev shape buf)
    ∧ (∀ name, dict_get output_shapes name = None → bufs !! name = None)
    ∧ (∀ n1 n2 b1 b2, n1 ≠ n2 → bufs !! n1 = Some b1 → bufs !! n2 = Some b2 →
         s_base b1 ≠ s_base b2)
    ∧ (∀ a, a < w_next w → w_heap w' !! a = w_heap w !! a).
Proof. apply get_output_buffers_run. Qed.

Lemma get_output_buffers_allocates_witness :
  ∃ bufs w',
    get_output_buffers example_shapes Cpu false world0 = Ok (bufs, w')
    ∧ (∀ name shape, dict_get example_shapes name = Some shape →
         ∃ buf, bufs !! name = Some buf
           ∧ fresh_flat world0 w' (if false then Float16 else Float32) Cpu shape buf)
    ∧ (∀ name, dict_get example_shapes name = None → bufs !! name = None)
    ∧ (∀ n1 n2 b1 b2, n1 ≠ n2 → bufs !! n1 = Some b1 → bufs !! n2 = Some b2 →
         s_base b1 ≠ s_base b2)
    ∧ (∀ a, a < w_next world0 → w_heap w' !! a = w_heap world0 !! a).
Proof.
  apply (get_output_buffers_allocates example_shapes Cpu false world0).
  - apply (bool_decide_unpack _). by vm_compute.
  - repeat constructor; simpl; try done; try lia; by vm_compute.
Defined.

Lemma auto_increase_noop_loop (shapes : dict (list Z)) keys :
  ∀ (buffers : gmap string StoredTensor) w,
  (∀ key, key ∈ keys → ∃ shape buf, dict_get shapes key = Some shape
       ∧ shape_ok shape ∧ buffers !! key = Some buf
       ∧ numel shape <= nelement buf) →
  foldM (λ output_buffers key,
           py_assert (bool_decide (is_Some (output_buffers !! key)));;
           buffer ← lift (from_option Ok (Err KeyError) (output_buffers !! key));
           shape ← lift (dict_getitem shapes key);
           if np_gt (numpy_prod shape) (nelement buffer) then
             t ← torch_empty (numpy_prod shape) (s_dtype buffer) (s_device buffer);
             mret (<[key := t]> output_buffers)
           else mret output_buffers)
        buffers keys w = Ok (buffers, w).
Proof.
  induction keys as [|k keys IH]; intros buffers w Hk; [done|].
  destruct (Hk k ltac:(left)) as (shape & buf & Hshape & Hok & Hbuf & Hfit).
  cbn [foldM]. rewrite !bind_assoc.
  assert (py_assert (bool_decide (is_Some (buffers !! k))) w = Ok (tt, w)) as Hassert.
  { rewrite bool_decide_eq_true_2; [done | by eexists]. }
  rewrite (bind_run _ _ _ _ _ Hassert).
  rewrite !bind_assoc, (bind_run _ _ _ _ _ (lift_run
            (from_option Ok (Err KeyError) (buffers !! k)) buf w
            ltac:(by rewrite Hbuf))).
  rewrite !bind_assoc, (bind_run _ _ _ _ _ (lift_run (dict_getitem shapes k) shape w
            ltac:(unfold dict_getitem; by rewrite Hshape))).
  rewrite (numpy_prod_exact _ Hok). cbn [np_gt].
  replace (nelement buf <? numel shape) with false by (symmetry; apply Z.ltb_ge; lia).
  rewrite ret_run. apply IH. intros key Hkey. apply Hk. by right.
Qed.

(** A second [auto_increase_buffer_size] for the same shapes finds every
    buffer big enough: it allocates nothing and changes nothing. *)
Theorem auto_increase_buffer_size_idempotent
    (output_buffers : gmap string StoredTensor) (output_shapes : dict (list Z))
    w buffers' w' :
  NoDup (output_shapes.*1) →
  (∀ key shape, dict_get output_shapes key = Some shape →
     shape_ok shape ∧ is_Some (output_buffers !! key)) →
  auto_increase_buffer_size output_buffers output_shapes w = Ok (buffers', w') →
  auto_increase_buffer_size buffers' output_shapes w' = Ok (buffers', w').
Proof.
  intros Hnd Hok Hrun.
  destruct (auto_increase_loop output_shapes (output_shapes.*1) output_buffers w Hnd)
    as (b & w1 & Hrun' & _ & _ & Hin).
  { intros key Hkey. apply dict_get_elem_of in Hkey as [shape Hshape].
    destruct (Hok key shape Hshape) as [? [buf ?]]. by exists shape, buf. }
  unfold auto_increase_buffer_size in Hrun. rewrite Hrun in Hrun'.
  injection Hrun' as <- <-.
  apply auto_increase_noop_loop. intros key Hkey.
  apply dict_get_elem_of in Hkey as Hsome. destruct Hsome as [shape Hshape].
  destruct (Hok key shape Hshape) as [Hs [buf Hbuf]].
  specialize (Hin key shape buf Hkey Hshape Hbuf). unfold grown in Hin.
  destruct (nelement buf <? numel shape) eqn:Hcmp.
  - destruct Hin as (b & Hb & Hsz & _). exists shape, b.
    split; [done|]. split; [done|]. split; [done|].
    unfold nelement. rewrite Hsz. simpl. lia.
  - exists shape, buf. apply Z.ltb_ge in Hcmp. done.
Qed.

Lemma auto_increase_buffer_size_idempotent_witness :
  ∃ buffers' w',
    auto_increase_buffer_size example_buffers example_shapes world0
    = Ok (buffers', w')
    ∧ auto_increase_buffer_size buffers' example_shapes w' = Ok (buffers', w').
Proof.
  eexists _, _. split.
  - vm_compute. reflexivity.
  - eapply (auto_increase_buffer_size_idempotent example_buffers example_shapes world0).
    + apply (bool_decide_unpack _). by vm_compute.
    + intros key shape H. unfold example_shapes in H. simpl in H.
      repeat case_decide; simplify_eq.
      * split; [|by eexists]. split; [done|]. split; [repeat constructor; lia | by vm_compute].
      * split; [|by eexists]. split; [done|]. split; [repeat constructor; lia | by vm_compute].
    + vm_compute. reflexivity.
Defined.

(** The buffers [get_output_buffers] allocates for some shapes are big enough
    for these shapes: [auto_increase_buffer_size] leaves them and the store as
    they are. *)
Theorem fresh_buffers_need_no_increase (output_shapes : dict (list Z)) dev
    (is_float16 : bool) w bufs w' :
  NoDup output_shapes.*1 →
  Forall (λ item, shape_ok item.2) output_shapes →
  get_output_buffers output_shapes dev is_float16 w = Ok (bufs, w') →
  auto_increase_buffer_size bufs output_shapes w' = Ok (bufs, w').
Proof.
  intros Hnd Hok Hrun.
  destruct (get_output_buffers_run output_shapes dev is_float16 w Hnd Hok)
    as (b & w1 & Hrun' & Hin & _).
  rewrite Hrun in Hrun'. injection Hrun' as <- <-.
  apply auto_increase_noop_loop. intros key Hkey.
  apply dict_get_elem_of in Hkey as [shape Hshape].
  destruct (Hin key shape Hshape) as (buf & Hbuf & Hsz & _).
  exists shape, buf. split; [done|]. split.
  - rewrite Forall_forall in Hok. apply (Hok (key, shape)).
    by apply dict_get_Some_elem.
  - split; [done|]. unfold nelement. rewrite Hsz. simpl. lia.
Qed.

Lemma fresh_buffers_need_no_increase_witness :
  ∃ bufs w',
    get_output_buffers example_shapes Cpu false world0 = Ok (bufs, w')
    ∧ auto_increase_buffer_size bufs example_shapes w' = Ok (bufs, w').
Proof.
  eexists _, _. split.
  - vm_compute. reflexivity.
  - eapply (fresh_buffers_need_no_increase example_shapes Cpu false world0).
    + apply (bool_decide_unpack _). by vm_compute.
    + repeat constructor; simpl; try done; try lia; by vm_compute.
    + vm_compute. reflexivity.
Defined.



(** ** Read-back errors, buffer sizes, differences and the parity loop *)

Lemma bind_err {A B} (m : M A) (f : A → M B) w e :
  m w = Err e → (m ≫= f) w = Err e.
Proof. intros H. unfold mbind, M_bind. by rewrite H. Qed.

Lemma read_back_short_buffer (output_buffers : gmap string StoredTensor)
    (output_shapes : dict (list Z)) (return_numpy : bool) name buf shape len rest :
  ∀ pre w,
  (∀ n b, output_buffers !! n = Some b → s_base b < w_next w) →
  (∀ n, n ∈ pre → readable output_buffers output_shapes n) →
  output_buffers !! name = Some buf →
  dict_get output_shapes name = Some shape →
  shape_ok shape → s_size buf = [len] → len < numel shape →
  mapM (λ output_name,
          buffers ← lift (from_option Ok (Err TypeError) (Some output_buffers));
          buffer ← lift (from_option Ok (Err KeyError) (buffers !! output_name));
          shape ← lift (dict_getitem output_shapes output_name);
          sliced ← slice_prefix buffer (numpy_prod shape);
          reshaped ← reshape sliced shape;
          cloned ← clone reshaped;
          copy_tensor ← detach cloned;
          if return_numpy then
            on_host ← cpu copy_tensor;
            numpy on_host
          else mret copy_tensor)
       (pre ++ name :: rest) w = Err RuntimeError.
Proof.
  induction pre as [|n pre IH]; intros w Halloc Hpre Hbuf Hshape Hok Hflat Hshort.
  - cbn [app mapM]. rewrite !bind_assoc.
    rewrite (bind_run _ _ _ _ _ (lift_run _ output_buffers w eq_refl)).
    rewrite !bind_assoc, (bind_run _ _ _ _ _ (lift_run (from_option Ok (Err KeyError)
               (output_buffers !! name)) buf w ltac:(by rewrite Hbuf))).
    rewrite !bind_assoc, (bind_run _ _ _ _ _ (lift_run (dict_getitem output_shapes name)
               shape w ltac:(unfold dict_getitem; by rewrite Hshape))).
    rewrite (numpy_prod_exact _ Hok).
    pose proof Hok as (_ & Hpos & _). pose proof (numel_nonneg _ Hpos) as Hn.
    set (sliced := {| s_base := s_base buf; s_offset := s_offset buf;
                      s_size := [len];
                      s_dtype := s_dtype buf; s_device := s_device buf |}).
    assert (slice_prefix buf (NpInt (numel shape)) w = Ok (sliced, w)) as Hslice.
    { unfold slice_prefix. rewrite Hflat.
      replace (numel shape <? 0) with false by (symmetry; apply Z.ltb_ge; lia).
      rewrite Z.min_r by lia. done. }
    rewrite !bind_assoc, (bind_run _ _ _ _ _ Hslice).
    unfold reshape, reshape_size.
    replace (filter (λ d, d < 0) shape) with (@nil Z).
    2:{ symmetry. clear -Hpos. induction Hpos as [|d l Hd Hl IH]; [done|].
        rewrite filter_cons_False by lia. done. }
    replace (numel shape =? nelement sliced) with false; [done|].
    symmetry. apply Z.eqb_neq. unfold nelement, sliced. simpl. lia.
  - destruct (Hpre n ltac:(left)) as (b & sh & l & Hb & Hsh & Hshok & Hfl & Hfit).
    destruct (read_back_one output_buffers output_shapes return_numpy n b sh
                l w Hb Hsh Hshok Hfl Hfit (Halloc _ _ Hb))
      as (out & w1 & Hone & _ & _ & Hbase & _).
    cbn [app mapM]. rewrite (bind_run _ _ _ _ _ Hone).
    apply bind_err. apply IH; try done.
    + intros n' b' Hb'. specialize (Halloc n' b' Hb'). lia.
    + intros n' Hn'. apply Hpre. by right.
Qed.

(** Reading the outputs back raises RuntimeError at the first output whose
    flat buffer holds fewer elements than its shape asks for. *)
Theorem read_back_short_buffer_raises (ort_session : InferenceSession)
    (output_buffers : gmap string StoredTensor) (output_shapes : dict (list Z))
    (return_numpy : bool) pre name rest buf shape len w :
  get_outputs ort_session = pre ++ name :: rest →
  (∀ n b, output_buffers !! n = Some b → s_base b < w_next w) →
  (∀ n, n ∈ pre → readable output_buffers output_shapes n) →
  output_buffers !! name = Some buf →
  dict_get output_shapes name = Some shape →
  shape_ok shape → s_size buf = [len] → len < numel shape →
  get_outputs_from_io_binding_buffer ort_session (Some output_buffers)
    output_shapes return_numpy w = Err RuntimeError.
Proof.
  intros Hnames. unfold get_outputs_from_io_binding_buffer. rewrite Hnames.
  apply read_back_short_buffer.
Qed.

Lemma read_back_short_buffer_raises_witness :
  get_outputs_from_io_binding_buffer two_output_session (Some example_buffers)
    example_shapes true stored_world = Err RuntimeError.
Proof.
  apply (read_back_short_buffer_raises two_output_session example_buffers
           example_shapes true [] "logits"%string ["present_0"%string]
           {| s_base := 16; s_offset := 0; s_size := [4];
              s_dtype := Float32; s_device := Cpu |} [2; 2; 3] 4 stored_world).
  - reflexivity.
  - intros n b H. unfold example_buffers in H.
    apply lookup_insert_Some in H as [[_ <-] | [_ H]]; [simpl; lia|].
    apply lookup_insert_Some in H as [[_ <-] | [_ H]]; [simpl; lia|].
    by rewrite lookup_empty in H.
  - intros n H. by apply elem_of_nil in H.
  - reflexivity.
  - reflexivity.
  - split; [done|]. split; [repeat constructor; lia | simpl; lia].
  - reflexivity.
  - simpl. lia.
Defined.

Lemma trial_shapes_within_max (config : GPT2Config) output_name
    batch_size past_sequence_length sequence_length name :
  0 < num_attention_heads config → 0 <= hidden_size config →
  0 <= vocab_size config →
  16 * vocab_size config < 2 ^ 63 → 96 * hidden_size config < 2 ^ 63 →
  0 <= batch_size <= 8 → 0 <= past_sequence_length <= 4 →
  0 <= sequence_length <= 2 →
  name ∈ (output_shape_entries batch_size past_sequence_length sequence_length
            config output_name).*1 →
  ∃ shape max_shape,
    (name, shape) ∈ output_shape_entries batch_size past_sequence_length
                      sequence_length config output_name
    ∧ (name, max_shape) ∈ output_shape_entries 8 4 2 config output_name
    ∧ shape_ok shape ∧ shape_ok max_shape ∧ numel shape <= numel max_shape.
Proof.
  intros Hh Hhid Hv Hvmax Hhmax Hb Hp Hs Hin.
  set (hs := Z.quot (hidden_size config) (num_attention_heads config)).
  assert (0 <= hs) as Hhs by (apply Z.quot_pos; lia).
  assert (num_attention_heads config * hs <= hidden_size config) as Hprod.
  { unfold hs. rewrite Z.quot_div_nonneg by lia. apply Z.mul_div_le. lia. }
  set (x := num_attention_heads config * hs) in *.
  assert (0 <= x) as Hx by (unfold x; nia).
  assert (0 <= batch_size * (past_sequence_length + sequence_length) <= 48) as Hbp by nia.
  assert (0 <= batch_size * sequence_length <= 16) as Hbs by nia.
  apply list_elem_of_fmap in Hin as ([n shape] & -> & Hin). simpl.
  unfold output_shape_entries in *.
  apply elem_of_cons in Hin as [[= -> ->] | Hin].
  - eexists _, _. split; [by left|]. split; [by left|].
    set (v := if decide (output_name = "logits"%string) then vocab_size config
              else hidden_size config).
    assert (0 <= v ∧ 16 * v < 2 ^ 63) as [Hv0 Hv1]
      by (unfold v; case_decide; lia).
    split; [|split].
    + split; [done|]. split; [repeat constructor; lia|]. simpl. nia.
    + split; [done|]. split; [repeat constructor; lia|]. simpl. lia.
    + simpl. nia.
  - apply list_elem_of_fmap in Hin as (i & [= -> ->] & Hi).
    eexists _, _. split; [right; apply list_elem_of_fmap; by exists i|].
    split; [right; apply list_elem_of_fmap; by exists i|].
    fold hs. unfold numel. cbn [foldr].
    replace (2 * (batch_size * (num_attention_heads config
               * ((past_sequence_length + sequence_length) * (hs * 1)))))
      with (2 * (batch_size * (past_sequence_length + sequence_length) * x))
      by (unfold x; ring).
    replace (2 * (8 * (num_attention_heads config * ((4 + 2) * (hs * 1)))))
      with (96 * x) by (unfold x; ring).
    split; [|split].
    + split; [done|]. split; [repeat constructor; lia|].
      unfold numel. cbn [foldr].
      replace (2 * (batch_size * (num_attention_heads config
               * ((past_sequence_length + sequence_length) * (hs * 1)))))
        with (2 * (batch_size * (past_sequence_length + sequence_length) * x))
        by (unfold x; ring).
      nia.
    + split; [done|]. split; [repeat constructor; lia|].
      unfold numel. cbn [foldr].
      replace (2 * (8 * (num_attention_heads config * ((4 + 2) * (hs * 1)))))
        with (96 * x) by (unfold x; ring).
      lia.
    + nia.
Qed.

Lemma preallocated_buffers_fit (config : GPT2Config) model_class entry dev
    (is_float16 : bool) batch_size past_sequence_length sequence_length w :
  dict_get MODEL_CLASSES model_class = Some entry →
  0 < num_attention_heads config → 0 <= hidden_size config →
  0 <= vocab_size config →
  16 * vocab_size config < 2 ^ 63 → 96 * hidden_size config < 2 ^ 63 →
  0 <= batch_size <= 8 → 0 <= past_sequence_length <= 4 →
  0 <= sequence_length <= 2 →
  ∃ max_shapes bufs w1 shapes,
    get_output_shapes 8 4 2 config model_class w = Ok (max_shapes, w)
    ∧ get_output_buffers max_shapes dev is_float16 w = Ok (bufs, w1)
    ∧ get_output_shapes batch_size past_sequence_length sequence_length config
        model_class w1 = Ok (shapes, w1)
    ∧ (∀ name buf, bufs !! name = Some buf → s_base buf < w_next w1)
    ∧ (∀ name, name ∈ shapes.*1 → readable bufs shapes name)
    ∧ auto_increase_buffer_size bufs shapes w1 = Ok (bufs, w1).
Proof.
  intros Hclass Hh Hhid Hv Hvmax Hhmax Hb Hp Hs.
  destruct (get_output_shapes_run 8 4 2 config model_class entry w Hclass
              ltac:(lia)) as [Hmax Hndmax].
  set (max_shapes := output_shape_entries 8 4 2 config entry.1) in *.
  set (shapes := output_shape_entries batch_size past_sequence_length
                   sequence_length config entry.1).
  assert (Forall (λ item, shape_ok item.2) max_shapes) as Hokmax.
  { apply Forall_forall. intros [n sh] Hin.
    destruct (trial_shapes_within_max config entry.1 8 4 2 n Hh Hhid Hv Hvmax
                Hhmax ltac:(lia) ltac:(lia) ltac:(lia)) as (s1 & s2 & H1 & _ & Hok & _).
    { apply list_elem_of_fmap. by exists (n, sh). }
    apply (dict_get_Some_elem _ _ _ Hndmax) in H1, Hin. simpl. congruence. }
  destruct (get_output_buffers_run max_shapes dev is_float16 w Hndmax Hokmax)
    as (bufs & w1 & Hbufs & Hfresh & Hnone & _ & _).
  destruct (get_output_shapes_run batch_size past_sequence_length sequence_length
              config model_class entry w1 Hclass ltac:(lia)) as [Htrial Hnd].
  fold shapes in Htrial, Hnd.
  assert (∀ name, name ∈ shapes.*1 →
            ∃ shape buf, dict_get shapes name = Some shape ∧ shape_ok shape
              ∧ bufs !! name = Some buf ∧ s_size buf = [nelement buf]
              ∧ numel shape <= nelement buf) as Hfit.
  { intros name Hname.
    destruct (trial_shapes_within_max config entry.1 batch_size
                past_sequence_length sequence_length name Hh Hhid Hv Hvmax Hhmax
                Hb Hp Hs Hname) as (shape & mshape & Hin & Hinmax & Hok & Hokm & Hle).
    apply (dict_get_Some_elem _ _ _ Hnd) in Hin.
    apply (dict_get_Some_elem _ _ _ Hndmax) in Hinmax.
    destruct (Hfresh name mshape Hinmax) as (buf & Hbuf & Hsize & _).
    assert (nelement buf = numel mshape) as Hn
      by (unfold nelement; rewrite Hsize; unfold numel; simpl; lia).
    exists shape, buf. rewrite Hn. done. }
  exists max_shapes, bufs, w1, shapes. split; [exact Hmax|]. split; [exact Hbufs|].
  split; [exact Htrial|]. split; [|split].
  - intros name buf Hbuf. destruct (dict_get max_shapes name) as [sh|] eqn:E.
    + destruct (Hfresh name sh E) as (buf' & Hbuf' & _ & _ & _ & _ & Hbase & _).
      simplify_eq. lia.
    + rewrite (Hnone name E) in Hbuf. done.
  - intros name Hname.
    destruct (Hfit name Hname) as (shape & buf & Hshape & Hok & Hbuf & Hflat & Hle).
    by exists buf, shape, (nelement buf).
  - unfold auto_increase_buffer_size. apply auto_increase_noop_loop.
    intros key Hkey.
    destruct (Hfit key Hkey) as (shape & buf & Hshape & Hok & Hbuf & Hflat & Hle).
    by exists shape, buf.
Qed.












Lemma bind_ext {A B} (m : M A) (f g : A → M B) w :
  (∀ a w', f a w' = g a w') → (m ≫= f) w = (m ≫= g) w.
Proof. intros H. unfold mbind, M_bind. destruct (m w) as [[a w']|e]; [apply H | done]. Qed.

Lemma foldM_ext {A S} (f g : S → A → M S) xs :
  (∀ s x w, x ∈ xs → f s x w = g s x w) →
  ∀ s w, foldM f s xs w = foldM g s xs w.
Proof.
  induction xs as [|x xs IH]; intros H s w; [done|]. cbn [foldM].
  unfold mbind, M_bind. rewrite <- (H s x w) by left.
  destruct (f s x w) as [[s' w']|e]; [|done].
  apply IH. intros. apply H. by right.
Qed.

Lemma foldM_app {A S} (f : S → A → M S) xs ys s w :
  foldM f s (xs ++ ys) w = (s' ← foldM f s xs; foldM f s' ys) w.
Proof.
  revert s w. induction xs as [|x xs IH]; intros s w; [done|].
  cbn [app foldM]. rewrite bind_assoc. apply bind_ext. intros. apply IH.
Qed.

(** [compare_outputs] looks only at as many reference layers as the candidate
    has per-layer outputs: further reference layers change neither the result
    nor what is logged. *)
Theorem compare_outputs_ignores_extra_reference_layers t0 tl extra
    (ort_outputs : list ArrayLike) rtol atol w :
  (length ort_outputs - 1 ≤ length tl)%nat →
  compare_outputs (t0, tl ++ extra) ort_outputs rtol atol w
  = compare_outputs (t0, tl) ort_outputs rtol atol w.
Proof.
  intros Hlen. unfold compare_outputs. cbn [fst snd].
  do 4 (apply bind_ext; intros ? ?).
  unfold mbind at 1 3, M_bind at 1 3.
  rewrite (foldM_ext _
    (λ is_all_close layer,
       o ← lift (getitem ort_outputs (1 + layer));
       o ← read_array o;
       t ← lift (getitem tl layer);
       is_close ← lift (numpy_allclose o t rtol atol);
       logger_debug (MsgOutputClose (1 + layer) is_close);;
       mret (is_all_close && is_close))).
  - done.
  - intros s x w1 Hx. apply elem_of_seq in Hx.
    do 2 (apply bind_ext; intros ? ?).
    unfold getitem. rewrite lookup_app_l by lia. done.
Qed.

Lemma compare_outputs_ignores_extra_reference_layers_witness :
  compare_outputs (example_reference, [example_reference] ++ [example_output])
    [example_candidate; Val example_reference] (5 # 10000) (5 # 10000) world0
  = compare_outputs (example_reference, [example_reference])
      [example_candidate; Val example_reference] (5 # 10000) (5 # 10000) world0.
Proof.
  apply (compare_outputs_ignores_extra_reference_layers example_reference
           [example_reference] [example_output]
           [example_candidate; Val example_reference]).
  simpl. lia.
Defined.

Lemma compare_outputs_missing_layer t0 tl o0 ol rtol atol w :
  a_shape (array_of w o0) = a_shape t0 →
  (length tl < length ol)%nat →
  Forall2 (λ o t, a_shape (array_of w o) = a_shape t) (take (length tl) ol) tl →
  compare_outputs (t0, tl) (o0 :: ol) rtol atol w = Err IndexError.
Proof.
  intros Hs Hlen Hl. unfold compare_outputs.
  rewrite (bind_run _ _ _ _ _ (lift_run (getitem (o0 :: ol) 0) o0 w eq_refl)).
  rewrite (bind_run _ _ _ _ _ (read_array_run o0 w)).
  cbn [fst snd].
  rewrite (bind_run _ _ _ _ _ (lift_run _ _ w (numpy_allclose_run _ t0 rtol atol Hs))).
  destruct (logger_debug_run (MsgOutputClose 0
              (close_arrays rtol atol (array_of w o0) t0)) w) as (w1 & He & Hh1).
  rewrite (bind_run _ _ _ _ _ He).
  replace (length (o0 :: ol) - 1)%nat with (length tl + (length ol - length tl))%nat
    by (simpl; lia).
  apply bind_err. rewrite seq_app, foldM_app.
  destruct (compare_layers_run (o0 :: ol) tl rtol atol w (length tl) 0%nat
              (close_arrays rtol atol (array_of w o0) t0) w1 Hh1)
    as (w2 & Hloop & Hh2).
  { intros i Hi. simpl.
    destruct (lookup_lt_is_Some_2 tl i Hi) as [t Ht].
    destruct (Forall2_lookup_r _ _ _ _ _ Hl Ht) as (o & Ho & Hst).
    rewrite lookup_take_lt in Ho by lia. by exists o, t. }
  rewrite (bind_run _ _ _ _ _ Hloop).
  destruct (length ol - length tl)%nat as [|n] eqn:En; [lia|].
  cbn [seq foldM]. rewrite Nat.add_0_l. apply bind_err.
  destruct (lookup_lt_is_Some_2 ol (length tl) Hlen) as [o Ho].
  rewrite (bind_run _ _ _ _ _ (lift_run (getitem (o0 :: ol) (1 + length tl)) o w2
             ltac:(unfold getitem; simpl; by rewrite Ho))).
  rewrite (bind_run _ _ _ _ _ (read_array_run o w2)).
  apply bind_err. unfold getitem. rewrite lookup_ge_None_2 by lia. done.
Qed.

(** [compare_outputs] raises IndexError, and returns no verdict, when the
    candidate list is empty or has more per-layer outputs than the reference
    has layers. *)
Theorem compare_outputs_raises_on_missing_layers t0 tl rtol atol w :
  compare_outputs (t0, tl) [] rtol atol w = Err IndexError
  ∧ ∀ o0 ol,
      a_shape (array_of w o0) = a_shape t0 →
      (length tl < length ol)%nat →
      Forall2 (λ o t, a_shape (array_of w o) = a_shape t) (take (length tl) ol) tl →
      compare_outputs (t0, tl) (o0 :: ol) rtol atol w = Err IndexError.
Proof.
  split; [done|]. intros. by apply compare_outputs_missing_layer.
Qed.

Lemma compare_outputs_raises_on_missing_layers_witness :
  compare_outputs (example_reference, []) [] 0 0 world0 = Err IndexError
  ∧ compare_outputs (example_reference, [])
      [example_candidate; Val example_reference] 0 0 world0 = Err IndexError.
Proof.
  destruct (compare_outputs_raises_on_missing_layers example_reference [] 0 0
              world0) as [H0 H1].
  split; [exact H0|]. apply H1.
  - reflexivity.
  - simpl. lia.
  - constructor.
Defined.

(** With [use_io_binding], a [test_parity] that returns has run the engine
    once per test case, every time through [run] with the inputs passed by
    value: the bound-buffer run is never used. *)
Theorem test_parity_io_binding_never_binds (ort_session : InferenceSession)
    (model : PyTorchModel) dev is_float16 rtol atol total_test_cases model_class
    has_position_ids has_attention_mask w verdict w' :
  test_parity ort_session model dev is_float16 rtol atol total_test_cases true
    model_class has_position_ids has_attention_mask w = Ok (verdict, w') →
  engine_runs (w_events w')
  = engine_runs (w_events w) ++ replicate (Z.to_nat total_test_cases) ValuePassing.
Proof. apply io_binding_parity_runs_value_mode. Qed.

Lemma test_parity_io_binding_never_binds_witness :
  ∃ verdict w',
    test_parity example_session example_model Cpu false (5 # 10000) (5 # 10000)
      3 true "GPT2LMHeadModel" true true world0 = Ok (verdict, w')
    ∧ engine_runs (w_events w')
      = engine_runs (w_events world0) ++ replicate (Z.to_nat 3) ValuePassing.
Proof.
  eexists _, _. split; [vm_compute; reflexivity|].
  eapply (test_parity_io_binding_never_binds example_session example_model Cpu
            false (5 # 10000) (5 # 10000) 3 "GPT2LMHeadModel" true true world0).
  vm_compute. reflexivity.
Defined.

(** Without [use_io_binding] no buffers are allocated while every trial takes
    the bound-buffer path: with at least one test case [test_parity] raises
    and returns no verdict. *)
Theorem test_parity_without_io_binding_returns_no_verdict
    (ort_session : InferenceSession) (model : PyTorchModel) dev is_float16 rtol
    atol total_test_cases model_class has_position_ids has_attention_mask w :
  0 < total_test_cases →
  ∀ r, test_parity ort_session model dev is_float16 rtol atol total_test_cases
         false model_class has_position_ids has_attention_mask w ≠ Ok r.
Proof.
  intros Hpos r Hr. apply unbound_parity_runs_no_trial in Hr. lia.
Qed.

Lemma test_parity_without_io_binding_returns_no_verdict_witness :
  0 < 1
  ∧ ∀ r, test_parity example_session example_model Cpu false (5 # 10000)
           (5 # 10000) 1 false "GPT2LMHeadModel" true true world0 ≠ Ok r.
Proof.
  split; [lia|].
  apply (test_parity_without_io_binding_returns_no_verdict example_session
           example_model Cpu false (5 # 10000) (5 # 10000) 1 "GPT2LMHeadModel"
           true true world0).
  lia.
Defined.

Lemma unbound_parity_emits (ort_session : InferenceSession)
    (model : PyTorchModel) dev is_float16 rtol atol total_test_cases model_class
    has_position_ids has_attention_mask :
  emits (test_parity ort_session model dev is_float16 rtol atol total_test_cases
           false model_class has_position_ids has_attention_mask) [].
Proof.
  intros w r w' H. pose proof (unbound_parity_runs_no_trial _ _ _ _ _ _ _ _ _ _ _ _ H)
    as Hn.
  unfold test_parity in H. cbv zeta in H.
  replace (Z.to_nat total_test_cases) with 0%nat in H by lia.
  cbn [seq foldM] in H. rewrite app_nil_r.
  apply bind_inv in H as ([] & w1 & [= <-] & H).
  rewrite !ret_run in H.
  apply bind_inv in H as ([] & w2 & [= <-] & H).
  apply bind_inv in H as ([] & w3 & H3 & [= _ <-]).
  destruct (95 * total_test_cases <? 100 * 0);
    injection H3 as <-; simpl; by rewrite !engine_runs_app, ?app_nil_r.
Qed.

(** With no test case to run, [test_parity] runs neither engine; it answers
    True for [total_test_cases = 0] and False for a negative count. *)
Theorem test_parity_without_cases (ort_session : InferenceSession)
    (model : PyTorchModel) dev is_float16 rtol atol total_test_cases
    (use_io_binding : bool) model_class has_position_ids has_attention_mask w :
  total_test_cases <= 0 →
  (use_io_binding = true →
   is_Some (dict_get MODEL_CLASSES model_class)
   ∧ 0 < num_attention_heads (config model)
   ∧ 0 <= hidden_size (config model) ∧ 96 * hidden_size (config model) < 2 ^ 63
   ∧ 0 <= vocab_size (config model) ∧ 16 * vocab_size (config model) < 2 ^ 63) →
  ∃ w', test_parity ort_session model dev is_float16 rtol atol total_test_cases
          use_io_binding model_class has_position_ids has_attention_mask w
        = Ok (total_test_cases =? 0, w')
    ∧ engine_runs (w_events w') = engine_runs (w_events w).
Proof.
  intros Hn Hcfg.
  destruct (logger_info_run (MsgRunningParity total_test_cases use_io_binding) w)
    as (wa & Hlog & _).
  assert (∃ output_buffers w0,
            (logger_info (MsgRunningParity total_test_cases use_io_binding);;
             if use_io_binding then
               max_output_shapes ← get_output_shapes 8 4 2 (config model) model_class;
               b ← get_output_buffers max_output_shapes dev is_float16;
               mret (Some b)
             else mret None) w = Ok (output_buffers, w0)) as (bufs & w0 & Hpre).
  { rewrite (bind_run _ _ _ _ _ Hlog). destruct use_io_binding; [|by eexists _, _].
    destruct (Hcfg eq_refl) as ([entry Hclass] & Hh & Hhid & Hhmax & Hv & Hvmax).
    destruct (preallocated_buffers_fit (config model) model_class entry dev
                is_float16 8 4 2 wa Hclass Hh Hhid Hv Hvmax Hhmax
                ltac:(lia) ltac:(lia) ltac:(lia))
      as (max_shapes & b & w1 & _ & Hshapes & Hbufs & _).
    rewrite (bind_run _ _ _ _ _ Hshapes), (bind_run _ _ _ _ _ Hbufs).
    by eexists _, _. }
  destruct (test_parity_returns ort_session model dev is_float16 rtol atol
              total_test_cases use_io_binding model_class has_position_ids
              has_attention_mask w bufs w0 [] w0 Hpre) as (w' & Hrun).
  { simpl. lia. }
  { done. }
  exists w'. change (count_passed []) with 0 in Hrun. rewrite Z.eqb_sym in Hrun.
  split; [exact Hrun|].
  destruct use_io_binding.
  - pose proof (io_binding_parity_runs_value_mode _ _ _ _ _ _ _ _ _ _ _ _ _ Hrun) as He.
    replace (Z.to_nat total_test_cases) with 0%nat in He by lia.
    by rewrite app_nil_r in He.
  - pose proof (unbound_parity_emits _ _ _ _ _ _ _ _ _ _ _ _ _ Hrun) as He.
    by rewrite app_nil_r in He.
Qed.

Lemma test_parity_without_cases_witness :
  ∃ w', test_parity example_session example_model Cpu false (5 # 10000)
          (5 # 10000) 0 true "GPT2LMHeadModel" true true world0
        = Ok (0 =? 0, w')
    ∧ engine_runs (w_events w') = engine_runs (w_events world0).
Proof.
  apply (test_parity_without_cases example_session example_model Cpu false
           (5 # 10000) (5 # 10000) 0 true "GPT2LMHeadModel" true true world0).
  - lia.
  - intros _. split; [by eexists|]. simpl. lia.
Defined.

(** ** Bindings, bound-buffer inference and the cache inputs *)

Lemma bind_outputs_loop_full (output_buffers : gmap string StoredTensor)
    (output_shapes : dict (list Z)) float_type names : ∀ b w,
  (∀ name, name ∈ names → ∃ buf shape, output_buffers !! name = Some buf
       ∧ dict_get output_shapes name = Some shape ∧ data_ptr buf ≠ 0) →
  ∃ b' w' bos,
    foldM (λ io_binding output_name,
             output_buffer ← lift (from_option Ok (Err KeyError)
                                     (output_buffers !! output_name));
             logger_debug (MsgBindOutput output_name (s_device output_buffer)
                             (s_size output_buffer));;
             shape ← lift (dict_getitem output_shapes output_name);
             bind_output io_binding output_name (s_device output_buffer) 0
               float_type shape (data_ptr output_buffer))
          b names w = Ok (b', w')
    ∧ bound_inputs b' = bound_inputs b
    ∧ bound_outputs b' = bound_outputs b ++ bos
    ∧ Forall2 (binds_output output_buffers output_shapes float_type) names bos
    ∧ w_heap w' = w_heap w ∧ w_next w' = w_next w.
Proof.
  induction names as [|name names IH]; intros b w Hnames.
  - exists b, w, []. by rewrite app_nil_r.
  - destruct (Hnames name ltac:(left)) as (buf & shape & Hbuf & Hshape & Hptr).
    cbn [foldM]. rewrite !bind_assoc.
    rewrite (bind_run _ _ _ _ _ (lift_run (from_option Ok (Err KeyError)
               (output_buffers !! name)) buf w ltac:(by rewrite Hbuf))).
    assert (logger_debug (MsgBindOutput name (s_device buf) (s_size buf)) w
            = Ok (tt, {| w_rng := w_rng w; w_next := w_next w;
                         w_uninit := w_uninit w; w_heap := w_heap w;
                         w_events := w_events w ++
                           [LogDebug (MsgBindOutput name (s_device buf) (s_size buf))] |}))
      as Hlog by done.
    set (w1 := {| w_rng := w_rng w; w_next := w_next w; w_uninit := w_uninit w;
                  w_heap := w_heap w; w_events := _ |}) in Hlog.
    rewrite !bind_assoc, (bind_run _ _ _ _ _ Hlog).
    rewrite !bind_assoc, (bind_run _ _ _ _ _ (lift_run (dict_getitem output_shapes name)
               shape w1 ltac:(unfold dict_getitem; by rewrite Hshape))).
    rewrite (bind_run _ _ _ _ _ (bind_output_run b _ _ _ _ _ _ w1 Hptr)).
    destruct (IH {| bound_inputs := bound_inputs b;
                    bound_outputs := bound_outputs b ++
                      [{| b_name := name; b_device := s_device buf; b_device_id := 0;
                          b_dtype := float_type; b_shape := shape;
                          b_ptr := data_ptr buf |}] |} w1)
      as (b' & w' & bos & Hrun & Hin & Hout & Hall & Hheap & Hnext).
    { intros n Hn. apply Hnames. by right. }
    eexists b', w', (_ :: bos). split; [exact Hrun|]. split; [done|].
    split; [by rewrite Hout; cbn [bound_outputs]; rewrite <- app_assoc|].
    split; [|done]. constructor; [|done]. by exists buf, shape.
Qed.

Lemma prepare_io_binding_run (ort_session : InferenceSession)
    (input_ids : LongMatrix) (position_ids : option LongMatrix)
    (attention_mask : option FloatMatrix) (past : option (list FloatTensor))
    (output_buffers : gmap string StoredTensor) (output_shapes : dict (list Z))
    first first_buffer w :
  t_contiguous input_ids = true → t_ptr input_ids ≠ 0 →
  Forall (λ past_i, t_contiguous past_i = true) (default [] past) →
  (∀ m, attention_mask = Some m → t_contiguous m = true ∧ t_ptr m ≠ 0) →
  (∀ p, position_ids = Some p → t_contiguous p = true ∧ t_ptr p ≠ 0) →
  get_outputs ort_session !! 0%nat = Some first →
  output_buffers !! first = Some first_buffer →
  (∀ name, name ∈ get_outputs ort_session →
     ∃ buf shape, output_buffers !! name = Some buf
       ∧ dict_get output_shapes name = Some shape ∧ data_ptr buf ≠ 0) →
  ∃ binding w',
    prepare_io_binding ort_session input_ids position_ids attention_mask
      past (Some output_buffers) output_shapes w = Ok (binding, w')
    ∧ bound_inputs binding
      = tensor_binding "input_ids" Int64 input_ids
        :: map (past_binding input_ids (binding_float_type (s_dtype first_buffer)))
             (imap pair (default [] past))
        ++ from_option (λ m, [tensor_binding "attention_mask"
                                (binding_float_type (s_dtype first_buffer)) m])
             [] attention_mask
        ++ from_option (λ p, [tensor_binding "position_ids" Int64 p]) [] position_ids
    ∧ Forall2 (binds_output output_buffers output_shapes
                 (binding_float_type (s_dtype first_buffer)))
        (get_outputs ort_session) (bound_outputs binding)
    ∧ w_heap w' = w_heap w ∧ w_next w' = w_next w.
Proof.
  intros Hc Hptr Hpast Hmask Hpos Hfirst Hfbuf Houts. unfold prepare_io_binding.
  rewrite (bind_run _ _ _ _ _ (py_assert_run _ w Hc)).
  rewrite (bind_run _ _ _ _ _ (bind_input_run _ _ _ _ _ _ _ w Hptr)).
  rewrite (bind_run _ _ _ _ _ (lift_run (getitem (get_outputs ort_session) 0) first w
             ltac:(unfold getitem; by rewrite Hfirst))).
  rewrite (bind_run _ _ _ _ _ (lift_run _ output_buffers w eq_refl)).
  rewrite (bind_run _ _ _ _ _ (lift_run (from_option Ok (Err KeyError)
             (output_buffers !! first)) first_buffer w ltac:(by rewrite Hfbuf))).
  cbv zeta. fold (binding_float_type (s_dtype first_buffer)).
  set (float_type := binding_float_type (s_dtype first_buffer)).
  cbn [bound_inputs bound_outputs io_binding app].
  fold (tensor_binding "input_ids" Int64 input_ids).
  set (b0 := {| bound_inputs := [tensor_binding "input_ids" Int64 input_ids];
                bound_outputs := [] |}).
  assert (∃ b1,
            match past with
            | Some ps =>
                foldM (λ io_binding ip,
                         let i := ip.1 in let past_i := ip.2 in
                         py_assert (t_contiguous past_i);;
                         let data_ptr := t_ptr past_i in
                         let data_ptr :=
                           if data_ptr =? 0 then t_ptr input_ids else data_ptr in
                         bind_input io_binding ("past_" +:+ pretty i) (t_device past_i) 0
                           float_type (t_size past_i) data_ptr)
                      b0 (imap pair ps)
            | None => mret b0
            end w = Ok (b1, w)
            ∧ bound_inputs b1 = bound_inputs b0
                ++ map (past_binding input_ids float_type) (imap pair (default [] past))
            ∧ bound_outputs b1 = []) as (b1 & Hb1 & Hin1 & Hout1).
  { destruct past as [ps|]; cbn [from_option id] in *.
    - assert (Forall (λ ip : nat * FloatTensor, t_contiguous ip.2 = true) (imap pair ps))
        as Hpast'.
      { apply Forall_forall. intros ip (i & p & -> & Hp)%elem_of_lookup_imap_1. simpl.
        rewrite Forall_forall in Hpast. apply Hpast. by eapply list_elem_of_lookup_2. }
      eexists. split; [exact (bind_past_loop input_ids float_type (imap pair ps) b0 w
                                Hptr Hpast')|]. done.
    - exists b0. by rewrite app_nil_r. }
  rewrite (bind_run _ _ _ _ _ Hb1).
  assert (∃ b2,
            match attention_mask with
            | Some m =>
                py_assert (t_contiguous m);;
                bind_input b1 "attention_mask" (t_device m) 0 float_type
                  (t_size m) (t_ptr m)
            | None => mret b1
            end w = Ok (b2, w)
            ∧ bound_inputs b2 = bound_inputs b1
                ++ from_option (λ m, [tensor_binding "attention_mask" float_type m])
                     [] attention_mask
            ∧ bound_outputs b2 = []) as (b2 & Hb2 & Hin2 & Hout2).
  { destruct attention_mask as [m|].
    - destruct (Hmask m eq_refl) as [Hmc Hmp].
      eexists. split.
      { rewrite (bind_run _ _ _ _ _ (py_assert_run _ w Hmc)).
        exact (bind_input_run b1 _ _ _ _ _ _ w Hmp). }
      done.
    - exists b1. by rewrite app_nil_r. }
  rewrite (bind_run _ _ _ _ _ Hb2).
  assert (∃ b3,
            match position_ids with
            | Some p =>
                py_assert (t_contiguous p);;
                bind_input b2 "position_ids" (t_device p) 0 Int64
                  (t_size p) (t_ptr p)
            | None => mret b2
            end w = Ok (b3, w)
            ∧ bound_inputs b3 = bound_inputs b2
                ++ from_option (λ p, [tensor_binding "position_ids" Int64 p])
                     [] position_ids
            ∧ bound_outputs b3 = []) as (b3 & Hb3 & Hin3 & Hout3).
  { destruct position_ids as [p|].
    - destruct (Hpos p eq_refl) as [Hpc Hpp].
      eexists. split.
      { rewrite (bind_run _ _ _ _ _ (py_assert_run _ w Hpc)).
        exact (bind_input_run b2 _ _ _ _ _ _ w Hpp). }
      done.
    - exists b2. by rewrite app_nil_r. }
  rewrite (bind_run _ _ _ _ _ Hb3).
  destruct (bind_outputs_loop_full output_buffers output_shapes float_type
              (get_outputs ort_session) b3 w Houts)
    as (b4 & w' & bos & Hrun & Hin4 & Hout4 & Hall & Hheap & Hnext).
  exists b4, w'. split; [exact Hrun|].
  rewrite Hin4, Hin3, Hin2, Hin1, Hout4, Hout3. subst b0. cbn [bound_inputs app].
  rewrite <- !app_assoc. done.
Qed.

(** [prepare_io_binding] binds the inputs in the order input_ids, past_0 ..
    past_{n-1}, attention_mask, position_ids, the ids as int64 and the
    floating-point inputs in the precision of the first output buffer (half
    for a float16 buffer, single otherwise); it binds every output of the
    session, in the session's order, to the memory of its buffer under the
    shape of [output_shapes], and neither allocates nor writes memory. *)
Theorem prepare_io_binding_binds_in_order (ort_session : InferenceSession)
    (input_ids : LongMatrix) (position_ids : option LongMatrix)
    (attention_mask : option FloatMatrix) (past : option (list FloatTensor))
    (output_buffers : gmap string StoredTensor) (output_shapes : dict (list Z))
    first first_buffer w :
  t_contiguous input_ids = true → t_ptr input_ids ≠ 0 →
  Forall (λ past_i, t_contiguous past_i = true) (default [] past) →
  (∀ m, attention_mask = Some m → t_contiguous m = true ∧ t_ptr m ≠ 0) →
  (∀ p, position_ids = Some p → t_contiguous p = true ∧ t_ptr p ≠ 0) →
  get_outputs ort_session !! 0%nat = Some first →
  output_buffers !! first = Some first_buffer →
  (∀ name, name ∈ get_outputs ort_session →
     ∃ buf shape, output_buffers !! name = Some buf
       ∧ dict_get output_shapes name = Some shape ∧ data_ptr buf ≠ 0) →
  ∃ binding w',
    prepare_io_binding ort_session input_ids position_ids attention_mask
      past (Some output_buffers) output_shapes w = Ok (binding, w')
    ∧ bound_inputs binding
      = tensor_binding "input_ids" Int64 input_ids
        :: map (past_binding input_ids (binding_float_type (s_dtype first_buffer)))
             (imap pair (default [] past))
        ++ from_option (λ m, [tensor_binding "attention_mask"
                                (binding_float_type (s_dtype first_buffer)) m])
             [] attention_mask
        ++ from_option (λ p, [tensor_binding "position_ids" Int64 p]) [] position_ids
    ∧ Forall2 (binds_output output_buffers output_shapes
                 (binding_float_type (s_dtype first_buffer)))
        (get_outputs ort_session) (bound_outputs binding)
    ∧ w_heap w' = w_heap w ∧ w_next w' = w_next w.
Proof. apply prepare_io_binding_run. Qed.

Lemma prepare_io_binding_binds_in_order_witness :
  ∃ binding w',
    prepare_io_binding two_output_session example_input_ids None
      (Some example_mask) (Some [example_empty_past; example_empty_past])
      (Some example_buffers) fitting_shapes world0 = Ok (binding, w')
    ∧ bound_inputs binding
      = tensor_binding "input_ids" Int64 example_input_ids
        :: map (past_binding example_input_ids (binding_float_type Float32))
             (imap pair [example_empty_past; example_empty_past])
        ++ [tensor_binding "attention_mask" (binding_float_type Float32) example_mask]
        ++ []
    ∧ Forall2 (binds_output example_buffers fitting_shapes
                 (binding_float_type Float32))
        (get_outputs two_output_session) (bound_outputs binding)
    ∧ w_heap w' = w_heap world0 ∧ w_next w' = w_next world0.
Proof.
  apply (prepare_io_binding_binds_in_order two_output_session
           example_input_ids None (Some example_mask)
           (Some [example_empty_past; example_empty_past]) example_buffers
           fitting_shapes "logits"%string
           {| s_base := 16; s_offset := 0; s_size := [4];
              s_dtype := Float32; s_device := Cpu |} world0).
  - reflexivity.
  - simpl. lia.
  - by repeat constructor.
  - intros m [= <-]. split; [reflexivity | simpl; lia].
  - intros p [=].
  - reflexivity.
  - reflexivity.
  - intros name H. simpl in H.
    apply elem_of_cons in H as [-> | H]; [|apply elem_of_cons in H as [-> | H]].
    + eexists _, _. split; [reflexivity|]. split; [reflexivity|]. by vm_compute.
    + eexists _, _. split; [reflexivity|]. split; [reflexivity|]. by vm_compute.
    + by apply elem_of_nil in H.
Defined.

Lemma write_loop (pairs : list (Binding * NdArray)) : ∀ w,
  NoDup (map (λ bo, b_ptr bo.1) pairs) →
  ∃ w',
    foldM (λ (_ : unit) (bo : Binding * NdArray),
             write_mem (b_ptr bo.1) (a_data bo.2)) tt pairs w = Ok (tt, w')
    ∧ w_next w' = w_next w
    ∧ (∀ a, a ∉ map (λ bo, b_ptr bo.1) pairs → w_heap w' !! a = w_heap w !! a)
    ∧ (∀ bo old, bo ∈ pairs → w_heap w !! b_ptr bo.1 = Some old →
         w_heap w' !! b_ptr bo.1
         = Some (a_data bo.2 ++ drop (length (a_data bo.2)) old)).
Proof.
  induction pairs as [|p pairs IH]; intros w Hnd.
  - exists w. split; [done|]. split; [done|]. split; [done|].
    intros bo old H. by apply elem_of_nil in H.
  - cbn [map] in Hnd. apply NoDup_cons in Hnd as [Hnotin Hnd].
    cbn [foldM].
    set (w1 := {| w_rng := w_rng w; w_next := w_next w; w_uninit := w_uninit w;
                  w_heap := match w_heap w !! b_ptr p.1 with
                            | Some old => <[b_ptr p.1 := a_data p.2
                                             ++ drop (length (a_data p.2)) old]> (w_heap w)
                            | None => w_heap w
                            end;
                  w_events := w_events w |}).
    assert (write_mem (b_ptr p.1) (a_data p.2) w = Ok (tt, w1)) as Hw by done.
    rewrite (bind_run _ _ _ _ _ Hw).
    destruct (IH w1 Hnd) as (w' & Hrun & Hnext & Hframe & Hwritten).
    exists w'. split; [exact Hrun|]. split; [done|].
    assert (∀ a, a ≠ b_ptr p.1 → w_heap w1 !! a = w_heap w !! a) as Hframe1.
    { intros a Ha. unfold w1. simpl. destruct (w_heap w !! b_ptr p.1); [|done].
      by rewrite lookup_insert_ne. }
    split.
    + intros a Ha. cbn [map] in Ha. apply not_elem_of_cons in Ha as [Ha1 Ha2].
      rewrite Hframe by done. by apply Hframe1.
    + intros bo old Hbo Hold. apply elem_of_cons in Hbo as [-> | Hbo].
      * rewrite Hframe by done. unfold w1. simpl. rewrite Hold.
        by rewrite lookup_insert_eq.
      * apply Hwritten; [done|]. rewrite Hframe1; [done|].
        intros Heq. apply Hnotin. rewrite <- Heq.
        apply list_elem_of_fmap. by exists bo.
Qed.

Lemma bindable_data_ptr w output_buffers output_shapes name buf :
  bindable w output_buffers output_shapes name →
  output_buffers !! name = Some buf →
  data_ptr buf = s_base buf ∧ s_base buf ≠ 0.
Proof.
  intros (buf' & shape & len & old & Hbuf & _ & _ & Hflat & Hoff & Hlen & _ & Hbase & _) Hb.
  simplify_eq. unfold data_ptr, data_ptr_of, nelement. rewrite Hflat, Hoff.
  simpl. replace (len * 1 =? 0) with false by (symmetry; apply Z.eqb_neq; lia).
  split; [lia | done].
Qed.

Lemma bound_inference_run (ort_session : InferenceSession) (inputs : Gpt2Inputs)
    (output_buffers : gmap string StoredTensor) (output_shapes : dict (list Z))
    (return_numpy : bool) arrays w :
  t_contiguous (input_ids inputs) = true → t_ptr (input_ids inputs) ≠ 0 →
  Forall (λ past_i, t_contiguous past_i = true) (default [] (past inputs)) →
  (∀ m, attention_mask inputs = Some m → t_contiguous m = true ∧ t_ptr m ≠ 0) →
  (∀ p, position_ids inputs = Some p → t_contiguous p = true ∧ t_ptr p ≠ 0) →
  get_outputs ort_session ≠ [] → NoDup (get_outputs ort_session) →
  (∀ name buf, output_buffers !! name = Some buf → s_base buf < w_next w) →
  (∀ name, name ∈ get_outputs ort_session →
     bindable w output_buffers output_shapes name) →
  (∀ n1 n2 b1 b2, n1 ∈ get_outputs ort_session → n2 ∈ get_outputs ort_session →
     n1 ≠ n2 → output_buffers !! n1 = Some b1 → output_buffers !! n2 = Some b2 →
     s_base b1 ≠ s_base b2) →
  (∀ binding w0 w1,
     prepare_io_binding ort_session (input_ids inputs) (position_ids inputs)
       (attention_mask inputs) (past inputs) (Some output_buffers) output_shapes w0
     = Ok (binding, w1) →
     run_with_iobinding ort_session binding (to_list inputs) = Ok arrays) →
  Forall2 (λ name arr, dict_get output_shapes name = Some (a_shape arr)
                       ∧ well_formed arr)
    (get_outputs ort_session) arrays →
  ∃ outs w',
    onnxruntime_inference_with_binded_io ort_session inputs (Some output_buffers)
      output_shapes return_numpy w = Ok (outs, w')
    ∧ map (array_of w') outs = arrays.
Proof.
  intros Hc Hptr Hpast Hmask Hpos Hne Hnd Halloc Hbind Hdist Hengine Harr.
  unfold onnxruntime_inference_with_binded_io.
  set (wl := {| w_rng := w_rng w; w_next := w_next w; w_uninit := w_uninit w;
                w_heap := w_heap w;
                w_events := w_events w ++
                  [LogDebug (MsgStart "onnxruntime_inference_with_binded_io")] |}).
  assert (logger_debug (MsgStart "onnxruntime_inference_with_binded_io") w
          = Ok (tt, wl)) as Hlog by done.
  rewrite (bind_run _ _ _ _ _ Hlog).
  destruct (get_outputs ort_session) as [|first names'] eqn:Hnames; [done|].
  destruct (Hbind first ltac:(left)) as (fbuf & ? & ? & ? & Hfbuf & _).
  destruct (prepare_io_binding_run ort_session (input_ids inputs)
              (position_ids inputs) (attention_mask inputs) (past inputs)
              output_buffers output_shapes first fbuf wl Hc Hptr Hpast Hmask Hpos)
    as (binding & w1 & Hprep & _ & Hbouts & Hheap1 & Hnext1).
  { by rewrite Hnames. }
  { done. }
  { rewrite Hnames. intros name Hname.
    destruct (Hbind name Hname) as (buf & shape & len & old & Hbuf & Hshape & Hrest).
    exists buf, shape. split; [done|]. split; [done|].
    destruct (bindable_data_ptr w output_buffers output_shapes name buf
                (Hbind name Hname) Hbuf) as [-> Hb]. done. }
  rewrite Hnames in Hbouts. set (names := first :: names') in *.
  rewrite (bind_run _ _ _ _ _ Hprep).
  (* the run *)
  unfold session_run_with_iobinding.
  set (w2 := {| w_rng := w_rng w1; w_next := w_next w1; w_uninit := w_uninit w1;
                w_heap := w_heap w1;
                w_events := w_events w1 ++ [EngineRun BoundBuffer] |}).
  assert (emit (EngineRun BoundBuffer) w1 = Ok (tt, w2)) as Hemit by done.
  rewrite !bind_assoc, (bind_run _ _ _ _ _ Hemit).
  rewrite !bind_assoc, (bind_run _ _ _ _ _ (lift_run _ arrays w2
            (Hengine binding wl w1 Hprep))).
  pose proof (Forall2_length _ _ _ Hbouts) as Hlen1.
  pose proof (Forall2_length _ _ _ Harr) as Hlen2.
  set (ptr_of := λ name : string, from_option s_base 0 (output_buffers !! name)).
  assert (map b_ptr (bound_outputs binding) = map ptr_of names) as Hptrs.
  { clear -Hbouts Hbind. induction Hbouts as [|n bo ns bos Hbo _ IH]; [done|].
    cbn [map]. rewrite IH by (intros; apply Hbind; by right). f_equal.
    destruct Hbo as (buf & shape & Hbuf & _ & ->). cbn [b_ptr]. unfold ptr_of.
    rewrite Hbuf. simpl.
    by destruct (bindable_data_ptr _ _ _ _ _ (Hbind n ltac:(left)) Hbuf) as [-> _]. }
  assert (NoDup (map (λ bo : Binding * NdArray, b_ptr bo.1)
                   (zip (bound_outputs binding) arrays))) as Hndp.
  { assert (map (λ bo : Binding * NdArray, b_ptr bo.1)
              (zip (bound_outputs binding) arrays) = map ptr_of names) as ->.
    { rewrite <- Hptrs.
      rewrite <- (fst_zip (bound_outputs binding) arrays) at 2 by lia.
      by rewrite <- list_fmap_compose. }
    apply NoDup_fmap_2_strong; [|done].
    intros n1 n2 Hn1 Hn2 Heq. destruct (decide (n1 = n2)) as [|Hneq]; [done|].
    destruct (Hbind n1 Hn1) as (b1 & ? & ? & ? & Hb1 & _).
    destruct (Hbind n2 Hn2) as (b2 & ? & ? & ? & Hb2 & _).
    unfold ptr_of in Heq. rewrite Hb1, Hb2 in Heq. simpl in Heq.
    by destruct (Hdist n1 n2 b1 b2 Hn1 Hn2 Hneq Hb1 Hb2). }
  destruct (write_loop (zip (bound_outputs binding) arrays) w2 Hndp)
    as (w3 & Hwrite & Hnext3 & _ & Hwritten).
  rewrite (bind_run _ _ _ _ _ Hwrite).
  (* reading back *)
  unfold get_outputs_from_io_binding_buffer. rewrite Hnames. fold names.
  destruct (read_back_loop output_buffers output_shapes return_numpy names w3)
    as (outs & w4 & Hread & _ & _ & Hback & _).
  { intros name buf Hbuf. specialize (Halloc name buf Hbuf).
    rewrite Hnext3. unfold w2. simpl. rewrite Hnext1. done. }
  { intros name Hname.
    destruct (Hbind name Hname) as (buf & shape & len & old & Hbuf & Hshape & Hok
                                    & Hflat & _ & _ & Hfit & _).
    by exists buf, shape, len. }
  rewrite (bind_run _ _ _ _ _ Hread).
  exists (map Ref outs), w4. split; [done|].
  rewrite <- list_fmap_compose. apply list_eq_Forall2, Forall2_fmap_l.
  pose proof (Forall2_length _ _ _ Hback) as Hlen3.
  apply Forall2_same_length_lookup. split; [lia|].
  intros i out arr Hout Harri. simpl.
  destruct (lookup_lt_is_Some_2 names i) as [name Hname].
  { apply lookup_lt_Some in Hout. lia. }
  destruct (Forall2_lookup_lr _ _ _ _ _ _ Hback Hname Hout)
    as (buf & shape & Hbuf & Hshape & Hsize & Hload).
  destruct (Forall2_lookup_lr _ _ _ _ _ _ Harr Hname Harri) as [Hshape' Hwf].
  destruct (Forall2_lookup_l _ _ _ _ _ Hbouts Hname) as (bo & Hbo & Hbinds).
  destruct Hbinds as (buf' & shape' & Hbuf' & Hshape3 & Hboeq).
  assert (name ∈ names) as Hin by (by eapply list_elem_of_lookup_2).
  destruct (Hbind name Hin) as (buf'' & shape'' & len & old & Hbuf'' & Hshape''
                                & Hok & Hflat & Hoff & Hlen & Hfit & Hbase & Hold).
  simplify_eq.
  destruct (bindable_data_ptr _ _ _ _ _ (Hbind name Hin) Hbuf) as [Hdp _].
  set (bo := {| b_name := name; b_device := s_device buf; b_device_id := 0;
                b_dtype := binding_float_type (s_dtype fbuf);
                b_shape := a_shape arr; b_ptr := data_ptr buf |}) in *.
  assert ((bo, arr) ∈ zip (bound_outputs binding) arrays) as Hpair.
  { apply (list_elem_of_lookup_2 _ i). apply lookup_zip_with_Some.
    exists bo, arr. split; [done|]. split; [exact Hbo | exact Harri]. }
  assert (w_heap w3 !! s_base buf
          = Some (a_data arr ++ drop (length (a_data arr)) old)) as Hnew.
  { specialize (Hwritten (bo, arr) old Hpair). cbn [fst snd b_ptr bo] in Hwritten.
    rewrite Hdp in Hwritten. apply Hwritten. unfold w2. simpl. by rewrite Hheap1. }
  destruct arr as [ashape adata]. cbn [a_shape a_data] in *. f_equal; [done|].
  rewrite Hload. unfold load, nelement. rewrite Hnew, Hflat, Hoff.
  change (Z.to_nat 0) with 0%nat. rewrite drop_0. simpl.
  rewrite take_take. unfold well_formed in Hwf. simpl in Hwf.
  pose proof Hok as (_ & Hdims & _). pose proof (numel_nonneg _ Hdims) as Hn.
  assert (s_size out = ashape) as Hso by congruence. rewrite Hso.
  replace (Z.to_nat (numel ashape) `min` Z.to_nat (len * 1))%nat
    with (length adata) by lia.
  by rewrite take_app_length.
Qed.

(** Inference through bound buffers returns what the engine wrote: when every
    output of the session has a bindable buffer on a storage of its own and
    the engine answers one array per output, of the shape [output_shapes]
    gives it, [onnxruntime_inference_with_binded_io] returns exactly these
    arrays, in the order of the session's outputs. *)
Theorem bound_inference_returns_engine_outputs (ort_session : InferenceSession)
    (inputs : Gpt2Inputs) (output_buffers : gmap string StoredTensor)
    (output_shapes : dict (list Z)) (return_numpy : bool) arrays w :
  t_contiguous (input_ids inputs) = true → t_ptr (input_ids inputs) ≠ 0 →
  Forall (λ past_i, t_contiguous past_i = true) (default [] (past inputs)) →
  (∀ m, attention_mask inputs = Some m → t_contiguous m = true ∧ t_ptr m ≠ 0) →
  (∀ p, position_ids inputs = Some p → t_contiguous p = true ∧ t_ptr p ≠ 0) →
  get_outputs ort_session ≠ [] → NoDup (get_outputs ort_session) →
  (∀ name buf, output_buffers !! name = Some buf → s_base buf < w_next w) →
  (∀ name, name ∈ get_outputs ort_session →
     bindable w output_buffers output_shapes name) →
  (∀ n1 n2 b1 b2, n1 ∈ get_outputs ort_session → n2 ∈ get_outputs ort_session →
     n1 ≠ n2 → output_buffers !! n1 = Some b1 → output_buffers !! n2 = Some b2 →
     s_base b1 ≠ s_base b2) →
  (∀ binding w0 w1,
     prepare_io_binding ort_session (input_ids inputs) (position_ids inputs)
       (attention_mask inputs) (past inputs) (Some output_buffers) output_shapes w0
     = Ok (binding, w1) →
     run_with_iobinding ort_session binding (to_list inputs) = Ok arrays) →
  Forall2 (λ name arr, dict_get output_shapes name = Some (a_shape arr)
                       ∧ well_formed arr)
    (get_outputs ort_session) arrays →
  ∃ outs w',
    onnxruntime_inference_with_binded_io ort_session inputs (Some output_buffers)
      output_shapes return_numpy w = Ok (outs, w')
    ∧ map (array_of w') outs = arrays.
Proof. apply bound_inference_run. Qed.

Lemma bound_inference_returns_engine_outputs_witness :
  ∃ outs w',
    onnxruntime_inference_with_binded_io two_output_session example_inputs
      (Some example_buffers) unit_shapes true stored_world = Ok (outs, w')
    ∧ map (array_of w') outs = [example_output; example_output].
Proof.
  assert (∀ name buf, example_buffers !! name = Some buf →
            (name = "logits"%string ∧ s_base buf = 16)
            ∨ (name = "present_0"%string ∧ s_base buf = 32)) as Hbufs.
  { intros name buf H. unfold example_buffers in H.
    apply lookup_insert_Some in H as [[<- <-] | [_ H]]; [by left|].
    apply lookup_insert_Some in H as [[<- <-] | [_ H]]; [by right|].
    by rewrite lookup_empty in H. }
  apply (bound_inference_returns_engine_outputs two_output_session
           example_inputs example_buffers unit_shapes true
           [example_output; example_output] stored_world).
  - reflexivity.
  - simpl. lia.
  - by repeat constructor.
  - intros m [= <-]. split; [reflexivity | simpl; lia].
  - intros p [=].
  - discriminate.
  - apply (bool_decide_unpack _). by vm_compute.
  - intros name buf H. destruct (Hbufs name buf H) as [[_ ->] | [_ ->]]; simpl; lia.
  - intros name H. simpl in H.
    apply elem_of_cons in H as [-> | H]; [|apply elem_of_cons in H as [-> | H]].
    + eexists _, [1], 4, _. split; [reflexivity|]. split; [reflexivity|].
      split; [split; [done|split; [repeat constructor; lia|simpl; lia]]|].
      split; [reflexivity|]. split; [reflexivity|]. split; [lia|].
      split; [simpl; lia|]. split; [simpl; lia | reflexivity].
    + eexists _, [1], 100, _. split; [reflexivity|]. split; [reflexivity|].
      split; [split; [done|split; [repeat constructor; lia|simpl; lia]]|].
      split; [reflexivity|]. split; [reflexivity|]. split; [lia|].
      split; [simpl; lia|]. split; [simpl; lia | reflexivity].
    + by apply elem_of_nil in H.
  - intros n1 n2 b1 b2 _ _ Hne H1 H2.
    destruct (Hbufs n1 b1 H1) as [[-> ->] | [-> ->]];
      destruct (Hbufs n2 b2 H2) as [[-> ->] | [-> ->]]; done.
  - reflexivity.
  - repeat constructor.
Defined.

Lemma repeatM_inv {A} (m : M A) (P : A → Prop) (I : World → Prop) n :
  (∀ w, I w → ∃ a w', m w = Ok (a, w') ∧ P a ∧ I w') →
  ∀ w, I w → ∃ l w', repeatM n m w = Ok (l, w')
                  ∧ length l = n ∧ Forall P l ∧ I w'.
Proof.
  intros Hm. induction n as [|n IH]; intros w Hw; cbn [repeatM].
  - by exists [], w.
  - destruct (Hm w Hw) as (a & w1 & H1 & Ha & Hw1).
    destruct (IH w1 Hw1) as (l & w2 & H2 & Hlen & Hl & Hw2).
    exists (a :: l), w2.
    rewrite (bind_run _ _ _ _ _ H1), (bind_run _ _ _ _ _ H2).
    split; [done|]. split; [simpl; lia|]. split; [by constructor | done].
Qed.

Lemma torch_rand_run shape dt dev w :
  Forall (λ d, 0 <= d) shape → 0 < w_next w →
  ∃ t w', torch_rand shape dt dev w = Ok (t, w')
    ∧ cache_tensor shape dt dev t ∧ 0 < w_next w'.
Proof.
  intros Hshape Hnext. unfold torch_rand.
  rewrite (bind_run _ _ _ _ _ (check_shape_ok _ _ Hshape)).
  eexists _, _. split; [done|]. cbn.
  pose proof (numel_nonneg _ Hshape) as Hn.
  split; [|lia]. unfold cache_tensor. cbn.
  split; [done|]. split; [done|]. split; [done|]. split; [done|].
  split; [by rewrite !length_map, length_seq|]. split.
  - apply Forall_forall. intros x Hx.
    apply list_elem_of_fmap in Hx as (z & -> & _).
    pose proof (Z.mod_pos_bound z 16777216 ltac:(lia)) as Hz.
    unfold Qle, Qlt. simpl. lia.
  - unfold data_ptr_of. destruct (numel shape =? 0) eqn:E.
    + apply Z.eqb_eq in E. done.
    + apply Z.eqb_neq in E. split; lia.
Qed.




(** What makes [get_dummy_inputs] raise: no attention heads (division by
    zero), a vocabulary of at most one token (the range of the random token
    ids is empty), and asking for position ids without an attention mask. *)
Theorem get_dummy_inputs_raises
    batch_size past_sequence_length sequence_length num_attention_heads
    hidden_size num_layer vocab_size dev (float16 has_position_ids
    has_attention_mask : bool) w :
  (num_attention_heads = 0 →
   get_dummy_inputs batch_size past_sequence_length sequence_length
     num_attention_heads hidden_size num_layer vocab_size dev float16
     has_position_ids has_attention_mask w = Err ZeroDivisionError)
  ∧ (0 < num_attention_heads → 0 <= hidden_size → 0 <= batch_size →
     0 <= past_sequence_length → 0 <= sequence_length → vocab_size <= 1 →
     get_dummy_inputs batch_size past_sequence_length sequence_length
       num_attention_heads hidden_size num_layer vocab_size dev float16
       has_position_ids has_attention_mask w = Err RuntimeError)
  ∧ (valid_params batch_size past_sequence_length sequence_length
       num_attention_heads hidden_size vocab_size →
     has_position_ids = true → has_attention_mask = false →
     get_dummy_inputs batch_size past_sequence_length sequence_length
       num_attention_heads hidden_size num_layer vocab_size dev float16
       has_position_ids has_attention_mask w = Err AttributeError).
Proof.
  split; [|split].
  - intros ->. done.
  - intros Hh Hhid Hb Hp Hs Hv. unfold get_dummy_inputs.
    rewrite (bind_run _ _ _ _ _ (int_div_run hidden_size num_attention_heads w
               ltac:(lia))).
    destruct (repeatM_total
                (torch_rand [2; batch_size; num_attention_heads; past_sequence_length;
                             Z.quot hidden_size num_attention_heads]
                   (if float16 then Float16 else Float32) dev)
                (Z.to_nat num_layer)) with (w := w) as (pasts & w1 & Hpast).
    { intros w0. apply torch_rand_total.
      repeat constructor; try lia. by apply Z.quot_pos; lia. }
    rewrite (bind_run _ _ _ _ _ Hpast). apply bind_err.
    unfold torch_randint.
    rewrite (bind_run _ _ _ _ _ (check_shape_ok [batch_size; sequence_length] w1
               ltac:(by repeat constructor))).
    replace (vocab_size - 1 <=? 0) with true by (symmetry; apply Z.leb_le; lia).
    done.
  - intros Hv -> ->. by apply position_ids_without_mask_raises.
Qed.

Lemma get_dummy_inputs_raises_witness :
  get_dummy_inputs 2 0 2 0 4 2 50 Cpu false true true world0 = Err ZeroDivisionError
  ∧ get_dummy_inputs 2 0 2 2 4 2 1 Cpu false true true world0 = Err RuntimeError
  ∧ get_dummy_inputs 2 0 2 2 4 2 50 Cpu false true false world0 = Err AttributeError.
Proof.
  split; [|split].
  - by apply (get_dummy_inputs_raises 2 0 2 0 4 2 50 Cpu false true true world0).
  - apply (get_dummy_inputs_raises 2 0 2 2 4 2 1 Cpu false true true world0); lia.
  - apply (get_dummy_inputs_raises 2 0 2 2 4 2 50 Cpu false true false world0);
      [constructor; lia | done..].
Defined.

(** ** Post-processing of the model outputs *)

Import MyGPT2Model.

Lemma mapR_seq_lookup {A B} (f : nat → result B) (g : A → B) (l : list A) : ∀ k,
  (∀ i x, l !! i = Some x → f (k + i)%nat = Ok (g x)) →
  mapR f (seq k (length l)) = Ok (map g l).
Proof.
  induction l as [|x l IH]; intros k Hf; [done|].
  cbn [length seq mapR map].
  rewrite <- (Nat.add_0_r k) at 1. rewrite (Hf 0%nat x eq_refl).
  cbn [mbind result_bind]. rewrite (IH (S k)); [done|].
  intros i y Hy. rewrite <- (Hf (S i) y Hy). f_equal. lia.
Qed.

Lemma mapR_seq_fails {B} (f : nat → result B) e n : ∀ k j,
  (∀ i, (i < j)%nat → ∃ b, f (k + i)%nat = Ok b) →
  (j < n)%nat → f (k + j)%nat = Err e →
  mapR f (seq k n) = Err e.
Proof.
  induction n as [|n IH]; intros k j Hpre Hj He; [lia|].
  cbn [seq mapR]. destruct j as [|j].
  - rewrite Nat.add_0_r in He. by rewrite He.
  - destruct (Hpre 0%nat ltac:(lia)) as [b Hb]. rewrite Nat.add_0_r in Hb.
    rewrite Hb. cbn [mbind result_bind].
    rewrite (IH (S k) j); [done| |lia|].
    + intros i Hi. destruct (Hpre (S i) ltac:(lia)) as [b' Hb'].
      exists b'. rewrite <- Hb'. f_equal. lia.
    + rewrite <- He. f_equal. lia.
Qed.

Lemma stack_layer (kvs : list (NdArray * NdArray)) i kv :
  kvs !! i = Some kv → a_shape kv.1 = a_shape kv.2 →
  (layer ← py_getitem (PTuple (map key_value kvs)) i;
   key ← py_getitem layer 0;
   key ← unsqueeze0 key;
   layer ← py_getitem (PTuple (map key_value kvs)) i;
   value ← py_getitem layer 1;
   value ← unsqueeze0 value;
   torch_cat0 key value) = Ok (stacked kv).
Proof.
  intros Hkv Hshape. cbn [py_getitem]. unfold getitem.
  rewrite list_lookup_fmap, Hkv. cbn.
  unfold torch_cat0. cbn [a_shape a_data].
  rewrite Hshape, bool_decide_eq_true_2 by done.
  unfold stacked. rewrite Hshape. destruct (a_shape kv.2); done.
Qed.

(** When every layer comes as a (key, value) pair of one shape and there are
    [num_layer] of them, [post_process] returns the first output together
    with one tensor per layer: key and value stacked along a new first
    dimension.  Further outputs are dropped, and a second [post_process]
    changes nothing. *)
Theorem post_process_stacks_key_value r0 (kvs : list (NdArray * NdArray)) rest
    num_layer :
  kvs ≠ [] → num_layer = Z.of_nat (length kvs) →
  Forall (λ kv, a_shape kv.1 = a_shape kv.2) kvs →
  post_process (PTuple (r0 :: PTuple (map key_value kvs) :: rest)) num_layer
  = Ok (PTuple [r0; PTuple (map (λ kv, PTensor (stacked kv)) kvs)])
  ∧ post_process (PTuple [r0; PTuple (map (λ kv, PTensor (stacked kv)) kvs)])
      num_layer
    = Ok (PTuple [r0; PTuple (map (λ kv, PTensor (stacked kv)) kvs)]).
Proof.
  intros Hne -> Hshapes. split.
  - unfold post_process. cbn [py_getitem getitem lookup list_lookup mbind result_bind].
    destruct kvs as [|kv0 kvs']; [done|]. set (kvs := kv0 :: kvs') in *.
    cbn [map getitem lookup list_lookup key_value is_sequence mbind result_bind py_len].
    rewrite length_map, Z.eqb_refl. cbn [mbind result_bind mret result_ret length].
    rewrite Nat2Z.id.
    rewrite (mapR_seq_lookup _ stacked kvs 0).
    + cbn [mbind result_bind mret result_ret]. by rewrite <- list_fmap_compose.
    + intros i kv Hkv. rewrite Nat.add_0_l.
      apply (stack_layer kvs i kv Hkv).
      rewrite Forall_forall in Hshapes. apply Hshapes.
      by eapply list_elem_of_lookup_2.
  - destruct kvs as [|kv0 kvs']; [done|]. done.
Qed.

Lemma post_process_stacks_key_value_witness :
  post_process
    (PTuple [PTensor example_output;
             PTuple (map key_value [(example_reference, example_reference)]);
             PTensor example_output]) 1
  = Ok (PTuple [PTensor example_output;
                PTuple (map (λ kv, PTensor (stacked kv))
                          [(example_reference, example_reference)])])
  ∧ post_process
      (PTuple [PTensor example_output;
               PTuple (map (λ kv, PTensor (stacked kv))
                         [(example_reference, example_reference)])]) 1
    = Ok (PTuple [PTensor example_output;
                  PTuple (map (λ kv, PTensor (stacked kv))
                            [(example_reference, example_reference)])]).
Proof.
  apply (post_process_stacks_key_value (PTensor example_output)
           [(example_reference, example_reference)] [PTensor example_output] 1).
  - discriminate.
  - reflexivity.
  - by repeat constructor.
Defined.

(** [post_process] raises IndexError when the model returns no per-layer
    output; with (key, value) pairs it raises AssertionError when their number
    differs from [num_layer] or the first is not a pair, and RuntimeError at
    the first layer whose key and value differ in shape. *)
Theorem post_process_raises r0 rest num_layer :
  post_process (PTuple (r0 :: PTuple [] :: rest)) num_layer = Err IndexError
  ∧ (∀ items layers,
       Z.of_nat (S (length layers)) ≠ num_layer ∨ length items ≠ 2%nat →
       post_process (PTuple (r0 :: PTuple (PTuple items :: layers) :: rest))
         num_layer = Err AssertionError)
  ∧ (∀ (kvs : list (NdArray * NdArray)) j kv,
       num_layer = Z.of_nat (length kvs) →
       kvs !! j = Some kv →
       Forall (λ kv, a_shape kv.1 = a_shape kv.2) (take j kvs) →
       a_shape kv.1 ≠ a_shape kv.2 →
       post_process (PTuple (r0 :: PTuple (map key_value kvs) :: rest)) num_layer
       = Err RuntimeError).
Proof.
  split; [done|]. split.
  - intros items layers Hbad. unfold post_process.
    cbn [py_getitem getitem lookup list_lookup mbind result_bind is_sequence
         py_len length].
    destruct (Z.of_nat (S (length layers)) =? num_layer) eqn:E.
    + apply Z.eqb_eq in E. destruct Hbad as [Hbad | Hbad]; [done|].
      cbn [mbind result_bind mret result_ret].
      replace (Z.of_nat (length items) =? 2) with false; [done|].
      symmetry. apply Z.eqb_neq. lia.
    + done.
  - intros kvs j kv -> Hkv Hpre Hbad. unfold post_process.
    cbn [py_getitem getitem lookup list_lookup mbind result_bind].
    destruct kvs as [|kv0 kvs']; [done|]. set (kvs := kv0 :: kvs') in *.
    cbn [map getitem lookup list_lookup key_value is_sequence mbind result_bind py_len].
    rewrite length_map, Z.eqb_refl. cbn [mbind result_bind mret result_ret length].
    rewrite Nat2Z.id.
    rewrite (mapR_seq_fails _ RuntimeError (length kvs) 0 j); [done| | |].
    + intros i Hi. rewrite Nat.add_0_l.
      destruct (lookup_lt_is_Some_2 kvs i) as [kvi Hkvi].
      { apply lookup_lt_Some in Hkv. lia. }
      exists (stacked kvi). apply (stack_layer kvs i kvi Hkvi).
      rewrite Forall_forall in Hpre. apply Hpre.
      apply (list_elem_of_lookup_2 _ i). by rewrite lookup_take_lt.
    + by apply lookup_lt_Some in Hkv.
    + rewrite Nat.add_0_l. cbn [py_getitem]. unfold getitem.
      rewrite list_lookup_fmap, Hkv. cbn.
      unfold torch_cat0. cbn [a_shape a_data].
      rewrite bool_decide_eq_false_2 by done.
      destruct (a_shape kv.1), (a_shape kv.2); done.
Qed.

Lemma post_process_raises_witness :
  post_process (PTuple [PTensor example_output; PTuple []]) 1 = Err IndexError
  ∧ post_process
      (PTuple [PTensor example_output;
               PTuple [PTuple [PTensor example_output; PTensor example_output]]])
      2 = Err AssertionError
  ∧ post_process
      (PTuple [PTensor example_output;
               PTuple (map key_value [(example_output, example_reference)])])
      1 = Err RuntimeError.
Proof.
  destruct (post_process_raises (PTensor example_output) [] 1) as (H1 & _).
  destruct (post_process_raises (PTensor example_output) [] 2) as (_ & H2 & _).
  destruct (post_process_raises (PTensor example_output) [] 1) as (_ & _ & H3).
  split; [exact H1|]. split.
  - apply (H2 [PTensor example_output; PTensor example_output] []). left. simpl. lia.
  - apply (H3 [(example_output, example_reference)] 0%nat
             (example_output, example_reference)).
    + reflexivity.
    + reflexivity.
    + constructor.
    + discriminate.
Defined.

(** ** Compositions: growing, reading back and binding the synthesized inputs *)

Lemma auto_increase_bases (shapes : dict (list Z)) keys :
  ∀ (buffers buffers' : gmap string StoredTensor) w w',
  foldM (λ output_buffers key,
           py_assert (bool_decide (is_Some (output_buffers !! key)));;
           buffer ← lift (from_option Ok (Err KeyError) (output_buffers !! key));
           shape ← lift (dict_getitem shapes key);
           if np_gt (numpy_prod shape) (nelement buffer) then
             t ← torch_empty (numpy_prod shape) (s_dtype buffer) (s_device buffer);
             mret (<[key := t]> output_buffers)
           else mret output_buffers)
        buffers keys w = Ok (buffers', w') →
  (∀ name buf, buffers !! name = Some buf → s_base buf < w_next w) →
  ∀ name buf, buffers' !! name = Some buf → s_base buf < w_next w'.
Proof.
  induction keys as [|k keys IH]; intros buffers buffers' w w' Hrun Hb.
  - injection Hrun as <- <-. done.
  - cbn [foldM] in Hrun. apply bind_inv in Hrun as (b1 & w1 & Hstep & Hrun).
    apply (IH b1 buffers' w1 w' Hrun). clear IH Hrun.
    apply bind_inv in Hstep as ([] & wa & Ha & Hstep).
    unfold py_assert in Ha. destruct (bool_decide _); [|done]. injection Ha as <-.
    apply bind_inv in Hstep as (b0 & wb & Hbuf & Hstep).
    destruct (buffers !! k) as [b0'|] eqn:Hk; [|done]. injection Hbuf as -> ->.
    apply bind_inv in Hstep as (shape & wc & Hshape & Hstep).
    unfold lift in Hshape. destruct (dict_getitem shapes k) as [sh|]; [|done].
    injection Hshape as -> ->.
    destruct (np_gt (numpy_prod shape) (nelement b0)).
    + apply bind_inv in Hstep as (t & wd & Ht & Hret). injection Hret as <- <-.
      unfold torch_empty in Ht. destruct (numpy_prod shape) as [z|q]; [|done].
      destruct (z <? 0); [done|]. injection Ht as <- <-.
      intros name buf Hname. cbn.
      apply lookup_insert_Some in Hname as [[_ <-] | [_ Hname]]; cbn; [lia|].
      specialize (Hb name buf Hname). lia.
    + injection Hstep as <- <-. done.
Qed.

Lemma auto_increase_readable (output_buffers : gmap string StoredTensor)
    (output_shapes : dict (list Z)) w :
  NoDup (output_shapes.*1) →
  (∀ key shape, dict_get output_shapes key = Some shape →
     shape_ok shape
     ∧ ∃ buf len, output_buffers !! key = Some buf ∧ s_size buf = [len]) →
  (∀ name buf, output_buffers !! name = Some buf → s_base buf < w_next w) →
  ∃ buffers' w',
    auto_increase_buffer_size output_buffers output_shapes w = Ok (buffers', w')
    ∧ (∀ name, name ∈ output_shapes.*1 → readable buffers' output_shapes name)
    ∧ (∀ name buf, buffers' !! name = Some buf → s_base buf < w_next w').
Proof.
  intros Hnd Hok Halloc.
  destruct (auto_increase_loop output_shapes (output_shapes.*1) output_buffers w Hnd)
    as (buffers' & w' & Hrun & _ & _ & Hin).
  { intros key Hkey. apply dict_get_elem_of in Hkey as [shape Hshape].
    destruct (Hok key shape Hshape) as [? (buf & ? & ? & _)]. by exists shape, buf. }
  exists buffers', w'. split; [exact Hrun|]. split.
  - intros name Hname. pose proof Hname as Hname'.
    apply dict_get_elem_of in Hname' as [shape Hshape].
    destruct (Hok name shape Hshape) as [Hshok (buf & len & Hbuf & Hflat)].
    pose proof (Hin name shape buf Hname Hshape Hbuf) as Hg. unfold grown in Hg.
    destruct (nelement buf <? numel shape) eqn:Hcmp.
    + destruct Hg as (b & Hb & Hsz & _). exists b, shape, (numel shape).
      repeat split; try done; try apply Hshok; lia.
    + apply Z.ltb_ge in Hcmp. exists buf, shape, len.
      unfold nelement in Hcmp. rewrite Hflat in Hcmp. simpl in Hcmp.
      repeat split; try done; try apply Hshok; lia.
  - exact (auto_increase_bases output_shapes _ _ _ _ _ Hrun Halloc).
Qed.

(** After [auto_increase_buffer_size] the outputs can be read back: given a
    flat buffer for every name of [output_shapes], every buffer it returns has
    room for its shape, and [get_outputs_from_io_binding_buffer] returns one
    output of that shape for every output of a session whose outputs are
    named in [output_shapes]. *)
Theorem auto_increase_then_read_back (ort_session : InferenceSession)
    (output_buffers : gmap string StoredTensor) (output_shapes : dict (list Z))
    (return_numpy : bool) w :
  NoDup (output_shapes.*1) →
  (∀ key shape, dict_get output_shapes key = Some shape →
     shape_ok shape
     ∧ ∃ buf len, output_buffers !! key = Some buf ∧ s_size buf = [len]) →
  (∀ name buf, output_buffers !! name = Some buf → s_base buf < w_next w) →
  (∀ name, name ∈ get_outputs ort_session → name ∈ output_shapes.*1) →
  ∃ buffers' w' outs w'',
    auto_increase_buffer_size output_buffers output_shapes w = Ok (buffers', w')
    ∧ (∀ name, name ∈ output_shapes.*1 → readable buffers' output_shapes name)
    ∧ get_outputs_from_io_binding_buffer ort_session (Some buffers')
        output_shapes return_numpy w' = Ok (outs, w'')
    ∧ Forall2 (λ name out, dict_get output_shapes name = Some (s_size out))
        (get_outputs ort_session) outs.
Proof.
  intros Hnd Hok Halloc Hsub.
  destruct (auto_increase_readable output_buffers output_shapes w Hnd Hok Halloc)
    as (buffers' & w' & Hrun & Hread & Hbases).
  destruct (read_back_loop buffers' output_shapes return_numpy
              (get_outputs ort_session) w' Hbases)
    as (outs & w'' & Hback & _ & _ & Hall & _).
  { intros name Hname. by apply Hread, Hsub. }
  exists buffers', w', outs, w''. split; [exact Hrun|]. split; [exact Hread|].
  split; [exact Hback|].
  eapply Forall2_impl; [exact Hall|].
  intros name out (buf & shape & _ & Hshape & Hsize & _). by rewrite Hsize.
Qed.

Lemma auto_increase_then_read_back_witness :
  ∃ buffers' w' outs w'',
    auto_increase_buffer_size example_buffers example_shapes stored_world
    = Ok (buffers', w')
    ∧ (∀ name, name ∈ example_shapes.*1 → readable buffers' example_shapes name)
    ∧ get_outputs_from_io_binding_buffer two_output_session (Some buffers')
        example_shapes true w' = Ok (outs, w'')
    ∧ Forall2 (λ name out, dict_get example_shapes name = Some (s_size out))
        (get_outputs two_output_session) outs.
Proof.
  apply (auto_increase_then_read_back two_output_session example_buffers
           example_shapes true stored_world).
  - apply (bool_decide_unpack _). by vm_compute.
  - intros key shape H. unfold example_shapes in H. simpl in H.
    repeat case_decide; simplify_eq.
    + split; [split; [done|split; [repeat constructor; lia | by vm_compute]]|].
      by eexists _, _.
    + split; [split; [done|split; [repeat constructor; lia | by vm_compute]]|].
      by eexists _, _.
  - intros name buf H. unfold example_buffers in H.
    apply lookup_insert_Some in H as [[_ <-] | [_ H]]; [simpl; lia|].
    apply lookup_insert_Some in H as [[_ <-] | [_ H]]; [simpl; lia|].
    by rewrite lookup_empty in H.
  - intros name H. exact H.
Defined.

(** [auto_increase_buffer_size] raises AssertionError at the first name of
    [output_shapes] that has no buffer. *)
Theorem auto_increase_buffer_size_missing_buffer
    (output_buffers : gmap string StoredTensor) pre key shape rest w :
  NoDup ((pre ++ (key, shape) :: rest).*1) →
  (∀ k sh, (k, sh) ∈ pre → shape_ok sh ∧ is_Some (output_buffers !! k)) →
  output_buffers !! key = None →
  auto_increase_buffer_size output_buffers (pre ++ (key, shape) :: rest) w
  = Err AssertionError.
Proof.
  intros Hnd Hpre Hkey. unfold auto_increase_buffer_size.
  set (shapes := pre ++ (key, shape) :: rest) in *.
  assert (shapes.*1 = pre.*1 ++ key :: rest.*1) as Hkeys
    by (unfold shapes; by rewrite fmap_app).
  pose proof Hnd as Hndall. rewrite Hkeys in Hnd. rewrite Hkeys, foldM_app.
  apply NoDup_app in Hnd as (Hndpre & Hdisj & _).
  destruct (auto_increase_loop shapes (pre.*1) output_buffers w Hndpre)
    as (b1 & w1 & Hrun & _ & Hout & _).
  { intros k Hk. apply list_elem_of_fmap in Hk as ([k' sh] & -> & Hin). simpl.
    destruct (Hpre k' sh Hin) as [Hok [buf Hbuf]]. exists sh, buf.
    split; [|done]. apply dict_get_Some_elem; [done|].
    unfold shapes. apply elem_of_app. by left. }
  rewrite (bind_run _ _ _ _ _ Hrun). cbn [foldM]. do 2 apply bind_err.
  rewrite Hout, Hkey; [done|]. intros Hin. apply (Hdisj key Hin). left.
Qed.

Lemma auto_increase_buffer_size_missing_buffer_witness :
  auto_increase_buffer_size example_buffers
    ([("logits"%string, [2; 2; 3])] ++ ("present_1"%string, [2; 1; 2; 2; 2]) :: [])
    world0 = Err AssertionError.
Proof.
  apply (auto_increase_buffer_size_missing_buffer example_buffers
           [("logits"%string, [2; 2; 3])] "present_1"%string [2; 1; 2; 2; 2] []
           world0).
  - apply (bool_decide_unpack _). by vm_compute.
  - intros k sh H. apply list_elem_of_singleton in H as [= -> ->].
    split; [|by eexists]. split; [done|]. split; [repeat constructor; lia | by vm_compute].
  - reflexivity.
Defined.



Lemma torch_randint_ptr low high rows cols dev w :
  0 < rows → 0 < cols → low < high → 0 < w_next w →
  ∃ ids w', torch_randint low high rows cols dev w = Ok (ids, w')
    ∧ t_contiguous ids = true ∧ t_ptr ids ≠ 0 ∧ 0 < w_next w'.
Proof.
  intros Hr Hc Hlh Hnext. unfold torch_randint.
  rewrite (bind_run _ _ _ _ _ (check_shape_ok [rows; cols] w
             ltac:(repeat constructor; lia))).
  apply Z.leb_gt in Hlh as ->.
  eexists _, _. split; [done|]. cbn. split; [done|].
  unfold data_ptr_of.
  replace (rows * cols =? 0) with false by (symmetry; apply Z.eqb_neq; nia).
  lia.
Qed.

Lemma torch_ones_ptr rows cols dt dev w :
  0 < rows → 0 < cols → 0 < w_next w →
  ∃ m w', torch_ones rows cols dt dev w = Ok (m, w')
    ∧ t_size m = [rows; cols]
    ∧ t_contiguous m = true ∧ t_ptr m ≠ 0 ∧ 0 < w_next w'.
Proof.
  intros Hr Hc Hnext. unfold torch_ones.
  rewrite (bind_run _ _ _ _ _ (check_shape_ok [rows; cols] w
             ltac:(repeat constructor; lia))).
  eexists _, _. split; [done|]. cbn. split; [done|]. split; [done|].
  unfold data_ptr_of.
  replace (rows * cols =? 0) with false by (symmetry; apply Z.eqb_neq; nia).
  lia.
Qed.

Lemma random_randint_next a b w :
  a <= b → ∃ p w', random_randint a b w = Ok (p, w')
                 ∧ a <= p <= b ∧ w_next w' = w_next w.
Proof.
  intros Hab. unfold random_randint.
  replace (b <? a) with false by (symmetry; apply Z.ltb_ge; lia).
  eexists _, _. split; [done|]. split; [|done].
  pose proof (Z.mod_pos_bound (hd 0 (rng_src (w_rng w) (rng_pos (w_rng w) + 0)%nat :: []))
                (b - a + 1)). simpl in *. lia.
Qed.

Lemma setitem_column_keeps (t : FloatMatrix) col v w :
  0 <= col < ncols t →
  ∃ t', setitem_column t col v w = Ok (t', w)
    ∧ t_size t' = t_size t
    ∧ t_contiguous t' = t_contiguous t ∧ t_ptr t' = t_ptr t.
Proof.
  intros Hc. unfold setitem_column.
  replace (col <? 0) with false by (symmetry; apply Z.ltb_ge; lia).
  replace ((0 <=? col) && (col <? ncols t)) with true
    by (symmetry; apply andb_true_iff; split; [apply Z.leb_le | apply Z.ltb_lt]; lia).
  by eexists.
Qed.

Lemma attention_mask_ptr rows total dt dev w :
  0 < rows → 0 < total → 0 < w_next w →
  ∃ m w',
    (torch_ones rows total dt dev ≫= λ m,
       if 2 <=? total
       then random_randint 0 (total - 1) ≫= λ padding_position,
              setitem_column m padding_position 0%Q ≫= λ m', mret (Some m')
       else mret (Some m)) w = Ok (Some m, w')
    ∧ t_size m = [rows; total]
    ∧ t_contiguous m = true ∧ t_ptr m ≠ 0 ∧ 0 < w_next w'.
Proof.
  intros Hr Ht Hnext.
  destruct (torch_ones_ptr rows total dt dev w Hr Ht Hnext)
    as (m & w1 & Hm & Hsz & Hc & Hp & Hn1).
  rewrite (bind_run _ _ _ _ _ Hm).
  destruct (2 <=? total) eqn:Htot.
  - apply Z.leb_le in Htot.
    destruct (random_randint_next 0 (total - 1) w1 ltac:(lia))
      as (p & w2 & Hrand & Hrange & Hn2).
    rewrite (bind_run _ _ _ _ _ Hrand).
    destruct (setitem_column_keeps m p 0%Q w2) as (m' & Hm' & Hsz' & Hc' & Hp').
    { unfold ncols. rewrite Hsz. simpl. lia. }
    rewrite (bind_run _ _ _ _ _ Hm').
    exists m', w2. split; [done|]. repeat split; try congruence; lia.
  - by exists m, w1.
Qed.

Lemma sliced_view_contiguity rows cols past :
  0 < rows → 0 < cols → 0 <= past →
  contiguous2 rows cols (past + cols) 1 = (rows =? 1) || (past =? 0).
Proof.
  intros Hr Hc Hp. unfold contiguous2.
  replace (rows * cols =? 0) with false by (symmetry; apply Z.eqb_neq; nia).
  rewrite orb_true_r, andb_true_l.
  destruct (rows =? 1); [done|]. cbn [orb].
  destruct (cols =? 1) eqn:E.
  - apply Z.eqb_eq in E. subst cols.
    destruct (Z.eqb_spec (past + 1) 1), (Z.eqb_spec past 0); lia || done.
  - destruct (Z.eqb_spec (past + cols) cols), (Z.eqb_spec past 0); lia || done.
Qed.

Lemma deduce_position_ids_ptr (m : FloatMatrix) rows cols past w :
  t_size m = [rows; past + cols] → 0 < rows → 0 < cols → 0 <= past →
  0 < w_next w →
  ∃ p w', deduce_position_ids m past w = Ok (p, w')
    ∧ t_contiguous p = (rows =? 1) || (past =? 0) ∧ t_ptr p ≠ 0.
Proof.
  intros Hsz Hr Hc Hp Hnext. unfold deduce_position_ids, nrows, ncols.
  rewrite Hsz. cbn [nth].
  assert (slice_start (past + cols) past = past) as ->.
  { unfold slice_start.
    replace (past <? 0) with false by (symmetry; apply Z.ltb_ge; lia). lia. }
  replace (past + cols - past) with cols by lia.
  eexists _, _. split; [done|]. cbn. split.
  - by apply sliced_view_contiguity.
  - unfold data_ptr_of.
    replace (rows * cols =? 0) with false by (symmetry; apply Z.eqb_neq; nia).
    lia.
Qed.

Lemma get_dummy_inputs_pointers
    batch_size past_sequence_length sequence_length num_attention_heads
    hidden_size num_layer vocab_size dev (float16 has_position_ids : bool) w :
  valid_params batch_size past_sequence_length sequence_length
    num_attention_heads hidden_size vocab_size →
  0 < w_next w →
  ∃ inputs w' pasts m,
    get_dummy_inputs batch_size past_sequence_length sequence_length
      num_attention_heads hidden_size num_layer vocab_size dev float16
      has_position_ids true w = Ok (inputs, w')
    ∧ t_contiguous (input_ids inputs) = true ∧ t_ptr (input_ids inputs) ≠ 0
    ∧ past inputs = Some pasts
    ∧ Forall (λ past_i, t_contiguous past_i = true) pasts
    ∧ attention_mask inputs = Some m
    ∧ t_contiguous m = true ∧ t_ptr m ≠ 0
    ∧ (if has_position_ids
       then ∃ p, position_ids inputs = Some p ∧ t_ptr p ≠ 0
              ∧ t_contiguous p = (batch_size =? 1) || (past_sequence_length =? 0)
       else position_ids inputs = None).
Proof.
  intros [Hb Hp Hs Hh Hhid Hvoc] Hnext. unfold get_dummy_inputs.
  rewrite (bind_run _ _ _ _ _ (int_div_run hidden_size num_attention_heads w
             ltac:(lia))).
  destruct (repeatM_inv
              (torch_rand [2; batch_size; num_attention_heads; past_sequence_length;
                           Z.quot hidden_size num_attention_heads]
                 (if float16 then Float16 else Float32) dev)
              (cache_tensor [2; batch_size; num_attention_heads; past_sequence_length;
                             Z.quot hidden_size num_attention_heads]
                 (if float16 then Float16 else Float32) dev)
              (λ w, 0 < w_next w) (Z.to_nat num_layer)) with (w := w)
    as (pasts & w1 & Hpast & _ & Hall & Hn1); [|done|].
  { intros w0 Hw0. apply torch_rand_run; [|done].
    repeat constructor; try lia. by apply Z.quot_pos; lia. }
  rewrite (bind_run _ _ _ _ _ Hpast).
  destruct (torch_randint_ptr 0 (vocab_size - 1) batch_size sequence_length dev w1
              ltac:(lia) ltac:(lia) ltac:(lia) Hn1)
    as (ids & w2 & Hids & Hidc & Hidp & Hn2).
  rewrite (bind_run _ _ _ _ _ Hids).
  destruct (attention_mask_ptr batch_size (past_sequence_length + sequence_length)
              (if float16 then Float16 else Float32) dev w2 ltac:(lia) ltac:(lia) Hn2)
    as (m & w3 & Hm & Hmsz & Hmc & Hmp & Hn3).
  rewrite (bind_run _ _ _ _ _ Hm).
  assert (Forall (λ past_i : FloatTensor, t_contiguous past_i = true) pasts) as Hcont.
  { eapply Forall_impl; [exact Hall|]. by intros t (_ & _ & _ & Hc & _). }
  destruct has_position_ids.
  - destruct (deduce_position_ids_ptr m batch_size sequence_length
                past_sequence_length w3 Hmsz ltac:(lia) ltac:(lia) ltac:(lia) Hn3)
      as (p & w4 & Hp4 & Hpc & Hpp).
    rewrite bind_assoc, (bind_run _ _ _ _ _ Hp4), ret_run.
    eexists _, _, pasts, m. split; [done|]. cbn.
    repeat split; try done. by exists p.
  - rewrite ret_run. eexists _, _, pasts, m. split; [done|]. cbn.
    repeat split; done.
Qed.

Lemma prepare_io_binding_refuses_view (ort_session : InferenceSession)
    (input_ids : LongMatrix) (p : LongMatrix) (m : FloatMatrix)
    (past : list FloatTensor)
    (output_buffers : gmap string StoredTensor) (output_shapes : dict (list Z))
    first first_buffer w :
  t_contiguous input_ids = true → t_ptr input_ids ≠ 0 →
  Forall (λ past_i, t_contiguous past_i = true) past →
  t_contiguous m = true → t_ptr m ≠ 0 →
  t_contiguous p = false →
  get_outputs ort_session !! 0%nat = Some first →
  output_buffers !! first = Some first_buffer →
  prepare_io_binding ort_session input_ids (Some p) (Some m) (Some past)
    (Some output_buffers) output_shapes w = Err AssertionError.
Proof.
  intros Hc Hptr Hpast Hmc Hmp Hpc Hfirst Hfbuf. unfold prepare_io_binding.
  rewrite (bind_run _ _ _ _ _ (py_assert_run _ w Hc)).
  rewrite (bind_run _ _ _ _ _ (bind_input_run _ _ _ _ _ _ _ w Hptr)).
  rewrite (bind_run _ _ _ _ _ (lift_run (getitem (get_outputs ort_session) 0) first w
             ltac:(unfold getitem; by rewrite Hfirst))).
  rewrite (bind_run _ _ _ _ _ (lift_run _ output_buffers w eq_refl)).
  rewrite (bind_run _ _ _ _ _ (lift_run (from_option Ok (Err KeyError)
             (output_buffers !! first)) first_buffer w ltac:(by rewrite Hfbuf))).
  cbv zeta.
  assert (Forall (λ ip : nat * FloatTensor, t_contiguous ip.2 = true) (imap pair past))
    as Hpast'.
  { apply Forall_forall. intros ip (i & q & -> & Hq)%elem_of_lookup_imap_1. simpl.
    rewrite Forall_forall in Hpast. apply Hpast. by eapply list_elem_of_lookup_2. }
  rewrite (bind_run _ _ _ _ _ (bind_past_loop input_ids _ (imap pair past) _ w
             Hptr Hpast')).
  rewrite bind_assoc, (bind_run _ _ _ _ _ (py_assert_run _ w Hmc)).
  rewrite (bind_run _ _ _ _ _ (bind_input_run _ _ _ _ _ _ _ w Hmp)).
  do 2 apply bind_err. by rewrite Hpc.
Qed.

(** What [prepare_io_binding] makes of the inputs of [get_dummy_inputs]: the
    position ids are a view of the running sums that starts at column
    cache_len, which is contiguous only for a single row or an empty cache.
    With position ids, a batch of more than one row and a non-empty cache the
    binding step raises AssertionError; in every other case it binds the
    inputs. *)
Theorem prepare_io_binding_on_dummy_inputs (ort_session : InferenceSession)
    (output_buffers : gmap string StoredTensor) (output_shapes : dict (list Z))
    batch_size past_sequence_length sequence_length num_attention_heads
    hidden_size num_layer vocab_size dev (float16 has_position_ids : bool) w :
  valid_params batch_size past_sequence_length sequence_length
    num_attention_heads hidden_size vocab_size →
  0 < w_next w →
  get_outputs ort_session ≠ [] →
  (∀ name, name ∈ get_outputs ort_session →
     ∃ buf shape, output_buffers !! name = Some buf
       ∧ dict_get output_shapes name = Some shape ∧ data_ptr buf ≠ 0) →
  ∃ inputs w',
    get_dummy_inputs batch_size past_sequence_length sequence_length
      num_attention_heads hidden_size num_layer vocab_size dev float16
      has_position_ids true w = Ok (inputs, w')
    ∧ if has_position_ids && (1 <? batch_size) && (0 <? past_sequence_length)
      then prepare_io_binding ort_session (input_ids inputs)
             (position_ids inputs) (attention_mask inputs) (past inputs)
             (Some output_buffers) output_shapes w' = Err AssertionError
      else ∃ binding w'',
             prepare_io_binding ort_session (input_ids inputs)
               (position_ids inputs) (attention_mask inputs) (past inputs)
               (Some output_buffers) output_shapes w' = Ok (binding, w'').
Proof.
  intros Hv Hnext Hne Houts.
  destruct (get_dummy_inputs_pointers batch_size past_sequence_length
              sequence_length num_attention_heads hidden_size num_layer
              vocab_size dev float16 has_position_ids w Hv Hnext)
    as (inputs & w' & pasts & m & Hrun & Hidc & Hidp & Hpast & Hcont & Hmask
        & Hmc & Hmp & Hpos).
  exists inputs, w'. split; [exact Hrun|].
  destruct (get_outputs ort_session) as [|first names] eqn:Hnames; [done|].
  destruct (Houts first ltac:(left)) as (fbuf & fshape & Hfbuf & _).
  destruct Hv as [Hb Hp _ _ _ _].
  destruct has_position_ids; cbn [andb].
  - destruct Hpos as (p & Hpids & Hpp & Hpc). rewrite Hpids, Hmask, Hpast.
    destruct ((1 <? batch_size) && (0 <? past_sequence_length)) eqn:Hcase.
    + apply andb_true_iff in Hcase as [Hb1%Z.ltb_lt Hp1%Z.ltb_lt].
      apply (prepare_io_binding_refuses_view ort_session (input_ids inputs) p m
               pasts output_buffers output_shapes first fbuf w'); try done.
      * rewrite Hpc. apply orb_false_iff. split; apply Z.eqb_neq; lia.
      * by rewrite Hnames.
    + destruct (prepare_io_binding_run ort_session (input_ids inputs) (Some p)
                  (Some m) (Some pasts) output_buffers output_shapes first fbuf w')
        as (binding & w'' & Hbind & _); try done.
      * intros ? [= <-]. done.
      * intros ? [= <-]. split; [|done]. rewrite Hpc.
        apply andb_false_iff in Hcase as [Hc | Hc].
        -- apply Z.ltb_ge in Hc. replace batch_size with 1 by lia. done.
        -- apply Z.ltb_ge in Hc. replace past_sequence_length with 0 by lia.
           apply orb_true_r.
      * by rewrite Hnames.
      * by rewrite Hnames.
      * by exists binding, w''.
  - rewrite Hpos, Hmask, Hpast.
    destruct (prepare_io_binding_run ort_session (input_ids inputs) None
                (Some m) (Some pasts) output_buffers output_shapes first fbuf w')
      as (binding & w'' & Hbind & _); try done.
    + intros ? [= <-]. done.
    + by rewrite Hnames.
    + by rewrite Hnames.
    + by exists binding, w''.
Qed.

Lemma prepare_io_binding_on_dummy_inputs_witness :
  ∃ inputs w',
    get_dummy_inputs 2 3 2 2 4 2 50 Cpu false true true world0 = Ok (inputs, w')
    ∧ if true && (1 <? 2) && (0 <? 3)
      then prepare_io_binding two_output_session (input_ids inputs)
             (position_ids inputs) (attention_mask inputs) (past inputs)
             (Some example_buffers) fitting_shapes w' = Err AssertionError
      else ∃ binding w'',
             prepare_io_binding two_output_session (input_ids inputs)
               (position_ids inputs) (attention_mask inputs) (past inputs)
               (Some example_buffers) fitting_shapes w' = Ok (binding, w'').
Proof.
  apply (prepare_io_binding_on_dummy_inputs two_output_session example_buffers
           fitting_shapes 2 3 2 2 4 2 50 Cpu false true world0).
  - constructor; lia.
  - simpl. lia.
  - discriminate.
  - intros name H. simpl in H.
    apply elem_of_cons in H as [-> | H]; [|apply elem_of_cons in H as [-> | H]].
    + eexists _, _. split; [reflexivity|]. split; [reflexivity|]. by vm_compute.
    + eexists _, _. split; [reflexivity|]. split; [reflexivity|]. by vm_compute.
    + by apply elem_of_nil in H.
Defined.

(** ** Binding errors and the inputs of the two engines *)

(** What makes [prepare_io_binding] raise before anything is bound to an
    output, in the order of the checks: input_ids that is not contiguous
    (AssertionError) or reports the null pointer (the binding refuses it), a
    session without outputs (IndexError), no buffers (TypeError), no buffer
    for the first output (KeyError). *)
Theorem prepare_io_binding_raises (ort_session : InferenceSession)
    (input_ids : LongMatrix) (position_ids : option LongMatrix)
    (attention_mask : option FloatMatrix) (past : option (list FloatTensor))
    (output_buffers : option (gmap string StoredTensor))
    (output_shapes : dict (list Z)) w :
  (t_contiguous input_ids = false →
   prepare_io_binding ort_session input_ids position_ids attention_mask past
     output_buffers output_shapes w = Err AssertionError)
  ∧ (t_contiguous input_ids = true → t_ptr input_ids = 0 →
     prepare_io_binding ort_session input_ids position_ids attention_mask past
       output_buffers output_shapes w = Err RuntimeError)
  ∧ (t_contiguous input_ids = true → t_ptr input_ids ≠ 0 →
     (get_outputs ort_session = [] →
      prepare_io_binding ort_session input_ids position_ids attention_mask past
        output_buffers output_shapes w = Err IndexError)
     ∧ (get_outputs ort_session ≠ [] → output_buffers = None →
        prepare_io_binding ort_session input_ids position_ids attention_mask past
          output_buffers output_shapes w = Err TypeError)
     ∧ (∀ first buffers, get_outputs ort_session !! 0%nat = Some first →
          output_buffers = Some buffers → buffers !! first = None →
          prepare_io_binding ort_session input_ids position_ids attention_mask
            past output_buffers output_shapes w = Err KeyError)).
Proof.
  split; [|split].
  - intros Hc. unfold prepare_io_binding. by rewrite Hc.
  - intros Hc Hp. unfold prepare_io_binding.
    rewrite (bind_run _ _ _ _ _ (py_assert_run _ w Hc)).
    apply bind_err. unfold bind_input. by rewrite Hp.
  - intros Hc Hp. split; [|split].
    + intros Hnone. unfold prepare_io_binding.
      rewrite (bind_run _ _ _ _ _ (py_assert_run _ w Hc)).
      rewrite (bind_run _ _ _ _ _ (bind_input_run _ _ _ _ _ _ _ w Hp)).
      apply bind_err. by rewrite Hnone.
    + intros Hsome ->. unfold prepare_io_binding.
      rewrite (bind_run _ _ _ _ _ (py_assert_run _ w Hc)).
      rewrite (bind_run _ _ _ _ _ (bind_input_run _ _ _ _ _ _ _ w Hp)).
      destruct (get_outputs ort_session) as [|first names]; [done|].
      rewrite (bind_run _ _ _ _ _ (lift_run (getitem (first :: names) 0) first w
                 eq_refl)).
      by apply bind_err.
    + intros first buffers Hfirst -> Hmiss. unfold prepare_io_binding.
      rewrite (bind_run _ _ _ _ _ (py_assert_run _ w Hc)).
      rewrite (bind_run _ _ _ _ _ (bind_input_run _ _ _ _ _ _ _ w Hp)).
      rewrite (bind_run _ _ _ _ _ (lift_run (getitem (get_outputs ort_session) 0)
                 first w ltac:(unfold getitem; by rewrite Hfirst))).
      rewrite (bind_run _ _ _ _ _ (lift_run _ buffers w eq_refl)).
      apply bind_err. by rewrite Hmiss.
Qed.

Lemma prepare_io_binding_raises_witness :
  prepare_io_binding two_output_session example_input_ids None
    (Some example_mask) (Some [example_empty_past]) None fitting_shapes world0
  = Err TypeError
  ∧ prepare_io_binding two_output_session example_input_ids None
      (Some example_mask) (Some [example_empty_past]) (Some ∅) fitting_shapes
      world0 = Err KeyError.
Proof.
  destruct (prepare_io_binding_raises two_output_session example_input_ids None
              (Some example_mask) (Some [example_empty_past]) None
              fitting_shapes world0) as (_ & _ & H).
  destruct (prepare_io_binding_raises two_output_session example_input_ids None
              (Some example_mask) (Some [example_empty_past]) (Some ∅)
              fitting_shapes world0) as (_ & _ & H').
  split.
  - apply H; [reflexivity | simpl; lia | discriminate | reflexivity].
  - destruct H' as (_ & _ & H'); [reflexivity | simpl; lia|].
    by apply (H' "logits"%string ∅).
Defined.

#[local] Instance past_name_inj : Inj (=) (=) past_name.
Proof. intros i j H. unfold past_name in H. by apply (inj _), (inj pretty) in H. Qed.

Lemma foldl_dict_set_imap {V} (key : nat → string) (f : nat → V) n : ∀ k (d : dict V),
  Inj (=) (=) key →
  (∀ i, (k ≤ i)%nat → key i ∉ d.*1) →
  foldl (λ d i, dict_set d (key i) (f i)) d (seq k n)
  = d ++ map (λ i, (key i, f i)) (seq k n).
Proof.
  induction n as [|n IH]; intros k d Hinj Hfresh; simpl.
  - by rewrite app_nil_r.
  - rewrite dict_set_fresh by (by apply Hfresh).
    rewrite IH; [by rewrite <- app_assoc|done|].
    intros i Hik. rewrite fmap_app, elem_of_app. intros [Hi | Hi].
    + eapply Hfresh; [|done]. lia.
    + simpl in Hi. apply list_elem_of_singleton, Hinj in Hi. lia.
Qed.

Lemma foldl_dict_set_past (ps : list FloatTensor) : ∀ k (d : dict AnyTensor),
  (∀ i, (k ≤ i)%nat → past_name i ∉ d.*1) →
  foldl (λ d (ip : nat * FloatTensor), dict_set d ("past_" +:+ pretty ip.1) (FloatT ip.2))
        d (imap (λ i, pair (k + i)%nat) ps)
  = d ++ imap (λ i past_i, (past_name (k + i), FloatT past_i)) ps.
Proof.
  induction ps as [|p ps IH]; intros k d Hfresh.
  - simpl. by rewrite app_nil_r.
  - cbn [imap foldl]. rewrite Nat.add_0_r. cbn [fst snd].
    fold (past_name k). rewrite dict_set_fresh by (by apply Hfresh).
    trans ((d ++ [(past_name k, FloatT p)])
           ++ imap (λ i past_i, (past_name (S k + i), FloatT past_i)) ps).
    + rewrite <- IH.
      * f_equal. apply imap_ext. intros i x _. simpl. f_equal. lia.
      * intros i Hi. rewrite fmap_app, elem_of_app. intros [Hin | Hin].
        -- eapply Hfresh; [|done]. lia.
        -- simpl in Hin. apply list_elem_of_singleton, (inj past_name) in Hin. lia.
    + rewrite <- app_assoc. cbn [app]. do 2 f_equal.
      apply imap_ext. intros i x _. simpl. do 2 f_equal. lia.
Qed.

Lemma onnxruntime_inference_run (ort_session : InferenceSession)
    (inputs : Gpt2Inputs) w :
  onnxruntime_inference ort_session inputs w
  = (logger_debug (MsgStart "onnxruntime_inference");;
     session_run ort_session (ort_feeds inputs)) w
  ∧ NoDup (ort_feeds inputs).*1.
Proof.
  assert (∀ i, past_name i ≠ "input_ids"%string) as Hids by (intros i; discriminate).
  assert (∀ i, past_name i ≠ "attention_mask"%string) as Hmask by (intros i; discriminate).
  assert (∀ i, past_name i ≠ "position_ids"%string) as Hpos by (intros i; discriminate).
  set (d1 := [("input_ids"%string, LongT (input_ids inputs))]
             ++ imap (λ i past_i, (past_name (0 + i), FloatT past_i))
                  (default [] (past inputs))).
  assert (d1.*1 = "input_ids"%string
                  :: imap (λ i _, past_name i) (default [] (past inputs))) as Hkeys1.
  { unfold d1. rewrite fmap_app, fmap_imap. done. }
  assert (∀ k, k ∈ imap (λ i (_ : FloatTensor), past_name i) (default [] (past inputs)) →
            ∃ i, k = past_name i) as Hpastkeys.
  { intros k (i & x & -> & _)%elem_of_lookup_imap_1. by exists i. }
  split.
  - unfold onnxruntime_inference. apply bind_ext. intros _ w1. f_equal.
    unfold ort_feeds.
    assert (match past inputs with
            | Some ps =>
                foldl (λ d (ip : nat * FloatTensor),
                         dict_set d ("past_" +:+ pretty ip.1) (FloatT ip.2))
                      [("input_ids"%string, LongT (input_ids inputs))] (imap pair ps)
            | None => [("input_ids"%string, LongT (input_ids inputs))]
            end = d1) as ->.
    { unfold d1. destruct (past inputs) as [ps|]; [|done]. cbn [default from_option id].
      rewrite <- (foldl_dict_set_past ps 0).
      - done.
      - intros i _ Hin. simpl in Hin. apply list_elem_of_singleton in Hin.
        by apply Hids in Hin. }
    assert (match attention_mask inputs with
            | Some m => dict_set d1 "attention_mask" (FloatM m)
            | None => d1
            end = d1 ++ from_option (λ m, [("attention_mask"%string, FloatM m)]) []
                          (attention_mask inputs)) as ->.
    { destruct (attention_mask inputs) as [m|]; cbn [from_option].
      - apply dict_set_fresh. rewrite Hkeys1. intros [Hin | Hin]%elem_of_cons; [done|].
        apply Hpastkeys in Hin as [i Hi]. by destruct (Hmask i).
      - by rewrite app_nil_r. }
    set (d2 := d1 ++ from_option _ [] (attention_mask inputs)).
    assert (match position_ids inputs with
            | Some p => dict_set d2 "position_ids" (LongT p)
            | None => d2
            end = d2 ++ from_option (λ p, [("position_ids"%string, LongT p)]) []
                          (position_ids inputs)) as ->.
    { destruct (position_ids inputs) as [p|]; cbn [from_option].
      - apply dict_set_fresh. unfold d2. rewrite fmap_app, Hkeys1.
        intros [[Hin | Hin]%elem_of_cons | Hin]%elem_of_app.
        + done.
        + apply Hpastkeys in Hin as [i Hi]. by destruct (Hpos i).
        + destruct (attention_mask inputs); simpl in Hin.
          * by apply list_elem_of_singleton in Hin.
          * by apply elem_of_nil in Hin.
      - by rewrite app_nil_r. }
    unfold d2, d1. by rewrite <- !app_assoc.
  - unfold ort_feeds. rewrite fmap_cons, !fmap_app, fmap_imap. cbn [fst].
    apply NoDup_cons. split.
    + intros [Hin | [Hin | Hin]%elem_of_app]%elem_of_app.
      * apply Hpastkeys in Hin as [i Hi]. by destruct (Hids i).
      * destruct (attention_mask inputs); simpl in Hin;
          [by apply list_elem_of_singleton in Hin | by apply elem_of_nil in Hin].
      * destruct (position_ids inputs); simpl in Hin;
          [by apply list_elem_of_singleton in Hin | by apply elem_of_nil in Hin].
    + apply NoDup_app. split; [|split].
      * apply NoDup_alt. intros i j k Hi Hj.
        apply list_lookup_imap_Some in Hi as (x & _ & ->).
        apply list_lookup_imap_Some in Hj as (y & _ & Heq).
        by apply (inj past_name) in Heq.
      * intros k Hk Hin. apply Hpastkeys in Hk as [i ->].
        apply elem_of_app in Hin as [Hin | Hin].
        -- destruct (attention_mask inputs); simpl in Hin;
             [apply list_elem_of_singleton in Hin; by destruct (Hmask i)
             | by apply elem_of_nil in Hin].
        -- destruct (position_ids inputs); simpl in Hin;
             [apply list_elem_of_singleton in Hin; by destruct (Hpos i)
             | by apply elem_of_nil in Hin].
      * destruct (attention_mask inputs), (position_ids inputs); simpl;
          apply (bool_decide_unpack _); by vm_compute.
Qed.

(** [onnxruntime_inference] runs the session once on the inputs by name:
    input_ids, then past_0 .. past_{n-1}, then attention_mask and
    position_ids when present.  The names are pairwise distinct, so no input
    overwrites another; the outputs, or the error, of the session are passed
    on. *)
Theorem onnxruntime_inference_feeds_by_name (ort_session : InferenceSession)
    (inputs : Gpt2Inputs) w :
  (∀ outs, run ort_session (ort_feeds inputs) = Ok outs →
     ∃ w', onnxruntime_inference ort_session inputs w = Ok (map Val outs, w')
           ∧ w_heap w' = w_heap w)
  ∧ (∀ e, run ort_session (ort_feeds inputs) = Err e →
       onnxruntime_inference ort_session inputs w = Err e)
  ∧ NoDup (ort_feeds inputs).*1.
Proof.
  destruct (onnxruntime_inference_run ort_session inputs w) as [Hrun Hnd].
  split; [|split; [|exact Hnd]].
  - intros outs Houts. rewrite Hrun. unfold session_run.
    eexists. rewrite Houts. split; [reflexivity | done].
  - intros e He. rewrite Hrun. unfold session_run. by rewrite He.
Qed.

Lemma onnxruntime_inference_feeds_by_name_witness :
  ∃ w', onnxruntime_inference two_output_session
          {| input_ids := example_input_ids; position_ids := None;
             attention_mask := Some example_mask;
             past := Some [example_empty_past; example_empty_past] |} world0
        = Ok (map Val [example_output; example_output], w')
        ∧ w_heap w' = w_heap world0.
Proof.
  destruct (onnxruntime_inference_feeds_by_name two_output_session
              {| input_ids := example_input_ids; position_ids := None;
                 attention_mask := Some example_mask;
                 past := Some [example_empty_past; example_empty_past] |} world0)
    as (H & _ & _).
  apply H. reflexivity.
Defined.

Lemma imap_snd {A B C} (g : A → C) (l : list A) : ∀ f : nat → B,
  (imap (λ i x, (f i, g x)) l).*2 = map g l.
Proof.
  induction l as [|x l IH]; intros f; [done|]. cbn. f_equal. apply (IH (f ∘ S)).
Qed.

(** With a cache present, [to_fp32] keeps the inputs in place and casts the
    floating-point ones to single precision, a second [to_fp32] changes
    nothing, and the tensors the session is fed by name are the positional
    inputs of the model, in another order. *)
Theorem engines_get_the_same_inputs (inputs : Gpt2Inputs) ps :
  past inputs = Some ps →
  ∃ fp32, to_fp32 inputs = Ok fp32
    ∧ to_list fp32 = map to_float32 (to_list inputs)
    ∧ to_fp32 fp32 = Ok fp32
    ∧ (ort_feeds inputs).*2 ≡ₚ to_list inputs.
Proof.
  intros Hpast. unfold to_fp32. rewrite Hpast. eexists. split; [done|].
  split; [|split].
  - unfold to_list. cbn.
    rewrite !map_app, Hpast. cbn. f_equal.
    destruct (position_ids inputs), (attention_mask inputs); cbn;
      by rewrite <- !list_fmap_compose.
  - cbn. do 2 f_equal.
    + destruct (attention_mask inputs); done.
    + rewrite <- list_fmap_compose. done.
  - unfold ort_feeds, to_list. rewrite Hpast. cbn [default from_option id].
    rewrite fmap_cons, !fmap_app, (imap_snd FloatT ps past_name). cbn [snd app].
    constructor.
    destruct (position_ids inputs), (attention_mask inputs); cbn;
      rewrite ?app_nil_r.
    + rewrite Permutation_app_comm. cbn. apply Permutation_swap.
    + rewrite Permutation_app_comm. done.
    + rewrite Permutation_app_comm. done.
    + done.
Qed.

Lemma engines_get_the_same_inputs_witness :
  ∃ fp32,
    to_fp32 {| input_ids := example_input_ids; position_ids := None;
               attention_mask := Some example_mask;
               past := Some [example_empty_past] |} = Ok fp32
    ∧ to_list fp32
      = map to_float32
          (to_list {| input_ids := example_input_ids; position_ids := None;
                      attention_mask := Some example_mask;
                      past := Some [example_empty_past] |})
    ∧ to_fp32 fp32 = Ok fp32
    ∧ (ort_feeds {| input_ids := example_input_ids; position_ids := None;
                    attention_mask := Some example_mask;
                    past := Some [example_empty_past] |}).*2
      ≡ₚ to_list {| input_ids := example_input_ids; position_ids := None;
                    attention_mask := Some example_mask;
                    past := Some [example_empty_past] |}.
Proof.
  apply (engines_get_the_same_inputs
           {| input_ids := example_input_ids; position_ids := None;
              attention_mask := Some example_mask;
              past := Some [example_empty_past] |} [example_empty_past]).
  reflexivity.
Defined.

(** ** Agreeing engines and the paths of the exported models *)











Lemma string_app_cons x (a b : string) : String x a +:+ b = String x (a +:+ b).
Proof. done. Qed.

Lemma string_app_assoc (a b c : string) : (a +:+ b) +:+ c = a +:+ (b +:+ c).
Proof.
  induction a as [|x a IH]; [done|]. rewrite !string_app_cons. by f_equal.
Qed.

Lemma string_app_nil_r (a : string) : a +:+ "" = a.
Proof. induction a as [|x a IH]; [done|]. rewrite string_app_cons. by f_equal. Qed.

Lemma string_length_app (a b : string) :
  String.length (a +:+ b) = (String.length a + String.length b)%nat.
Proof.
  induction a as [|x a IH]; [done|]. rewrite string_app_cons. simpl. by rewrite IH.
Qed.

Lemma starts_with_sep_app (a b : string) :
  starts_with_sep (a +:+ b)
  = if starts_with_sep a then true
    else if bool_decide (a = EmptyString) then starts_with_sep b else false.
Proof. destruct a; [done|]. rewrite string_app_cons. simpl. by destruct (bool_decide _). Qed.

Lemma ends_with_sep_app (a b : string) :
  b ≠ EmptyString → ends_with_sep (a +:+ b) = ends_with_sep b.
Proof.
  intros Hb. induction a as [|x a IH]; [done|]. rewrite string_app_cons.
  cbn [ends_with_sep]. rewrite IH.
  destruct (a +:+ b) eqn:E; [|done].
  destruct a; [by destruct (Hb E) | by rewrite string_app_cons in E].
Qed.

(** Joining [d] with a name [x] extended by a suffix that starts no path: the
    result is a prefix, fixed by [d] and [x], followed by the suffix. *)
Lemma os_path_join_suffix (d x : string) :
  ∃ P, (∀ s, starts_with_sep s = false → os_path_join d (x +:+ s) = P +:+ s)
     ∧ (starts_with_sep x = true → P = x).
Proof.
  destruct (starts_with_sep x) eqn:Hx.
  - exists x. split; [|done]. intros s Hs. unfold os_path_join.
    by rewrite starts_with_sep_app, Hx.
  - assert (∀ s, starts_with_sep s = false → starts_with_sep (x +:+ s) = false) as Hrel.
    { intros s Hs. rewrite starts_with_sep_app, Hx, Hs. by destruct (bool_decide _). }
    destruct (bool_decide (d = EmptyString) || ends_with_sep d) eqn:Hd.
    + exists (d +:+ x). split; [|done].
      intros s Hs. unfold os_path_join. rewrite (Hrel s Hs), Hd.
      by rewrite string_app_assoc.
    + exists (d +:+ "/" +:+ x). split; [|done].
      intros s Hs. unfold os_path_join. rewrite (Hrel s Hs), Hd.
      by rewrite !string_app_assoc.
Qed.

Lemma NoDup_4 {A} (a b c d : A) :
  a ≠ b → a ≠ c → a ≠ d → b ≠ c → b ≠ d → c ≠ d → NoDup [a; b; c; d].
Proof.
  intros. repeat (apply NoDup_cons; split);
    rewrite ?not_elem_of_cons; repeat split; try done;
    try apply not_elem_of_nil. apply NoDup_nil_2.
Qed.

Lemma string_app_nonempty (a b : string) : b ≠ EmptyString → a +:+ b ≠ EmptyString.
Proof. intros Hb. destruct a; [done|]. by rewrite string_app_cons. Qed.

Lemma flat_paths_distinct (d x : string) :
  NoDup [os_path_join d (x +:+ ".onnx"); os_path_join d (x +:+ "_fp32.onnx");
         os_path_join d (x +:+ "_fp16.onnx"); os_path_join d (x +:+ "_int8.onnx")].
Proof.
  destruct (os_path_join_suffix d x) as (P & HP & _).
  rewrite !HP by done.
  apply (NoDup_fmap_2 (String.app P)
           [".onnx"; "_fp32.onnx"; "_fp16.onnx"; "_int8.onnx"]%string).
  apply (bool_decide_unpack _). by vm_compute.
Qed.

Lemma folder_paths_distinct (d x : string) :
  NoDup [os_path_join (os_path_join d x) (x +:+ ".onnx");
         os_path_join (os_path_join d (x +:+ "_fp32")) (x +:+ "_fp32.onnx");
         os_path_join (os_path_join d (x +:+ "_fp16")) (x +:+ "_fp16.onnx");
         os_path_join (os_path_join d (x +:+ "_int8")) (x +:+ "_int8.onnx")].
Proof.
  destruct (starts_with_sep x) eqn:Hx.
  - assert (∀ D s, os_path_join D (x +:+ s) = x +:+ s) as Habs.
    { intros D s. unfold os_path_join. by rewrite starts_with_sep_app, Hx. }
    rewrite !Habs.
    apply (NoDup_fmap_2 (String.app x)
             [".onnx"; "_fp32.onnx"; "_fp16.onnx"; "_int8.onnx"]%string).
    apply (bool_decide_unpack _). by vm_compute.
  - destruct (os_path_join_suffix d x) as (P & HP & _).
    assert (∀ s, starts_with_sep s = false → starts_with_sep (x +:+ s) = false) as Hrel.
    { intros s Hs. rewrite starts_with_sep_app, Hx, Hs. by destruct (bool_decide _). }
    assert (os_path_join d x = P) as Hraw.
    { rewrite <- (string_app_nil_r x) at 1. rewrite HP by done.
      apply string_app_nil_r. }
    assert (∀ s' : string, s' ≠ EmptyString → starts_with_sep s' = false →
              ends_with_sep s' = false →
              os_path_join (os_path_join d (x +:+ s')) (x +:+ (s' +:+ ".onnx"))
              = P +:+ (s' +:+ ("/" +:+ (x +:+ (s' +:+ ".onnx"))))) as Hsub.
    { intros s' Hne Hs He. rewrite (HP s' Hs). unfold os_path_join at 1.
      rewrite Hrel by (destruct s'; done).
      rewrite ends_with_sep_app, He by done.
      rewrite bool_decide_eq_false_2 by (by apply string_app_nonempty).
      cbn [orb]. by rewrite !string_app_assoc. }
    change (x +:+ "_fp32.onnx") with (x +:+ ("_fp32" +:+ ".onnx")).
    change (x +:+ "_fp16.onnx") with (x +:+ ("_fp16" +:+ ".onnx")).
    change (x +:+ "_int8.onnx") with (x +:+ ("_int8" +:+ ".onnx")).
    rewrite !Hsub by done. rewrite Hraw.
    assert (∃ W, os_path_join P (x +:+ ".onnx") = P +:+ W
                 ∧ (String.length W ≤ String.length x + 6)%nat) as (W & -> & HW).
    { unfold os_path_join. rewrite Hrel by done.
      destruct (bool_decide (P = EmptyString) || ends_with_sep P).
      - eexists. split; [done|]. rewrite string_length_app. simpl. lia.
      - eexists. split; [done|]. rewrite !string_length_app. simpl. lia. }
    apply (NoDup_fmap_2 (String.app P)
             [W; "_fp32" +:+ ("/" +:+ (x +:+ ("_fp32" +:+ ".onnx")));
              "_fp16" +:+ ("/" +:+ (x +:+ ("_fp16" +:+ ".onnx")));
              "_int8" +:+ ("/" +:+ (x +:+ ("_int8" +:+ ".onnx")))]%string).
    apply NoDup_4.
    + intros ->. rewrite !string_length_app in HW. simpl in HW. lia.
    + intros ->. rewrite !string_length_app in HW. simpl in HW. lia.
    + intros ->. rewrite !string_length_app in HW. simpl in HW. lia.
    + intros H. rewrite !string_app_cons in H. discriminate H.
    + intros H. rewrite !string_app_cons in H. discriminate H.
    + intros H. rewrite !string_app_cons in H. discriminate H.
Qed.

(** [get_onnx_paths] fails with AssertionError when the model is given neither
    by a name nor by a directory; when it returns, it returns the paths of
    the raw, fp32, fp16 and int8 models, in this order, and the four paths are
    pairwise distinct, so that no model file overwrites another. *)
Theorem get_onnx_paths_distinct (env : PathEnv)
    (output_dir model_name_or_path model_class : string)
    (has_past new_folder : bool) :
  (is_model_name env model_name_or_path = false →
   os_path_isdir env model_name_or_path = false →
   get_onnx_paths env output_dir model_name_or_path model_class has_past
     new_folder = Err AssertionError)
  ∧ (∀ paths,
       get_onnx_paths env output_dir model_name_or_path model_class has_past
         new_folder = Ok paths →
       paths.*1 = ["raw"; "fp32"; "fp16"; "int8"]%string ∧ NoDup paths.*2).
Proof.
  split.
  - intros Hname Hdir. unfold get_onnx_paths. by rewrite Hname, Hdir.
  - intros paths. unfold get_onnx_paths.
    destruct (if negb (is_model_name env model_name_or_path)
              then (if os_path_isdir env model_name_or_path then mret ()
                    else Err AssertionError);;
                   path_last_part env model_name_or_path
              else mret model_name_or_path) as [name|e]; [|done].
    cbn [mbind result_bind]. cbv zeta.
    set (x := if has_past then _ else _).
    destruct new_folder; intros [= <-]; (split; [done|]).
    + apply folder_paths_distinct.
    + apply flat_paths_distinct.
Qed.

Lemma get_onnx_paths_distinct_witness :
  ∃ paths,
    get_onnx_paths example_env "onnx_models" "gpt2" "GPT2Model" true true = Ok paths
    ∧ paths.*1 = ["raw"; "fp32"; "fp16"; "int8"]%string ∧ NoDup paths.*2.
Proof.
  eexists. split; [vm_compute; reflexivity|].
  destruct (get_onnx_paths_distinct example_env "onnx_models" "gpt2" "GPT2Model"
              true true) as [_ H].
  apply H. vm_compute. reflexivity.
Defined.
